(** * Dashboard front end of the crypto monitoring bot

    A shallow embedding of the browser code of the admin dashboard
    (the dashboard script with [DOMUtils], [utils], [api], [loadAlerts],
    [parseAlertMessage], [createAlertRow], [addNewAlert], and the task
    manager script with [TaskManager.createTaskCard] and
    [TaskManager.createTask]), followed by the properties proved of it.
    Also embedded: [utils.formatNumber], [utils.formatPrice],
    [createPriceCard], [createAlertRow], and of the task manager
    [loadTasks], [deleteTask], [hideCreateDialog] and the
    notifications.

    JavaScript strings are sequences of UTF-16 code units, numbers are
    IEEE 754 binary64 values, objects coming from JSON are ordered
    association lists. *)

From Stdlib Require Import String Ascii.
From Stdlib Require Import ZArith NArith List Bool Lia.
From Stdlib Require Import SpecFloat.
Import ListNotations.

Local Open Scope Z_scope.

(* ================================================================== *)
(** * JavaScript strings *)
(* ================================================================== *)

(** A code unit is a 16-bit value; a string is a finite sequence of them. *)
Definition code_unit := N.
Definition jsstring := list code_unit.

(** ASCII literal of the source, as code units. *)
Definition lit (s : string) : jsstring :=
  map N_of_ascii (list_ascii_of_string s).

Definition cu_eqb (a b : code_unit) : bool := N.eqb a b.

Fixpoint jsstring_eqb (a b : jsstring) : bool :=
  match a, b with
  | [], [] => true
  | x :: a', y :: b' => cu_eqb x y && jsstring_eqb a' b'
  | _, _ => false
  end.

(** [s.startsWith(p)] *)
Fixpoint startsWith (s p : jsstring) {struct p} : bool :=
  match p, s with
  | [], _ => true
  | _ :: _, [] => false
  | y :: p', x :: s' => cu_eqb x y && startsWith s' p'
  end.

(** [s.includes(p)] *)
Fixpoint includes (s p : jsstring) : bool :=
  startsWith s p ||
  match s with
  | [] => false
  | _ :: s' => includes s' p
  end.

(** [s.replace(/c/g, rep)] for a one-character pattern [c] and a
    replacement [rep] without [$]. *)
Definition replace_all (c : code_unit) (rep : jsstring) (s : jsstring) : jsstring :=
  flat_map (fun x => if cu_eqb x c then rep else [x]) s.

(** The code unit of a decimal digit [0 <= d <= 9]. *)
Definition digit_cu (d : Z) : code_unit := Z.to_N (48 + d).

Definition is_digit (c : code_unit) : bool := (N.leb 48 c && N.leb c 57)%N.

(** Decimal digits of a non-negative integer, most significant first;
    ["0"] for zero. *)
Fixpoint digits_acc (fuel : nat) (n : Z) (acc : jsstring) : jsstring :=
  match fuel with
  | O => acc
  | S fuel' =>
      let acc' := digit_cu (n mod 10) :: acc in
      if n <? 10 then acc' else digits_acc fuel' (n / 10) acc'
  end.

Definition decimal_digits (n : Z) : jsstring :=
  digits_acc (S (Z.to_nat (Z.log2 n))) n [].

Definition repeat_cu (c : code_unit) (k : Z) : jsstring := repeat c (Z.to_nat k).

(* ================================================================== *)
(** * JavaScript numbers *)
(* ================================================================== *)

(** A Number is a binary64 value: sign, 53-bit mantissa, exponent. *)
Definition number := spec_float.
Definition prec : Z := 53.
Definition emax : Z := 1024.

(** The values of that type that are Numbers: those in binary64's
    canonical form. *)
Definition is_number (x : number) : bool := valid_binary prec emax x.

Definition NaN : number := S754_nan.
(** The Number nearest to an integer; [a - b], [a * b] and [a / b]. *)
Definition num_of_Z (z : Z) : number := binary_normalize prec emax z 0 false.
Definition num_sub (a b : number) : number := SFsub prec emax a b.
Definition num_mul (a b : number) : number := SFmul prec emax a b.
Definition num_div (a b : number) : number := SFdiv prec emax a b.

Definition is_finite (x : number) : bool :=
  match x with
  | S754_zero _ | S754_finite _ _ _ => true
  | _ => false
  end.

(** [x >= 0] *)
Definition num_ge0 (x : number) : bool := SFleb (S754_zero false) x.
(** [x < 0] *)
Definition num_lt0 (x : number) : bool := SFltb x (S754_zero false).

(** The magnitude of a finite number as an exact fraction [num / den]
    with [den > 0]. *)
Definition magnitude (x : number) : Z * Z :=
  match x with
  | S754_finite _ m e =>
      if 0 <=? e then (Zpos m * 2 ^ e, 1) else (Zpos m, 2 ^ (- e))
  | _ => (0, 1)
  end.

(** ** Number::toString, radix 10 *)

(** [num/den < 10^n]; the least such [n] is the decimal exponent. *)
Definition below_pow10 (num den n : Z) : bool :=
  if 0 <=? n then num <? den * 10 ^ n else num * 10 ^ (- n) <? den.

Fixpoint dec_exp_from (fuel : nat) (num den n : Z) : Z :=
  match fuel with
  | O => n
  | S fuel' =>
      if below_pow10 num den n then n else dec_exp_from fuel' num den (n + 1)
  end.

(** Least [n] in [-330 .. 330] with [num/den < 10^n]. *)
Definition dec_exp (num den : Z) : Z := dec_exp_from 660 num den (-330).

(** [floor (num/den / 10^t)] *)
Definition scaled_floor (num den t : Z) : Z :=
  if 0 <=? t then num / (den * 10 ^ t) else (num * 10 ^ (- t)) / den.

(** Comparison of [s * 10^t] with the dyadic [a * 2^q]. *)
Definition cmp_dec_dyadic (s t a q : Z) : comparison :=
  let l := s * (if 0 <=? t then 10 ^ t else 1) * (if 0 <=? q then 1 else 2 ^ (- q)) in
  let r := a * (if 0 <=? q then 2 ^ q else 1) * (if 0 <=? t then 1 else 10 ^ (- t)) in
  l ?= r.

(** Does the real [s * 10^t] round (to nearest, ties to even) to the
    binary64 value [m * 2^e]?  The values that do lie between the
    midpoints with the two neighbours, the midpoints included when [m]
    is even. *)
Definition rounds_to (m : positive) (e : Z) (s t : Z) : bool :=
  let at_binade_start := Pos.eqb m (2 ^ 52)%positive && (-1074 <? e) in
  let lo := if at_binade_start
            then cmp_dec_dyadic s t (4 * Zpos m - 1) (e - 2)
            else cmp_dec_dyadic s t (2 * Zpos m - 1) (e - 1) in
  let hi := cmp_dec_dyadic s t (2 * Zpos m + 1) (e - 1) in
  let even := Z.even (Zpos m) in
  match lo, hi with
  | Gt, Lt => true
  | Eq, _ => even
  | _, Eq => even
  | _, _ => false
  end.

(** Distance of [s * 10^t] from [num / den], scaled by [den * 10^u],
    for [u >= 0] with [t + u >= 0]. *)
Definition dist_scaled (num den : Z) (s t : Z) (u : Z) : Z :=
  Z.abs (s * 10 ^ (t + u) * den - num * 10 ^ u).

(** The candidates with [k] digits: [s * 10^(n-k)] for [n] the decimal
    exponent or one more, [s] the floor or one more; kept when
    [10^(k-1) <= s < 10^k] and the value rounds to [m * 2^e]. *)
Definition candidates (m : positive) (e : Z) (k n0 : Z) : list (Z * Z) :=
  let '(num, den) := magnitude (S754_finite false m e) in
  let cand n :=
    let s0 := scaled_floor num den (n - k) in
    filter (fun ns => let s := snd ns in
                      (10 ^ (k - 1) <=? s) && (s <? 10 ^ k) && rounds_to m e s (n - k))
           [(n, s0); (n, s0 + 1)] in
  cand n0 ++ cand (n0 + 1).

(** The closest candidate; of two equally close, the even one. *)
Fixpoint closest (num den : Z) (k u : Z) (best : Z * Z) (l : list (Z * Z)) : Z * Z :=
  match l with
  | [] => best
  | c :: l' =>
      let d := dist_scaled num den (snd c) (fst c - k) u in
      let db := dist_scaled num den (snd best) (fst best - k) u in
      let best' := if d <? db then c
                   else if (d =? db) && Z.even (snd c) then c else best in
      closest num den k u best' l'
  end.

(** Least [k >= 1] with a candidate, searched up to 17 digits (which
    always suffice for a binary64 value). Returns [(n, k, s)]. *)
Fixpoint shortest_from (fuel : nat) (m : positive) (e : Z) (n0 k : Z) : Z * Z * Z :=
  match fuel with
  | O => (n0, k, 0)
  | S fuel' =>
      match candidates m e k n0 with
      | [] => shortest_from fuel' m e n0 (k + 1)
      | c :: l =>
          let '(num, den) := magnitude (S754_finite false m e) in
          let '(n, s) := closest num den k (Z.max 0 (k - n0)) c l in (n, k, s)
      end
  end.

Definition shortest (m : positive) (e : Z) : Z * Z * Z :=
  let '(num, den) := magnitude (S754_finite false m e) in
  shortest_from 17 m e (dec_exp num den) 1.

(** Steps 7 to 11 of Number::toString: the digits of [s] laid out
    according to [n]. *)
Definition render_nks (n k s : Z) : jsstring :=
  let ds := decimal_digits s in
  if (k <=? n) && (n <=? 21) then
    ds ++ repeat_cu 48%N (n - k)
  else if (0 <? n) && (n <=? 21) then
    firstn (Z.to_nat n) ds ++ lit "." ++ skipn (Z.to_nat n) ds
  else if (-6 <? n) && (n <=? 0) then
    lit "0." ++ repeat_cu 48%N (- n) ++ ds
  else
    let ex := n - 1 in
    let sign := if 0 <=? ex then lit "+" else lit "-" in
    let etail := lit "e" ++ sign ++ decimal_digits (Z.abs ex) in
    if k =? 1 then ds ++ etail
    else firstn 1 ds ++ lit "." ++ skipn 1 ds ++ etail.

Definition Number_toString (x : number) : jsstring :=
  match x with
  | S754_nan => lit "NaN"
  | S754_zero _ => lit "0"
  | S754_infinity s => (if s then lit "-" else []) ++ lit "Infinity"
  | S754_finite s m e =>
      let '(n, k, d) := shortest m e in
      (if s then lit "-" else []) ++ render_nks n k d
  end.

(** ** Number.prototype.toFixed *)

(** [x.toFixed(f)] for an integer [0 <= f <= 100]. *)
Definition toFixed (x : number) (f : Z) : jsstring :=
  if negb (is_finite x) then Number_toString x
  else
    let s := if num_lt0 x then lit "-" else [] in
    let '(num, den) := magnitude x in
    if 10 ^ 21 * den <=? num then
      s ++ Number_toString (SFabs x)
    else
      (* the integer n with n / 10^f closest to x, the larger of two *)
      let n := (2 * num * 10 ^ f + den) / (2 * den) in
      let m := if n =? 0 then lit "0" else decimal_digits n in
      let m :=
        if f =? 0 then m
        else
          let k := Z.of_nat (length m) in
          let m := if k <=? f then repeat_cu 48%N (f + 1 - k) ++ m else m in
          let k := Z.of_nat (length m) in
          firstn (Z.to_nat (k - f)) m ++ lit "." ++ skipn (Z.to_nat (k - f)) m in
      s ++ m.

(* ================================================================== *)
(** * JavaScript values *)
(* ================================================================== *)

(** The values the dashboard handles: [undefined] and what [JSON.parse]
    and [response.json()] produce. An object is the ordered list of its
    own properties. *)
#[warnings="-register-all"]
Inductive jsval :=
| JUndefined
| JNull
| JBool (b : bool)
| JNum (x : number)
| JStr (s : jsstring)
| JArr (elems : list jsval)
| JObj (props : list (jsstring * jsval)).

(** Errors thrown by the code and the platform. *)
Inductive error_kind := TypeError | SyntaxError | PlainError | DOMException.

Record js_error := mk_error { err_kind : error_kind; err_message : jsstring }.

(** The outcome of evaluating a piece of code: a value, or a throw. *)
Inductive completion (A : Type) :=
| Normal (a : A)
| Throw (e : js_error).
Arguments Normal {A} a.
Arguments Throw {A} e.

Definition bind {A B} (c : completion A) (k : A -> completion B) : completion B :=
  match c with
  | Normal a => k a
  | Throw e => Throw e
  end.

Notation "x <- c ;; k" := (bind c (fun x => k))
  (at level 61, c at next level, right associativity).

(** [try { body } catch (e) { handler }] *)
Definition try_catch {A} (body : completion A) (handler : js_error -> completion A)
  : completion A :=
  match body with
  | Normal a => Normal a
  | Throw e => handler e
  end.

Inductive js_type := TUndefined | TObject | TBoolean | TNumber | TString.

Definition typeof (v : jsval) : js_type :=
  match v with
  | JUndefined => TUndefined
  | JNull => TObject
  | JBool _ => TBoolean
  | JNum _ => TNumber
  | JStr _ => TString
  | JArr _ | JObj _ => TObject
  end.

(** Truthiness, as tested by [?:], [if] and [||]. *)
Definition ToBoolean (v : jsval) : bool :=
  match v with
  | JUndefined | JNull => false
  | JBool b => b
  | JNum (S754_zero _) | JNum S754_nan => false
  | JNum _ => true
  | JStr s => negb (jsstring_eqb s [])
  | JArr _ | JObj _ => true
  end.

(** Own-property lookup; the first binding of a key is the property. *)
Fixpoint lookup (k : jsstring) (props : list (jsstring * jsval)) : option jsval :=
  match props with
  | [] => None
  | (k', v) :: rest => if jsstring_eqb k' k then Some v else lookup k rest
  end.

Definition has_own (k : jsstring) (props : list (jsstring * jsval)) : bool :=
  match lookup k props with Some _ => true | None => false end.

(** [obj[k] = v]: overwrite in place, or append a new property. *)
Fixpoint set_prop (k : jsstring) (v : jsval) (props : list (jsstring * jsval))
  : list (jsstring * jsval) :=
  match props with
  | [] => [(k, v)]
  | (k', v') :: rest =>
      if jsstring_eqb k' k then (k, v) :: rest else (k', v') :: set_prop k v rest
  end.

Fixpoint join (sep : jsstring) (l : list jsstring) : jsstring :=
  match l with
  | [] => []
  | [x] => x
  | x :: rest => x ++ sep ++ join sep rest
  end.

Fixpoint sequence {A} (l : list (option A)) : option (list A) :=
  match l with
  | [] => Some []
  | None :: _ => None
  | Some a :: rest =>
      match sequence rest with
      | Some r => Some (a :: r)
      | None => None
      end
  end.

(** ToString, as applied by [String(v)] and by template literals.
    [None] is the TypeError of a value that has no primitive form: an
    object from JSON whose own [toString] property shadows
    [Object.prototype.toString] with something that cannot be called.
    An array is joined with commas, [null] and [undefined] elements
    printing as nothing. *)
Fixpoint ToString (v : jsval) : option jsstring :=
  match v with
  | JUndefined => Some (lit "undefined")
  | JNull => Some (lit "null")
  | JBool true => Some (lit "true")
  | JBool false => Some (lit "false")
  | JNum x => Some (Number_toString x)
  | JStr s => Some s
  | JArr elems =>
      let elem_string e :=
        match e with
        | JUndefined | JNull => Some []
        | _ => ToString e
        end in
      match sequence (map elem_string elems) with
      | Some parts => Some (join (lit ",") parts)
      | None => None
      end
  | JObj props =>
      if has_own (lit "toString") props then None
      else Some (lit "[object Object]")
  end.

Definition cannot_convert : js_error :=
  mk_error TypeError (lit "Cannot convert object to primitive value").

Definition ToString_c (v : jsval) : completion jsstring :=
  match ToString v with
  | Some s => Normal s
  | None => Throw cannot_convert
  end.

(** [v[k]] for a key [k] that no built-in prototype defines (the
    configuration keys of this program): the own property of an object,
    [undefined] on any other value, a TypeError on [null] and
    [undefined]. *)
Definition get_prop (v : jsval) (k : jsstring) : completion jsval :=
  match v with
  | JUndefined | JNull =>
      Throw (mk_error TypeError (lit "Cannot read properties of undefined or null"))
  | JObj props =>
      match lookup k props with
      | Some x => Normal x
      | None => Normal JUndefined
      end
  | _ => Normal JUndefined
  end.

(** [a === b] against a string literal [b]. *)
Definition strict_eq_str (a : jsval) (b : jsstring) : bool :=
  match a with
  | JStr s => jsstring_eqb s b
  | _ => false
  end.

(* ================================================================== *)
(** * The dashboard script: DOMUtils *)
(* ================================================================== *)

Definition c_amp : code_unit := 38%N.
Definition c_lt : code_unit := 60%N.
Definition c_gt : code_unit := 62%N.
Definition c_quot : code_unit := 34%N.
Definition c_apos : code_unit := 39%N.

Definition e_amp : jsstring := Eval cbv in lit "&amp;".
Definition e_lt : jsstring := Eval cbv in lit "&lt;".
Definition e_gt : jsstring := Eval cbv in lit "&gt;".
Definition e_quot : jsstring := Eval cbv in lit "&quot;".
Definition e_apos : jsstring := Eval cbv in lit "&#039;".

(** [DOMUtils.escapeHtml] *)
Definition escapeHtml (unsafe : jsval) : completion jsstring :=
  match unsafe with
  | JStr s =>
      Normal (replace_all c_apos e_apos
               (replace_all c_quot e_quot
                 (replace_all c_gt e_gt
                   (replace_all c_lt e_lt
                     (replace_all c_amp e_amp s)))))
  | _ => ToString_c unsafe
  end.

(** The element [document.createElement(tag)] makes, with what the
    code sets on it. *)
#[warnings="-register-all"]
Inductive element := Element {
  el_tag : jsstring;
  el_className : jsstring;
  el_attributes : list (jsstring * jsstring);
  el_textContent : jsstring;
  el_children : list element
}.

Definition new_element (tag : jsstring) : element := Element tag [] [] [] [].

(** ASCII lower case, as an HTML document applies it to the name of an
    attribute. *)
Definition ascii_lowercase (s : jsstring) : jsstring :=
  map (fun c => if (N.leb 65 c && N.leb c 90)%N then (c + 32)%N else c) s.

(** The attribute [name] set to [value] in a list of attributes: the
    value of an attribute that is there is changed, a new one is
    appended. *)
Fixpoint set_attribute (name value : jsstring) (attrs : list (jsstring * jsstring))
  : list (jsstring * jsstring) :=
  match attrs with
  | [] => [(name, value)]
  | (name', value') :: rest =>
      if jsstring_eqb name' name then (name, value) :: rest
      else (name', value') :: set_attribute name value rest
  end.

(** [element.className = value] *)
Definition set_className (value : jsstring) (e : element) : element :=
  Element (el_tag e) value (el_attributes e) (el_textContent e) (el_children e).

(** [element.setAttribute(name, value)] on an element of an HTML
    document, for a name the browser accepts: the name is made lower
    case; the attribute [class] is what [className] reads and
    writes. *)
Definition setAttribute (name value : jsstring) (e : element) : element :=
  let name := ascii_lowercase name in
  if jsstring_eqb name (lit "class") then set_className value e
  else Element (el_tag e) (el_className e)
               (set_attribute name value (el_attributes e))
               (el_textContent e) (el_children e).

(** The body of the loop of [createElement] for one entry of
    [attributes]. *)
Definition set_attr (e : element) (kv : jsstring * jsstring) : element :=
  let '(key, value) := kv in
  if jsstring_eqb key (lit "className")
  then set_className value e
  else setAttribute key value e.

Definition appendChild (parent child : element) : element :=
  Element (el_tag parent) (el_className parent) (el_attributes parent)
          (el_textContent parent) (el_children parent ++ [child]).

(** [DOMUtils.createElement(tag, attributes, textContent)] for
    attributes whose names the browser accepts; the dashboard passes
    no attribute but [className]. *)
Definition createElement (tag : jsstring) (attributes : list (jsstring * jsstring))
  (textContent : jsstring) : element :=
  let e := fold_left set_attr attributes (new_element tag) in
  if negb (jsstring_eqb textContent [])
  then Element (el_tag e) (el_className e) (el_attributes e) textContent (el_children e)
  else e.


Section AttributeNames.
(** Which names [setAttribute] accepts; browsers have changed the rule
    over time. *)
Variable valid_attribute_name : jsstring -> bool.


End AttributeNames.

(* ================================================================== *)
(** * The dashboard script: utils *)
(* ================================================================== *)

(** [utils.formatPercentage] *)
Definition formatPercentage (value : number) : jsstring :=
  let sign := if num_ge0 value then lit "+" else [] in
  sign ++ toFixed value 2 ++ lit "%".

(* ================================================================== *)
(** * String literals of the source, as code units *)
(* ================================================================== *)

(** ['配置错误'] *)
Definition s_config_error : jsstring := [0x914D; 0x7F6E; 0x9519; 0x8BEF]%N.
(** ['目标价格: ≥ $'] *)
Definition s_target_ge : jsstring :=
  [0x76EE; 0x6807; 0x4EF7; 0x683C; 0x3A; 0x20; 0x2265; 0x20; 0x24]%N.
(** ['目标价格: ≤ $'] *)
Definition s_target_le : jsstring :=
  [0x76EE; 0x6807; 0x4EF7; 0x683C; 0x3A; 0x20; 0x2264; 0x20; 0x24]%N.
(** ['涨跌幅: '] *)
Definition s_change_pct : jsstring := [0x6DA8; 0x8DCC; 0x5E45; 0x3A; 0x20]%N.
(** ['监控预警'] *)
Definition s_monitor_alert : jsstring := [0x76D1; 0x63A7; 0x9884; 0x8B66]%N.
(** ['系统预警'] *)
Definition s_system_alert : jsstring := [0x7CFB; 0x7EDF; 0x9884; 0x8B66]%N.
(** ['突破'] *)
Definition s_break_above : jsstring := [0x7A81; 0x7834]%N.
(** ['跌破'] *)
Definition s_drop_below : jsstring := [0x8DCC; 0x7834]%N.
(** ['涨'] *)
Definition s_rise : jsstring := [0x6DA8]%N.
(** ['跌'] *)
Definition s_fall : jsstring := [0x8DCC]%N.
(** ['价格 '] *)
Definition s_price_sp : jsstring := [0x4EF7; 0x683C; 0x20]%N.
(** ['≥'] *)
Definition s_ge : jsstring := [0x2265]%N.
(** ['≤'] *)
Definition s_le : jsstring := [0x2264]%N.
(** [' $'] *)
Definition s_sp_dollar : jsstring := [0x20; 0x24]%N.
(** ['价格预警'] *)
Definition s_price_alert : jsstring := [0x4EF7; 0x683C; 0x9884; 0x8B66]%N.
(** ['涨跌 '] *)
Definition s_updown_sp : jsstring := [0x6DA8; 0x8DCC; 0x20]%N.
(** ['涨跌预警'] *)
Definition s_updown_alert : jsstring := [0x6DA8; 0x8DCC; 0x9884; 0x8B66]%N.
(** ['预警触发'] *)
Definition s_alert_fired : jsstring := [0x9884; 0x8B66; 0x89E6; 0x53D1]%N.
(** ['已发送'] *)
Definition s_sent : jsstring := [0x5DF2; 0x53D1; 0x9001]%N.
(** ['新预警'] *)
Definition s_new_alert : jsstring := [0x65B0; 0x9884; 0x8B66]%N.
(** [' 触发'] *)
Definition s_sp_fired : jsstring := [0x20; 0x89E6; 0x53D1]%N.
(** ['API请求失败: '] *)
Definition s_api_failed : jsstring :=
  [0x41; 0x50; 0x49; 0x8BF7; 0x6C42; 0x5931; 0x8D25; 0x3A; 0x20]%N.

Definition c_dot : code_unit := 46%N.
Definition c_percent : code_unit := 37%N.
Definition c_plus : code_unit := 43%N.
Definition c_minus : code_unit := 45%N.

(* ================================================================== *)
(** * The dashboard script: alert messages *)
(* ================================================================== *)

(** The longest run of decimal digits at the head, and what follows. *)
Fixpoint span_digits (s : jsstring) : jsstring * jsstring :=
  match s with
  | [] => ([], [])
  | c :: s' =>
      if is_digit c
      then let '(d, r) := span_digits s' in (c :: d, r)
      else ([], s)
  end.

(** The regular expression [\d+\.?\d*] (digits, an optional dot, digits)
    at the head of [s]: the text
    it matches (all three parts are greedy and none has to give back)
    and what follows. *)
Definition number_at (s : jsstring) : option (jsstring * jsstring) :=
  match span_digits s with
  | ([], _) => None
  | (d1, []) => Some (d1, [])
  | (d1, c :: r) =>
      if cu_eqb c c_dot
      then let '(d2, r') := span_digits r in Some (d1 ++ c :: d2, r')
      else Some (d1, c :: r)
  end.

(** [message.match] with the pattern of [number_at] in a group: group 1
    of the leftmost match. *)
Fixpoint match_number (s : jsstring) : option jsstring :=
  match number_at s with
  | Some (m, _) => Some m
  | None =>
      match s with
      | [] => None
      | _ :: s' => match_number s'
      end
  end.

(** An optional sign, the pattern of [number_at], then a percent sign,
    at the head of [s]: the signed number (group 1). After the
    greedy number the next character has to be [%]; a shorter number
    would be followed by a digit or a dot, so backtracking finds
    nothing more. *)
Definition percent_at (s : jsstring) : option jsstring :=
  let unsigned sign body :=
    match number_at body with
    | Some (m, c :: _) => if cu_eqb c c_percent then Some (sign ++ m) else None
    | _ => None
    end in
  match s with
  | c :: s' =>
      if cu_eqb c c_plus || cu_eqb c c_minus then unsigned [c] s'
      else unsigned [] s
  | [] => None
  end.

(** [message.match] with the pattern of [percent_at]: group 1 of the
    leftmost match. *)
Fixpoint match_percent (s : jsstring) : option jsstring :=
  match percent_at s with
  | Some m => Some m
  | None =>
      match s with
      | [] => None
      | _ :: s' => match_percent s'
      end
  end.

(** [parseAlertMessage] on a string. *)
Definition parseAlertMessage_str (message : jsstring) : jsstring :=
  if includes message s_break_above || includes message s_drop_below then
    match match_number message with
    | Some m1 =>
        s_price_sp ++ (if includes message s_break_above then s_ge else s_le)
                   ++ s_sp_dollar ++ m1
    | None => s_price_alert
    end
  else if includes message s_rise || includes message s_fall then
    match match_percent message with
    | Some m1 => s_updown_sp ++ m1 ++ lit "%"
    | None => s_updown_alert
    end
  else s_alert_fired.

Definition not_a_function (what : string) : js_error :=
  mk_error TypeError (lit what ++ lit " is not a function").

(** [Array.prototype.includes] with a string argument. *)
Definition array_includes (elems : list jsval) (x : jsstring) : bool :=
  existsb (fun e => strict_eq_str e x) elems.

(** [parseAlertMessage] on any value of the alert's [message] field: a
    string is parsed; an array answers [includes] but has no [match];
    anything else has no [includes]. *)
Definition parseAlertMessage (message : jsval) : completion jsstring :=
  match message with
  | JStr s => Normal (parseAlertMessage_str s)
  | JArr elems =>
      if array_includes elems s_break_above || array_includes elems s_drop_below
      then Throw (not_a_function "message.match")
      else if array_includes elems s_rise || array_includes elems s_fall
      then Throw (not_a_function "message.match")
      else Normal s_alert_fired
  | JUndefined | JNull =>
      Throw (mk_error TypeError (lit "Cannot read properties of undefined or null"))
  | _ => Throw (not_a_function "message.includes")
  end.

(* ================================================================== *)
(** * The platform *)
(* ================================================================== *)

(** Built-ins of the browser the scripts call and this development does
    not define: every theorem holds whatever they compute. *)
Class Platform := {
  (** [s.toUpperCase()] *)
  toUpperCase : jsstring -> jsstring;
  (** [parseFloat(s)] and [parseInt(s)] on a string *)
  parseFloat : jsstring -> number;
  parseInt : jsstring -> number;
  (** [JSON.parse(s)]: the value, or the SyntaxError *)
  JSON_parse : jsstring -> completion jsval;
  (** [new Date(v).getTime()] *)
  Date_getTime : jsval -> completion number
}.

(* ================================================================== *)
(** * The dashboard script: the alert table *)
(* ================================================================== *)

(** The object literal [loadAlerts] passes to [createAlertRow]. *)
Record alert_row := {
  row_time : number;
  row_symbol : jsval;
  row_type : jsstring;
  row_condition : jsstring;
  row_price : jsval;
  row_status : jsstring
}.

Section AlertTable.
Context `{Platform}.

(** The body of the [forEach] callback of [loadAlerts], up to the call
    of [createAlertRow]: the properties are read and the fields
    computed in source order. *)
Definition alertRowData (alert : jsval) : completion alert_row :=
  triggered_at <- get_prop alert (lit "triggered_at") ;;
  time <- Date_getTime triggered_at ;;
  symbol <- get_prop alert (lit "symbol") ;;
  task_id <- get_prop alert (lit "task_id") ;;
  let type := if ToBoolean task_id then s_monitor_alert else s_system_alert in
  message <- get_prop alert (lit "message") ;;
  condition <- parseAlertMessage message ;;
  price <- get_prop alert (lit "trigger_price") ;;
  sent_success <- get_prop alert (lit "sent_success") ;;
  let status := if ToBoolean sent_success then lit "success" else lit "error" in
  Normal {| row_time := time; row_symbol := symbol; row_type := type;
            row_condition := condition; row_price := price;
            row_status := status |}.
End AlertTable.

(** The status cell [createAlertRow] builds: a [td] holding the badge. *)
Definition createAlertRow_statusCell (alert : alert_row) : element :=
  let statusCell := new_element (lit "td") in
  let statusBadge :=
    createElement (lit "span")
                  [(lit "className", lit "status-badge " ++ row_status alert)]
                  s_sent in
  appendChild statusCell statusBadge.

(** The type and condition cells of [createAlertRow]. *)
Definition createAlertRow_typeCell (alert : alert_row) : element :=
  createElement (lit "td") [] (row_type alert).

Definition createAlertRow_conditionCell (alert : alert_row) : element :=
  createElement (lit "td") [] (row_condition alert).

(* ================================================================== *)
(** * The dashboard script: state *)
(* ================================================================== *)

(** The part of the page state [addNewAlert] touches: [state.alerts],
    the calls of [loadAlerts] that were started and have not finished,
    whether the page may show notifications and those it showed. *)
Record dash_state := {
  st_alerts : list jsval;
  st_loads_started : nat;
  st_notify_granted : bool;
  st_notifications : list (jsstring * jsstring)
}.

(** [array.pop()]: the array without its last element. *)
Definition pop (l : list jsval) : list jsval := removelast l.

(** [showNotification(title, message)] of the dashboard script. *)
Definition showNotification (title message : jsstring) (st : dash_state) : dash_state :=
  if st_notify_granted st
  then {| st_alerts := st_alerts st; st_loads_started := st_loads_started st;
          st_notify_granted := true;
          st_notifications := st_notifications st ++ [(title, message)] |}
  else st.

(** [addNewAlert(alert)]: the state it leaves and how it completes.
    [loadAlerts()] is started and runs to its first [await], the
    request to the server; it touches [state.alerts] only after the
    answer has come, in a later turn of the event loop. *)
Definition addNewAlert (alert : jsval) (st : dash_state) : completion unit * dash_state :=
  let alerts := alert :: st_alerts st in
  let alerts := if (10 <? length alerts)%nat then pop alerts else alerts in
  let st := {| st_alerts := alerts; st_loads_started := S (st_loads_started st);
               st_notify_granted := st_notify_granted st;
               st_notifications := st_notifications st |} in
  match (symbol <- get_prop alert (lit "symbol") ;;
         symbol_s <- ToString_c symbol ;;
         type <- get_prop alert (lit "type") ;;
         type_s <- ToString_c type ;;
         Normal (symbol_s ++ lit " " ++ type_s ++ s_sp_fired)) with
  | Normal message => (Normal tt, showNotification s_new_alert message st)
  | Throw e => (Throw e, st)
  end.


(* ================================================================== *)
(** * The earlier copy of the dashboard script *)
(* ================================================================== *)

(** ['价格阈值'] *)
Definition s_price_threshold_name : jsstring :=
  [0x4EF7; 0x683C; 0x9608; 0x503C]%N.
(** ['百分比涨跌'] *)
Definition s_percentage_name : jsstring :=
  [0x767E; 0x5206; 0x6BD4; 0x6DA8; 0x8DCC]%N.
(** ['≥ $90,000'] *)
Definition s_mock_cond_btc : jsstring :=
  [0x2265; 0x20; 0x24; 0x39; 0x30; 0x2C; 0x30; 0x30; 0x30]%N.
(** ['涨幅 ≥ 5%'] *)
Definition s_mock_cond_eth : jsstring :=
  [0x6DA8; 0x5E45; 0x20; 0x2265; 0x20; 0x35; 0x25]%N.
(** ['≤ $140'] *)
Definition s_mock_cond_sol : jsstring :=
  [0x2264; 0x20; 0x24; 0x31; 0x34; 0x30]%N.

(** The copy of the script under web/static/js has the same
    [addNewAlert] and [formatPercentage]; its [loadAlerts] builds three
    sample alerts instead of asking the server, and has no [await]: a
    call runs to its end before it returns. *)
Module Legacy.

(** One sample alert of [loadAlerts], [age] milliseconds before [now]. *)
Definition mock_alert (now : number) (age : Z) (symbol type condition : jsstring)
  (price : number) : jsval :=
  JObj [(lit "time", JNum (num_sub now (num_of_Z age)));
        (lit "symbol", JStr symbol);
        (lit "type", JStr type);
        (lit "condition", JStr condition);
        (lit "price", JNum price);
        (lit "status", JStr (lit "success"))].

(** The three readings of [Date.now()] one call of [loadAlerts] takes. *)
Definition clock : Type := number * number * number.

(** The sample alerts. *)
Definition mock_alerts (now : clock) : list jsval :=
  let '(t1, t2, t3) := now in
  [mock_alert t1 300000 (lit "BTC") s_price_threshold_name s_mock_cond_btc
              (num_of_Z 90125);
   mock_alert t2 1800000 (lit "ETH") s_percentage_name s_mock_cond_eth
              (num_div (num_of_Z 6301) (num_of_Z 2));
   mock_alert t3 3600000 (lit "SOL") s_price_threshold_name s_mock_cond_sol
              (num_div (num_of_Z 1398) (num_of_Z 10))].

(** [loadAlerts]: with the table [alerts-table] in the page, the rows
    of the sample alerts are built and [state.alerts] is replaced;
    without it, clearing the table throws, which is caught and logged. *)
Definition loadAlerts (now : clock) (alerts_table : bool) (st : dash_state)
  : dash_state :=
  if alerts_table
  then {| st_alerts := mock_alerts now;
          st_loads_started := st_loads_started st;
          st_notify_granted := st_notify_granted st;
          st_notifications := st_notifications st |}
  else st.

(** [addNewAlert(alert)] *)
Definition addNewAlert (now : clock) (alerts_table : bool) (alert : jsval)
  (st : dash_state) : completion unit * dash_state :=
  let alerts := alert :: st_alerts st in
  let alerts := if (10 <? length alerts)%nat then pop alerts else alerts in
  let st := {| st_alerts := alerts; st_loads_started := st_loads_started st;
               st_notify_granted := st_notify_granted st;
               st_notifications := st_notifications st |} in
  let st := loadAlerts now alerts_table st in
  match (symbol <- get_prop alert (lit "symbol") ;;
         symbol_s <- ToString_c symbol ;;
         type <- get_prop alert (lit "type") ;;
         type_s <- ToString_c type ;;
         Normal (symbol_s ++ lit " " ++ type_s ++ s_sp_fired)) with
  | Normal message => (Normal tt, showNotification s_new_alert message st)
  | Throw e => (Throw e, st)
  end.

End Legacy.

(* ================================================================== *)
(** * The dashboard script: the API wrappers *)
(* ================================================================== *)

Definition API_BASE : jsstring := Eval cbv in lit "/api".

Record request := {
  req_url : jsstring;
  req_method : jsstring;
  req_headers : list (jsstring * jsstring);
  req_body : option jsstring
}.

(** What the wrappers read of a response. [resp_json] is what
    [response.json()] settles to. *)
Record response := {
  resp_status : Z;
  resp_statusText : jsstring;
  resp_json : completion jsval
}.

(** [response.ok]: the status is in the range 200 to 299. *)
Definition resp_ok (r : response) : bool :=
  (200 <=? resp_status r) && (resp_status r <=? 299).

Inductive log_entry :=
| LogError (label : jsstring) (e : js_error)
| LogText (text : jsstring).

(** The page as the wrappers see and change it. *)
Record window := {
  location_href : jsstring;
  document_cookie : jsstring;
  console : list log_entry
}.

Definition set_href (href : jsstring) (w : window) : window :=
  {| location_href := href; document_cookie := document_cookie w; console := console w |}.

Definition console_error (entry : log_entry) (w : window) : window :=
  {| location_href := location_href w; document_cookie := document_cookie w;
     console := console w ++ [entry] |}.

(** [s.split(sep)] for a non-empty separator. *)
Fixpoint split_aux (sep s cur : jsstring) (skip : nat) : list jsstring :=
  match s with
  | [] => [rev cur]
  | c :: s' =>
      match skip with
      | S k => split_aux sep s' cur k
      | O =>
          if startsWith s sep
          then rev cur :: split_aux sep s' [] (length sep - 1)
          else split_aux sep s' (c :: cur) 0
      end
  end.

Definition split (s sep : jsstring) : list jsstring := split_aux sep s [] 0.

(** [getCsrfToken] *)
Definition getCsrfToken (w : window) : jsstring :=
  match find (fun row => startsWith row (lit "csrf_token="))
             (split (document_cookie w) (lit "; ")) with
  | Some row => nth 1 (split row (lit "=")) []
  | None => []
  end.

(** [showError] *)
Definition showError (message : jsstring) (w : window) : window :=
  console_error (LogText message) w.

Definition http_error (r : response) : js_error :=
  mk_error PlainError
    (lit "HTTP " ++ (if resp_status r <? 0 then lit "-" else [])
                 ++ decimal_digits (Z.abs (resp_status r))
                 ++ lit ": " ++ resp_statusText r).

Section Api.
(** The network: how [fetch] settles for a request. *)
Variable fetch : request -> completion response.
(** [JSON.stringify(v)]: the text ([None] is [undefined]), or a throw. *)
Variable JSON_stringify : jsval -> completion (option jsstring).

(** What the three wrappers share after the request is built: the
    body of [try] from [await fetch] on, and the [catch] clause. *)
Definition handle_response (r : response) (w : window) : completion jsval * window :=
  if negb (resp_ok r) then
    if resp_status r =? 401
    then (Normal JNull, set_href (lit "/login.html") w)
    else (Throw (http_error r), w)
  else (resp_json r, w).

Definition api_catch (c : completion jsval * window) : completion jsval * window :=
  match c with
  | (Normal v, w) => (Normal v, w)
  | (Throw error, w) =>
      let w := console_error (LogError (lit "API Error:") error) w in
      let w := showError (s_api_failed ++ err_message error) w in
      (Normal JNull, w)
  end.

Definition json_headers : list (jsstring * jsstring) :=
  [(lit "Content-Type", lit "application/json")].

Definition csrf_headers (w : window) : list (jsstring * jsstring) :=
  [(lit "Content-Type", lit "application/json");
   (lit "X-CSRF-Token", getCsrfToken w)].

(** [api.get(endpoint)] *)
Definition api_get (endpoint : jsval) (w : window) : completion jsval * window :=
  api_catch
    match ToString_c endpoint with
    | Throw e => (Throw e, w)
    | Normal ep =>
        match fetch {| req_url := API_BASE ++ ep; req_method := lit "GET";
                       req_headers := json_headers; req_body := None |} with
        | Throw e => (Throw e, w)
        | Normal r => handle_response r w
        end
    end.

(** [api.post(endpoint, data)] *)
Definition api_post (endpoint data : jsval) (w : window) : completion jsval * window :=
  api_catch
    match ToString_c endpoint with
    | Throw e => (Throw e, w)
    | Normal ep =>
        match JSON_stringify data with
        | Throw e => (Throw e, w)
        | Normal body =>
            match fetch {| req_url := API_BASE ++ ep; req_method := lit "POST";
                           req_headers := csrf_headers w; req_body := body |} with
            | Throw e => (Throw e, w)
            | Normal r => handle_response r w
            end
        end
    end.

(** [api.delete(endpoint)] *)
Definition api_delete (endpoint : jsval) (w : window) : completion jsval * window :=
  api_catch
    match ToString_c endpoint with
    | Throw e => (Throw e, w)
    | Normal ep =>
        match fetch {| req_url := API_BASE ++ ep; req_method := lit "DELETE";
                       req_headers := csrf_headers w; req_body := None |} with
        | Throw e => (Throw e, w)
        | Normal r => handle_response r w
        end
    end.
End Api.

(* ================================================================== *)
(** * The task manager script *)
(* ================================================================== *)

Definition k_threshold_high : jsstring := Eval cbv in lit "threshold_high".
Definition k_threshold_low : jsstring := Eval cbv in lit "threshold_low".
Definition k_percentage_threshold : jsstring := Eval cbv in lit "percentage_threshold".
Definition k_reference_price : jsstring := Eval cbv in lit "reference_price".
Definition PRICE_THRESHOLD : jsstring := Eval cbv in lit "PRICE_THRESHOLD".
Definition PERCENTAGE : jsstring := Eval cbv in lit "PERCENTAGE".

(** The task-creation form: the text fields [new FormData(form)]
    collects, in document order, and whether the form holds the submit
    button [createTask] looks up. *)
Record form := {
  form_fields : list (jsstring * jsstring);
  form_has_submit : bool
}.

(** [formData.get(name)]: the first value of that name, or [null]. *)
Fixpoint FormData_get (fields : list (jsstring * jsstring)) (name : jsstring) : jsval :=
  match fields with
  | [] => JNull
  | (k, v) :: rest => if jsstring_eqb k name then JStr v else FormData_get rest name
  end.

(** The object [createTask] hands to [api.post]. *)
Record task_data := {
  td_user_id : number;
  td_symbol : jsstring;
  td_rule_type : jsval;
  td_rule_config : list (jsstring * jsval)
}.

Definition taskData_value (td : task_data) : jsval :=
  JObj [(lit "user_id", JNum (td_user_id td));
        (lit "symbol", JStr (td_symbol td));
        (lit "rule_type", td_rule_type td);
        (lit "rule_config", JObj (td_rule_config td))].

Section TaskManager.
Context `{Platform}.

(** [parseFloat(v)] and [parseInt(v)]: the argument is made a string first. *)
Definition parseFloat_of (v : jsval) : completion number :=
  s <- ToString_c v ;; Normal (parseFloat s).
Definition parseInt_of (v : jsval) : completion number :=
  s <- ToString_c v ;; Normal (parseInt s).

(** [createTask], the block that builds [ruleConfig]. *)
Definition build_ruleConfig (ruleType : jsval) (fields : list (jsstring * jsstring))
  : completion (list (jsstring * jsval)) :=
  let ruleConfig := [] in
  if strict_eq_str ruleType PRICE_THRESHOLD then
    let condition := FormData_get fields (lit "price_condition") in
    price <- parseFloat_of (FormData_get fields (lit "threshold_price")) ;;
    if strict_eq_str condition (lit "above")
    then Normal (set_prop k_threshold_high (JNum price) ruleConfig)
    else Normal (set_prop k_threshold_low (JNum price) ruleConfig)
  else if strict_eq_str ruleType PERCENTAGE then
    pct <- parseFloat_of (FormData_get fields (lit "percentage_threshold")) ;;
    let ruleConfig := set_prop k_percentage_threshold (JNum pct) ruleConfig in
    ref <- parseFloat_of (FormData_get fields (lit "reference_price")) ;;
    Normal (set_prop k_reference_price (JNum ref) ruleConfig)
  else Normal ruleConfig.

(** [createTask] up to the call [api.post('/tasks', taskData)]: the
    [taskData] it posts, or the throw that ends it before. *)
Definition createTask_taskData (f : form) : completion task_data :=
  let formData := form_fields f in
  userId <- parseInt_of (FormData_get formData (lit "user_id")) ;;
  symbol <- match FormData_get formData (lit "symbol") with
            | JStr s => Normal (toUpperCase s)
            | _ => Throw (mk_error TypeError
                            (lit "Cannot read properties of null (reading 'toUpperCase')"))
            end ;;
  let ruleType := FormData_get formData (lit "rule_type") in
  ruleConfig <- build_ruleConfig ruleType formData ;;
  let taskData := {| td_user_id := userId; td_symbol := symbol;
                     td_rule_type := ruleType; td_rule_config := ruleConfig |} in
  if form_has_submit f then Normal taskData
  else Throw (mk_error TypeError
                (lit "Cannot read properties of null (reading 'textContent')")).

(** The configuration of a task: [rule_config] parsed when it is a
    string, taken as it is otherwise. *)
Definition parse_rule_config (rule_config : jsval) : completion jsval :=
  match rule_config with
  | JStr s => JSON_parse s
  | _ => Normal rule_config
  end.

(** [createTaskCard], the block that computes [ruleDetail]: the body
    of its [try]. *)
Definition ruleDetail_try (task : jsval) : completion jsstring :=
  rule_config <- get_prop task (lit "rule_config") ;;
  config <- parse_rule_config rule_config ;;
  rule_type <- get_prop task (lit "rule_type") ;;
  if strict_eq_str rule_type PRICE_THRESHOLD then
    threshold_high <- get_prop config k_threshold_high ;;
    if ToBoolean threshold_high then
      x <- ToString_c threshold_high ;;
      Normal (s_target_ge ++ x)
    else
      threshold_low <- get_prop config k_threshold_low ;;
      if ToBoolean threshold_low then
        x <- ToString_c threshold_low ;;
        Normal (s_target_le ++ x)
      else Normal []
  else if strict_eq_str rule_type PERCENTAGE then
    percentage_threshold <- get_prop config k_percentage_threshold ;;
    x <- ToString_c percentage_threshold ;;
    Normal (s_change_pct ++ x ++ lit "%")
  else Normal [].

(** The [ruleDetail] of the card [createTaskCard] builds: the reads
    of [task.status] and [task.rule_type] that come first (the latter
    as a property key), then the [try] with its [catch]. *)
Definition createTaskCard_ruleDetail (task : jsval) : completion jsstring :=
  _ <- get_prop task (lit "status") ;;
  rule_type <- get_prop task (lit "rule_type") ;;
  _ <- ToString_c rule_type ;;
  try_catch (ruleDetail_try task) (fun _ => Normal s_config_error).
End TaskManager.

(* ================================================================== *)
(** * The dashboard script: prices *)
(* ================================================================== *)

(** [a >= b] on Numbers. *)
Definition num_ge (a b : number) : bool := SFleb b a.

(** ['↗'] and ['↘'] *)
Definition s_arrow_up : jsstring := [0x2197]%N.
Definition s_arrow_down : jsstring := [0x2198]%N.

(** An entry of [state.prices], as the server sends it and as
    [updatePrice] builds it: two Numbers. *)
Record price_data := {
  pd_price : number;
  pd_change : number
}.

Section Prices.
(** [num.toLocaleString('en-US', {minimumFractionDigits: d,
    maximumFractionDigits: d})], computed by the browser's
    internationalisation library. *)
Variable toLocaleString_en_US : number -> Z -> jsstring.

(** [utils.formatNumber(num, decimals)], for [decimals] from 0 to 100
    (the script passes 2, 4 and 6). *)
Definition formatNumber (num : number) (decimals : Z) : jsstring :=
  if num_ge num (num_of_Z 1000) then toLocaleString_en_US num decimals
  else toFixed num decimals.

(** [utils.formatPrice] *)
Definition formatPrice (price : number) : jsstring :=
  if num_ge price (num_of_Z 1000) then lit "$" ++ formatNumber price 2
  else if num_ge price (num_of_Z 1) then lit "$" ++ formatNumber price 4
  else lit "$" ++ formatNumber price 6.

(** [createPriceCard(symbol, data)] *)
Definition createPriceCard (symbol : jsstring) (data : price_data) : element :=
  let card := Element (lit "div") (lit "price-card") [] [] [] in
  let changeClass := if num_ge0 (pd_change data) then lit "up" else lit "down" in
  let changeSymbol := if num_ge0 (pd_change data) then s_arrow_up else s_arrow_down in
  let symbolDiv :=
    createElement (lit "div") [(lit "className", lit "price-symbol")] symbol in
  let valueDiv :=
    createElement (lit "div") [(lit "className", lit "price-value")]
                  (formatPrice (pd_price data)) in
  let changeDiv :=
    createElement (lit "div") [(lit "className", lit "price-change " ++ changeClass)]
                  (formatPercentage (pd_change data) ++ lit " " ++ changeSymbol) in
  appendChild (appendChild (appendChild card symbolDiv) valueDiv) changeDiv.
End Prices.

(* ================================================================== *)
(** * The task manager script: submitting and deleting *)
(* ================================================================== *)


(** The page as the task manager sees and changes it: [this.tasks],
    the [display] style of the dialog [create-task-modal] when the
    page has it, the submit button of the form, the elements the
    script appended to [document.body], and the window of the API
    wrappers. *)
Record task_page := {
  tp_tasks : jsval;
  tp_modal_display : option jsstring;
  tp_submit_disabled : bool;
  tp_submit_text : jsstring;
  tp_body : list element;
  tp_window : window
}.

Definition set_tasks (tasks : jsval) (p : task_page) : task_page :=
  {| tp_tasks := tasks; tp_modal_display := tp_modal_display p;
     tp_submit_disabled := tp_submit_disabled p; tp_submit_text := tp_submit_text p;
     tp_body := tp_body p; tp_window := tp_window p |}.

Definition set_window (w : window) (p : task_page) : task_page :=
  {| tp_tasks := tp_tasks p; tp_modal_display := tp_modal_display p;
     tp_submit_disabled := tp_submit_disabled p; tp_submit_text := tp_submit_text p;
     tp_body := tp_body p; tp_window := w |}.


Definition body_appendChild (e : element) (p : task_page) : task_page :=
  {| tp_tasks := tp_tasks p; tp_modal_display := tp_modal_display p;
     tp_submit_disabled := tp_submit_disabled p; tp_submit_text := tp_submit_text p;
     tp_body := tp_body p ++ [e]; tp_window := tp_window p |}.

(** [console.error(label, error)] *)
Definition log_error (label : jsstring) (error : js_error) (p : task_page) : task_page :=
  set_window (console_error (LogError label error) (tp_window p)) p.

(** The string [element.textContent = v] stores: the attribute is a
    nullable string, so [null] and [undefined] clear the text and any
    other value goes through ToString. *)
Definition textContent_value (v : jsval) : completion jsstring :=
  match v with
  | JNull | JUndefined => Normal []
  | _ => ToString_c v
  end.



(** The functions of the task manager script that change the page.
    [showNotification] is the function this script declares (the
    dashboard script declares another of that name, with a title and
    a message). An [async] function is followed through its [await]s
    to its end, no other handler of the page running in between. *)
Module TaskScript.

(** [showNotification(message, type)] of the task manager script, up to
    the timers it sets: the notification is built and appended to the
    page; the timers show it and remove it in later turns. *)
Definition showNotification (message : jsval) (type : jsstring) (p : task_page)
  : completion unit * task_page :=
  match textContent_value message with
  | Throw e => (Throw e, p)
  | Normal text =>
      let notification :=
        Element (lit "div") (lit "notification " ++ type) [] text [] in
      (Normal tt, body_appendChild notification p)
  end.




Section Requests.
Context `{Platform}.
Variable fetch : request -> completion response.
Variable JSON_stringify : jsval -> completion (option jsstring).
(** [TaskManager.renderTaskList] with [this.tasks] the given value:
    the cards it puts into the page are not part of [task_page]; what
    matters here is whether it returns or throws. *)
Variable renderTaskList : jsval -> completion unit.

(** [TaskManager.loadTasks] *)
Definition loadTasks (p : task_page) : task_page :=
  let '(c, w) := api_get fetch (JStr (lit "/tasks")) (tp_window p) in
  let p := set_window w p in
  match c with
  | Throw error => log_error (lit "Error loading tasks:") error p
  | Normal tasks =>
      if ToBoolean tasks then
        let p := set_tasks tasks p in
        match renderTaskList tasks with
        | Normal _ => p
        | Throw error => log_error (lit "Error loading tasks:") error p
        end
      else p
  end.




End Requests.

End TaskScript.

(* ================================================================== *)
(** * The dashboard script: the rows of the alert table *)
(* ================================================================== *)

(** [DOMUtils.createElement(tag, attributes, textContent)] with a text
    that is any value: it is set when it is truthy. *)
Definition createElement_value (tag : jsstring) (attributes : list (jsstring * jsstring))
  (textContent : jsval) : completion element :=
  let e := fold_left set_attr attributes (new_element tag) in
  if ToBoolean textContent then
    text <- textContent_value textContent ;;
    Normal (Element (el_tag e) (el_className e) (el_attributes e) text (el_children e))
  else Normal e.

Section AlertRows.
Context `{Platform}.
Variable toLocaleString_en_US : number -> Z -> jsstring.
(** [utils.formatTime(time)] at the time of the call: it reads the
    clock, and returns a string for every Number. *)
Variable formatTime : number -> jsstring.
(** [utils.formatPrice(price)] for a price that is not a Number: what
    the comparisons and the method calls make of it. *)
Variable formatPrice_other : jsval -> completion jsstring.

(** [utils.formatPrice(alert.price)] *)
Definition formatPrice_value (price : jsval) : completion jsstring :=
  match price with
  | JNum x => Normal (formatPrice toLocaleString_en_US x)
  | _ => formatPrice_other price
  end.

(** [createAlertRow(alert)] *)
Definition createAlertRow (alert : alert_row) : completion element :=
  let row := new_element (lit "tr") in
  let timeCell := createElement (lit "td") [] (formatTime (row_time alert)) in
  let symbolCell := new_element (lit "td") in
  symbolStrong <- createElement_value (lit "strong") [] (row_symbol alert) ;;
  let symbolCell := appendChild symbolCell symbolStrong in
  let typeCell := createAlertRow_typeCell alert in
  let conditionCell := createAlertRow_conditionCell alert in
  price <- formatPrice_value (row_price alert) ;;
  let priceCell := createElement (lit "td") [] price in
  let statusCell := createAlertRow_statusCell alert in
  let row := appendChild row timeCell in
  let row := appendChild row symbolCell in
  let row := appendChild row typeCell in
  let row := appendChild row conditionCell in
  let row := appendChild row priceCell in
  let row := appendChild row statusCell in
  Normal row.

(** The callback of [alerts.forEach] in [loadAlerts], up to the row it
    appends to the table. *)
Definition alertRow (alert : jsval) : completion element :=
  row <- alertRowData alert ;;
  createAlertRow row.
End AlertRows.

(* ================================================================== *)
(** * A reference platform *)
(* ================================================================== *)

(** Definitions of the built-ins, used to run the model on concrete
    inputs. The theorems do not depend on them. *)
Module Reference.

(** The nearest binary64 (ties to even) to [p / q], for [p, q > 0]. *)
Definition round_ratio (neg : bool) (p q : Z) : number :=
  let sh := Z.max 0 (64 + Z.log2 q - Z.log2 p) in
  let a := p * 2 ^ sh in
  let mx := a / q in
  let r := a mod q in
  let lx := if r =? 0 then loc_Exact else loc_Inexact (2 * r ?= q) in
  binary_round_aux prec emax neg mx (- sh) lx.

(** The number nearest to [d * 10^e], with the sign [neg]. *)
Definition decimal_to_number (neg : bool) (d e : Z) : number :=
  if d =? 0 then S754_zero neg
  else if 0 <=? e then round_ratio neg (d * 10 ^ e) 1
  else round_ratio neg d (10 ^ (- e)).

Definition digit_value (c : code_unit) : Z := Z.of_N c - 48.

Definition digits_value (ds : jsstring) : Z :=
  fold_left (fun acc c => 10 * acc + digit_value c) ds 0.

(** White space and line terminators. *)
Definition is_space (c : code_unit) : bool :=
  existsb (N.eqb c)
    [0x9; 0xA; 0xB; 0xC; 0xD; 0x20; 0xA0; 0x1680; 0x2028; 0x2029; 0x202F;
     0x205F; 0x3000; 0xFEFF]%N
  || (N.leb 0x2000 c && N.leb c 0x200A)%N.

Fixpoint trim_start (s : jsstring) : jsstring :=
  match s with
  | c :: s' => if is_space c then trim_start s' else s
  | [] => []
  end.

Definition split_sign (s : jsstring) : bool * jsstring :=
  match s with
  | c :: s' =>
      if cu_eqb c c_minus then (true, s')
      else if cu_eqb c c_plus then (false, s')
      else (false, s)
  | [] => (false, [])
  end.

(** An exponent part at the head of [s]: its value and what follows. *)
Definition exponent_part (s : jsstring) : option (Z * jsstring) :=
  match s with
  | c :: s' =>
      if cu_eqb c 101%N || cu_eqb c 69%N then
        let '(neg, s'') := split_sign s' in
        match span_digits s'' with
        | ([], _) => None
        | (ds, r) => Some ((if neg then - digits_value ds else digits_value ds), r)
        end
      else None
  | [] => None
  end.

(** An unsigned decimal literal at the head of [s]: mantissa digits
    as an integer with the decimal exponent, and what follows. *)
Definition unsigned_decimal (s : jsstring) : option (Z * Z * jsstring) :=
  let '(d1, r1) := span_digits s in
  let '(d2, r2, dotted) :=
    match r1 with
    | c :: r =>
        if cu_eqb c c_dot
        then let '(d2, r2) := span_digits r in (d2, r2, true)
        else ([], r1, false)
    | [] => ([], r1, false)
    end in
  match d1, d2 with
  | [], [] => None
  | _, _ =>
      let m := digits_value (d1 ++ d2) in
      let e := - Z.of_nat (length d2) in
      match exponent_part r2 with
      | Some (x, r3) => Some (m, e + x, r3)
      | None => Some (m, e, r2)
      end
  end.

(** [parseFloat] *)
Definition parseFloat (s : jsstring) : number :=
  let '(neg, body) := split_sign (trim_start s) in
  if startsWith body (lit "Infinity") then S754_infinity neg
  else
    match unsigned_decimal body with
    | Some (m, e, _) => decimal_to_number neg m e
    | None => NaN
    end.

Definition hex_value (c : code_unit) : option Z :=
  if is_digit c then Some (Z.of_N c - 48)
  else if (N.leb 97 c && N.leb c 102)%N then Some (Z.of_N c - 87)
  else if (N.leb 65 c && N.leb c 70)%N then Some (Z.of_N c - 55)
  else None.

Fixpoint span_hex (s : jsstring) (acc : option Z) : option Z :=
  match s with
  | c :: s' =>
      match hex_value c with
      | Some d => span_hex s' (Some (16 * match acc with Some a => a | None => 0 end + d))
      | None => acc
      end
  | [] => acc
  end.

(** [parseInt] with no radix. *)
Definition parseInt (s : jsstring) : number :=
  let '(neg, body) := split_sign (trim_start s) in
  if startsWith body (lit "0x") || startsWith body (lit "0X") then
    match span_hex (skipn 2 body) None with
    | Some z => decimal_to_number neg z 0
    | None => NaN
    end
  else
    match span_digits body with
    | ([], _) => NaN
    | (ds, _) => decimal_to_number neg (digits_value ds) 0
    end.

(** [toUpperCase] on the letters a to z; other code units are kept
    (which is what the built-in does on ASCII text). *)
Definition toUpperCase (s : jsstring) : jsstring :=
  map (fun c => if (N.leb 97 c && N.leb c 122)%N then (c - 32)%N else c) s.

(** ** JSON.parse *)

Definition json_syntax_error : js_error :=
  mk_error SyntaxError (lit "Unexpected token in JSON").

Definition is_json_space (c : code_unit) : bool :=
  existsb (N.eqb c) [0x20; 0x9; 0xA; 0xD]%N.

Fixpoint skip_ws (s : jsstring) : jsstring :=
  match s with
  | c :: s' => if is_json_space c then skip_ws s' else s
  | [] => []
  end.

(** Four hexadecimal digits at the head of [s]. *)
Definition hex4 (s : jsstring) : option (code_unit * jsstring) :=
  match s with
  | a :: b :: c :: d :: r =>
      match hex_value a, hex_value b, hex_value c, hex_value d with
      | Some x, Some y, Some z, Some w =>
          Some (Z.to_N (((x * 16 + y) * 16 + z) * 16 + w), r)
      | _, _, _, _ => None
      end
  | _ => None
  end.

(** The characters of a JSON string after its opening quote, up to
    the closing one. *)
Fixpoint json_string (fuel : nat) (s acc : jsstring) : option (jsstring * jsstring) :=
  match fuel with
  | O => None
  | S fuel' =>
      match s with
      | [] => None
      | c :: r =>
          if cu_eqb c c_quot then Some (rev acc, r)
          else if cu_eqb c 92%N then
            match r with
            | e :: r' =>
                let simple x := json_string fuel' r' (x :: acc) in
                if cu_eqb e 34%N then simple 34%N
                else if cu_eqb e 92%N then simple 92%N
                else if cu_eqb e 47%N then simple 47%N
                else if cu_eqb e 98%N then simple 8%N
                else if cu_eqb e 102%N then simple 12%N
                else if cu_eqb e 110%N then simple 10%N
                else if cu_eqb e 114%N then simple 13%N
                else if cu_eqb e 116%N then simple 9%N
                else if cu_eqb e 117%N then
                  match hex4 r' with
                  | Some (u, r'') => json_string fuel' r'' (u :: acc)
                  | None => None
                  end
                else None
            | [] => None
            end
          else if (c <? 32)%N then None
          else json_string fuel' r (c :: acc)
      end
  end.

(** A JSON number at the head of [s]: no leading zeros, digits on
    both sides of a dot. *)
Definition json_number (s : jsstring) : option (number * jsstring) :=
  let '(neg, body) :=
    match s with
    | c :: s' => if cu_eqb c c_minus then (true, s') else (false, s)
    | [] => (false, [])
    end in
  let '(d1, r1) :=
    match body with
    | c :: r => if cu_eqb c 48%N then ([c], r) else span_digits body
    | [] => ([], [])
    end in
  match d1 with
  | [] => None
  | _ =>
      let frac :=
        match r1 with
        | c :: r =>
            if cu_eqb c c_dot then
              match span_digits r with
              | ([], _) => None
              | (d2, r2) => Some (d2, r2)
              end
            else Some ([], r1)
        | [] => Some ([], r1)
        end in
      match frac with
      | None => None
      | Some (d2, r2) =>
          let m := digits_value (d1 ++ d2) in
          let e := - Z.of_nat (length d2) in
          match r2 with
          | c :: _ =>
              if cu_eqb c 101%N || cu_eqb c 69%N then
                match exponent_part r2 with
                | Some (x, r3) => Some (decimal_to_number neg m (e + x), r3)
                | None => None
                end
              else Some (decimal_to_number neg m e, r2)
          | [] => Some (decimal_to_number neg m e, r2)
          end
      end
  end.

Definition expect (word : string) (v : jsval) (s : jsstring) : option (jsval * jsstring) :=
  if startsWith s (lit word) then Some (v, skipn (String.length word) s) else None.

(** A JSON value at the head of [s] (after white space), the
    elements of an array after its bracket, the members of an object
    after its brace. A repeated key overwrites the earlier member. *)
Fixpoint json_value (fuel : nat) (s : jsstring) : option (jsval * jsstring) :=
  match fuel with
  | O => None
  | S fuel' =>
      match skip_ws s with
      | [] => None
      | c :: r =>
          if cu_eqb c 110%N then expect "null" JNull (c :: r)
          else if cu_eqb c 116%N then expect "true" (JBool true) (c :: r)
          else if cu_eqb c 102%N then expect "false" (JBool false) (c :: r)
          else if cu_eqb c c_quot then
            match json_string (S (length r)) r [] with
            | Some (str, r') => Some (JStr str, r')
            | None => None
            end
          else if cu_eqb c 91%N then
            match skip_ws r with
            | c' :: r' =>
                if cu_eqb c' 93%N then Some (JArr [], r')
                else match json_elements fuel' r with
                     | Some (vs, r'') => Some (JArr vs, r'')
                     | None => None
                     end
            | [] => None
            end
          else if cu_eqb c 123%N then
            match skip_ws r with
            | c' :: r' =>
                if cu_eqb c' 125%N then Some (JObj [], r')
                else match json_members fuel' r [] with
                     | Some (ps, r'') => Some (JObj ps, r'')
                     | None => None
                     end
            | [] => None
            end
          else
            match json_number (c :: r) with
            | Some (x, r') => Some (JNum x, r')
            | None => None
            end
      end
  end
with json_elements (fuel : nat) (s : jsstring) : option (list jsval * jsstring) :=
  match fuel with
  | O => None
  | S fuel' =>
      match json_value fuel' s with
      | Some (v, r) =>
          match skip_ws r with
          | c :: r' =>
              if cu_eqb c 44%N then
                match json_elements fuel' r' with
                | Some (vs, r'') => Some (v :: vs, r'')
                | None => None
                end
              else if cu_eqb c 93%N then Some ([v], r')
              else None
          | [] => None
          end
      | None => None
      end
  end
with json_members (fuel : nat) (s : jsstring) (acc : list (jsstring * jsval))
  : option (list (jsstring * jsval) * jsstring) :=
  match fuel with
  | O => None
  | S fuel' =>
      match skip_ws s with
      | q :: r =>
          if cu_eqb q c_quot then
            match json_string (S (length r)) r [] with
            | Some (key, r1) =>
                match skip_ws r1 with
                | colon :: r2 =>
                    if cu_eqb colon 58%N then
                      match json_value fuel' r2 with
                      | Some (v, r3) =>
                          let acc' := set_prop key v acc in
                          match skip_ws r3 with
                          | c :: r4 =>
                              if cu_eqb c 44%N then json_members fuel' r4 acc'
                              else if cu_eqb c 125%N then Some (acc', r4)
                              else None
                          | [] => None
                          end
                      | None => None
                      end
                    else None
                | [] => None
                end
            | None => None
            end
          else None
      | [] => None
      end
  end.

(** [JSON.parse]: one value, white space around it, nothing else. *)
Definition JSON_parse (s : jsstring) : completion jsval :=
  match json_value (S (S (length s))) s with
  | Some (v, r) =>
      match skip_ws r with
      | [] => Normal v
      | _ :: _ => Throw json_syntax_error
      end
  | None => Throw json_syntax_error
  end.

(** ** Dates *)

(** [new Date(v).getTime()] for a time value [v] in milliseconds: the
    value cut to an integer, NaN outside the range of dates. Strings
    are not parsed here: they and everything else that is not a
    number are taken for an invalid date. *)
Definition Date_getTime (v : jsval) : completion number :=
  match v with
  | JNum (S754_zero _) => Normal (S754_zero false)
  | JNum (S754_finite sg m e) =>
      let '(num, den) := magnitude (S754_finite sg m e) in
      let t := num / den in
      if 8640000000000000 <? t then Normal NaN
      else Normal (num_of_Z (if sg then - t else t))
  | JNull => Normal (S754_zero false)
  | JBool b => Normal (num_of_Z (if b then 1 else 0))
  | JArr _ | JObj _ => _ <- ToString_c v ;; Normal NaN
  | _ => Normal NaN
  end.

#[export] Instance platform : Platform := {
  toUpperCase := toUpperCase;
  parseFloat := parseFloat;
  parseInt := parseInt;
  JSON_parse := JSON_parse;
  Date_getTime := Date_getTime
}.

End Reference.

(* ================================================================== *)
(** * What the properties are stated with *)
(* ================================================================== *)

(** ** Escaped text *)

(** The entity of a character, or the character itself. *)
Definition escape_one (c : code_unit) : jsstring :=
  if cu_eqb c c_amp then e_amp
  else if cu_eqb c c_lt then e_lt
  else if cu_eqb c c_gt then e_gt
  else if cu_eqb c c_quot then e_quot
  else if cu_eqb c c_apos then e_apos
  else [c].

Definition is_special (c : code_unit) : bool :=
  cu_eqb c c_lt || cu_eqb c c_gt || cu_eqb c c_quot || cu_eqb c c_apos.

Definition entities : list jsstring := [e_amp; e_lt; e_gt; e_quot; e_apos].

(** No [<], [>], double or single quote anywhere, and at every [&]
    starts one of the five entities. *)
Fixpoint well_escaped (s : jsstring) : bool :=
  match s with
  | [] => true
  | c :: s' =>
      negb (is_special c)
      && (if cu_eqb c c_amp then existsb (startsWith s) entities else true)
      && well_escaped s'
  end.

(** ** Answers of the API wrappers *)

(** How a wrapper answers when [fetch] settled as [settled], from the
    page [w]: it returns a value, never a throw. The value is [null]
    if the request failed, if the response is not OK, or if its body
    is not JSON; on status 401 the page is sent to the login page; on
    an OK response with a JSON body it is the parsed body and nothing
    else happened. *)
Definition answers (settled : completion response) (w : window)
  (result : completion jsval * window) : Prop :=
  exists v w',
    result = (Normal v, w') /\
    match settled with
    | Throw _ => v = JNull
    | Normal r =>
        if resp_ok r then
          match resp_json r with
          | Normal body => v = body /\ w' = w
          | Throw _ => v = JNull
          end
        else
          v = JNull /\
          (resp_status r = 401 -> location_href w' = lit "/login.html")
    end.

(** ** Numbers in messages *)

Definition all_digits (s : jsstring) : Prop := forallb is_digit s = true.
Definition no_digit (s : jsstring) : Prop :=
  forallb (fun c => negb (is_digit c)) s = true.
Definition starts_with_digit (s : jsstring) : bool :=
  match s with c :: _ => is_digit c | [] => false end.
Definition starts_with_dot (s : jsstring) : bool :=
  match s with c :: _ => cu_eqb c c_dot | [] => false end.

(** [x] is the first number written in [msg]: digits, or digits, a dot
    and digits, with no digit before it and ending where the digits
    end. *)
Inductive first_number (msg x : jsstring) : Prop :=
| first_integer (pre post : jsstring) :
    msg = pre ++ x ++ post ->
    no_digit pre -> x <> [] -> all_digits x ->
    starts_with_digit post = false -> starts_with_dot post = false ->
    first_number msg x
| first_decimal (pre d1 d2 post : jsstring) :
    msg = pre ++ x ++ post -> x = d1 ++ c_dot :: d2 ->
    no_digit pre -> d1 <> [] -> all_digits d1 -> all_digits d2 ->
    starts_with_digit post = false ->
    first_number msg x.

(** ** Sample data *)

(** An alert as the server sends it: 'BTC 突破 $50000'. *)
Definition ex_alert (task_id sent_success : jsval) : jsval :=
  JObj [(lit "alert_id", JNum (num_of_Z 7));
        (lit "task_id", task_id);
        (lit "symbol", JStr (lit "BTC"));
        (lit "message", JStr (lit "BTC " ++ s_break_above ++ lit " $50000"));
        (lit "trigger_price", JNum (num_of_Z 50125));
        (lit "triggered_at", JNum (num_of_Z 1700000000000));
        (lit "sent_success", sent_success)].

(** 'ETH突破3500或跌破2800' *)
Definition ex_band_message : jsstring :=
  lit "ETH" ++ s_break_above ++ lit "3500" ++ [0x6216%N] ++ s_drop_below ++ lit "2800".

(** 'ETH 跌破 $2800.50' *)
Definition ex_drop_message : jsstring :=
  lit "ETH " ++ s_drop_below ++ lit " $2800.50".

(** Ten alerts already on the page. *)
Definition ex_full_state : dash_state :=
  {| st_alerts := repeat (ex_alert (JNum (num_of_Z 1)) (JBool true)) 10;
     st_loads_started := 0;
     st_notify_granted := true;
     st_notifications := [] |}.

(** The form filled in for 'btc above 50000'. *)
Definition ex_form : form :=
  {| form_fields := [(lit "user_id", lit "42");
                     (lit "symbol", lit "btc");
                     (lit "rule_type", PRICE_THRESHOLD);
                     (lit "price_condition", lit "above");
                     (lit "threshold_price", lit "50000")];
     form_has_submit := true |}.

(** A task as the server lists it, with [rule_config] as JSON text. *)
Definition ex_task (rule_config : jsstring) : jsval :=
  JObj [(lit "task_id", JNum (num_of_Z 3));
        (lit "user_id", JNum (num_of_Z 42));
        (lit "symbol", JStr (lit "BTC"));
        (lit "rule_type", JStr PRICE_THRESHOLD);
        (lit "rule_config", JStr rule_config);
        (lit "status", JStr (lit "ACTIVE"))].

(** The JSON text of an object with one member [key: value]. *)
Definition ex_json_member (key value : string) : jsstring :=
  lit "{" ++ [c_quot] ++ lit key ++ [c_quot] ++ lit ": " ++ lit value ++ lit "}".

(** The deviation of 94600 from 90000 in percent, 5.11...; -2.5; 1e21. *)
Definition ex_gain : number :=
  num_mul (num_div (num_sub (num_of_Z 94600) (num_of_Z 90000)) (num_of_Z 90000))
          (num_of_Z 100).
Definition ex_loss : number := num_div (num_of_Z (-5)) (num_of_Z 2).
Definition ex_huge : number := num_of_Z (10 ^ 21).

(** A page with a CSRF cookie, and three ways the network answers. *)
Definition ex_window : window :=
  {| location_href := lit "/";
     document_cookie := lit "theme=dark; csrf_token=abc123";
     console := [] |}.

Definition ex_fetch_ok (body : jsval) (r : request) : completion response :=
  Normal {| resp_status := 200; resp_statusText := lit "OK"; resp_json := Normal body |}.

Definition ex_fetch_unauthorized (r : request) : completion response :=
  Normal {| resp_status := 401; resp_statusText := lit "Unauthorized";
            resp_json := Normal (JObj [(lit "error", JStr (lit "Unauthorized"))]) |}.

Definition ex_fetch_down (r : request) : completion response :=
  Throw (mk_error TypeError (lit "Failed to fetch")).

(** ** Cookies *)

Definition c_semicolon : code_unit := 59%N.
Definition c_equals : code_unit := 61%N.

(** A cookie of the cookie string: no semicolon in it. *)
Definition cookie_ok (row : jsstring) : Prop := ~ In c_semicolon row.

(** The part of [s] before the first [c]; all of it if there is none. *)
Fixpoint before_char (c : code_unit) (s : jsstring) : jsstring :=
  match s with
  | [] => []
  | x :: s' => if cu_eqb x c then [] else x :: before_char c s'
  end.

(** ** Reading escaped text *)

(** What an HTML parser reads back from text in which every [&] is the
    head of one of the five entities: each entity stands for its
    character. [skip] counts the characters of an entity still to be
    passed over. *)
Fixpoint decode_entities_aux (s : jsstring) (skip : nat) : jsstring :=
  match s with
  | [] => []
  | c :: s' =>
      match skip with
      | S k => decode_entities_aux s' k
      | O =>
          if startsWith s e_amp then c_amp :: decode_entities_aux s' 4
          else if startsWith s e_lt then c_lt :: decode_entities_aux s' 3
          else if startsWith s e_gt then c_gt :: decode_entities_aux s' 3
          else if startsWith s e_quot then c_quot :: decode_entities_aux s' 5
          else if startsWith s e_apos then c_apos :: decode_entities_aux s' 5
          else c :: decode_entities_aux s' 0
      end
  end.

Definition decode_entities (s : jsstring) : jsstring := decode_entities_aux s 0.

(** ** Elements *)








(** ** What a wrapper does to the page *)

(** The three ways a wrapper leaves the location and the console of
    the page [w]: untouched; sent to the login page with nothing
    logged, answering [null]; or with the error and its message
    logged, answering [null]. *)
Definition page_after (w : window) (result : completion jsval * window) : Prop :=
  let w' := snd result in
  (location_href w' = location_href w /\ console w' = console w) \/
  (fst result = Normal JNull /\
   location_href w' = lit "/login.html" /\ console w' = console w) \/
  (fst result = Normal JNull /\
   location_href w' = location_href w /\
   exists error,
     console w' = console w ++ [LogError (lit "API Error:") error;
                                LogText (s_api_failed ++ err_message error)]).

(** ** Values that have a string *)

(** Does [String(v)] return: [v] is a primitive, an object that has no
    [toString] property of its own, or an array whose elements are
    such values at every depth. *)
Fixpoint has_string (v : jsval) : bool :=
  match v with
  | JArr elems => forallb has_string elems
  | JObj props => negb (has_own (lit "toString") props)
  | _ => true
  end.

(** ** The form *)

(** The text [parseInt] and [parseFloat] are given for a field: its
    value, or ["null"] when the form has no such field. *)
Definition field_text (fields : list (jsstring * jsstring)) (name : jsstring) : jsstring :=
  match FormData_get fields name with
  | JStr s => s
  | _ => lit "null"
  end.

(** The form filled in for 'eth moving 5 percent from 3000', and a
    form with neither a symbol nor a rule type. *)
Definition ex_form_percentage : form :=
  {| form_fields := [(lit "user_id", lit "42");
                     (lit "symbol", lit "eth");
                     (lit "rule_type", PERCENTAGE);
                     (lit "percentage_threshold", lit "5");
                     (lit "reference_price", lit "3000")];
     form_has_submit := true |}.

Definition ex_form_untyped : form :=
  {| form_fields := [(lit "user_id", lit "42"); (lit "symbol", lit "eth")];
     form_has_submit := true |}.

(** A task of the given rule type, with [rule_config] as JSON text. *)
Definition ex_task_of (rule_type rule_config : jsstring) : jsval :=
  JObj [(lit "task_id", JNum (num_of_Z 4));
        (lit "user_id", JNum (num_of_Z 42));
        (lit "symbol", JStr (lit "ETH"));
        (lit "rule_type", JStr rule_type);
        (lit "rule_config", JStr rule_config);
        (lit "status", JStr (lit "ACTIVE"))].

(** ** Percentages in messages *)

(** [num] is written as digits, or as digits, a dot and digits (which
    may be none). *)
Definition decimal_text (num : jsstring) : Prop :=
  (num <> [] /\ all_digits num) \/
  (exists d1 d2, num = d1 ++ c_dot :: d2 /\ d1 <> [] /\ all_digits d1 /\ all_digits d2).

(** May [c] stand right before a percentage with the sign [sign]
    without being part of it: it is no digit and no dot, and no sign
    when the percentage has none of its own. *)
Definition may_precede (sign : jsstring) (c : code_unit) : bool :=
  negb (is_digit c) && negb (cu_eqb c c_dot) &&
  match sign with
  | [] => negb (cu_eqb c c_plus || cu_eqb c c_minus)
  | _ => true
  end.

Definition ends_clear (sign pre : jsstring) : bool :=
  match rev pre with
  | [] => true
  | c :: _ => may_precede sign c
  end.

(** [x] is the first percentage written in [msg]: an optional sign and
    a number, followed by the first percent sign of the message. *)
Inductive first_percentage (msg x : jsstring) : Prop :=
| first_percentage_intro (pre sign num post : jsstring) :
    msg = pre ++ x ++ c_percent :: post ->
    x = sign ++ num ->
    sign = [] \/ sign = [c_plus] \/ sign = [c_minus] ->
    decimal_text num ->
    ~ In c_percent pre ->
    ends_clear sign pre = true ->
    first_percentage msg x.

(** 'ETH 24h 涨幅 +5.2%，现价 3150' *)
Definition ex_rise_message : jsstring :=
  lit "ETH 24h " ++ [0x6DA8; 0x5E45]%N ++ lit " +5.2%" ++ [0xFF0C; 0x73B0; 0x4EF7]%N
    ++ lit " 3150".

(** ** Decimals *)

(** The last [f] decimal digits of [n], leading zeros included. *)
Fixpoint last_digits (f : nat) (n : Z) : jsstring :=
  match f with
  | O => []
  | S f' => last_digits f' (n / 10) ++ [digit_cu (n mod 10)]
  end.

(** [n] is an integer nearest to [|x| * 10^f]. *)
Definition nearest_scaled (x : number) (f : nat) (n : Z) : Prop :=
  0 <= n /\
  2 * Z.abs (10 ^ Z.of_nat f * fst (magnitude x) - n * snd (magnitude x))
    <= snd (magnitude x).

(** [x] written with a minus sign if negative, the integer part of
    [n / 10^f], a dot and [f] decimals. *)
Definition fixed_text (x : number) (f : nat) (n : Z) : jsstring :=
  (if num_lt0 x then lit "-" else [])
    ++ decimal_digits (n / 10 ^ Z.of_nat f) ++ lit "." ++ last_digits f n.

(** 94.6, one half and 1234.5 *)
Definition ex_price : number := num_div (num_of_Z 946) (num_of_Z 10).
Definition ex_half : number := num_div (num_of_Z 1) (num_of_Z 2).
Definition ex_thousands : number := num_div (num_of_Z 12345) (num_of_Z 10).

(** A stand-in for [toLocaleString]: the properties below do not
    depend on it. *)
Definition ex_toLocaleString (x : number) (decimals : Z) : jsstring := lit "1,234.50".

(** ** Notifications of the task manager *)

(** The notification [showNotification(text, kind)] appends to the page. *)
Definition notification (kind text : jsstring) : element :=
  Element (lit "div") (lit "notification " ++ kind) [] text [].





(** ** Fields of an object *)

(** [obj.k] for an object with the own properties [props]. *)
Definition own_field (props : list (jsstring * jsval)) (k : jsstring) : jsval :=
  match lookup k props with
  | Some v => v
  | None => JUndefined
  end.

(** ** More sample data *)

(** The price alert as the README shows it: a current price of
    $50,125.00 over an upper bound of $50,000.00. *)
Definition ex_readme_alert : jsstring :=
  [0xD83D; 0xDD34]%N ++ lit " BTC " ++ s_price_alert ++ [0xA; 0xA]%N
    ++ [0x5F53; 0x524D; 0x4EF7; 0x683C]%N ++ lit ": $50,125.00" ++ [0xA]%N
    ++ [0x5DF2; 0x8FBE; 0x5230; 0x4E0A; 0x9650]%N ++ lit ": $50,000.00" ++ [0xA; 0xA]%N
    ++ [0xD83D; 0xDCC8]%N ++ lit " " ++ s_break_above
    ++ [0x4E0A; 0x9650; 0x9608; 0x503C; 0xFF01]%N.

(** The JSON text of a band: an upper bound of 3500 and a lower bound
    of 2800, as '/add ETH price 3500 2800' asks for. *)
Definition ex_band_config : jsstring :=
  lit "{" ++ [c_quot] ++ lit "threshold_high" ++ [c_quot] ++ lit ": 3500, "
    ++ [c_quot] ++ lit "threshold_low" ++ [c_quot] ++ lit ": 2800}".

(** Stand-ins for the parameters of the alert rows: a time that reads
    '刚刚', digits grouped in threes, and a price that is not a Number
    (no sample alert has one). *)
Definition ex_formatTime (time : number) : jsstring := [0x521A; 0x521A]%N.

Fixpoint group_rev (digits : jsstring) (k : nat) : jsstring :=
  match digits with
  | [] => []
  | c :: rest =>
      if Nat.eqb k 3 then 44%N :: c :: group_rev rest 1
      else c :: group_rev rest (S k)
  end.

Definition ex_grouped (x : number) (decimals : Z) : jsstring :=
  let s := toFixed x decimals in
  let whole := before_char c_dot s in
  rev (group_rev (rev whole) 0) ++ skipn (length whole) s.

Definition ex_formatPrice_other (price : jsval) : completion jsstring :=
  Throw (mk_error TypeError (lit "num.toFixed is not a function")).

(** The first five cells of the row of [ex_alert]: time, symbol, type,
    condition and price. *)
Definition ex_alert_cells : list element :=
  [Element (lit "td") [] [] [0x521A; 0x521A]%N [];
   Element (lit "td") [] [] [] [Element (lit "strong") [] [] (lit "BTC") []];
   Element (lit "td") [] [] s_monitor_alert [];
   Element (lit "td") [] [] (s_price_sp ++ s_ge ++ s_sp_dollar ++ lit "50000") [];
   Element (lit "td") [] [] (lit "$50,125.00") []].

(** The status cell of a row: a badge of the given class and text. *)
Definition status_cell (className text : jsstring) : element :=
  Element (lit "td") [] [] [] [Element (lit "span") className [] text []].

(* ================================================================== *)
(** * Properties *)
(* ================================================================== *)

(** ** Code units and strings *)

Lemma cu_eqb_eq (a b : code_unit) : cu_eqb a b = true <-> a = b.
Proof. apply N.eqb_eq. Qed.

Lemma cu_eqb_neq (a b : code_unit) : cu_eqb a b = false <-> a <> b.
Proof. apply N.eqb_neq. Qed.

Lemma jsstring_eqb_eq (a b : jsstring) : jsstring_eqb a b = true <-> a = b.
Proof.
  revert b; induction a as [|x a IH]; intros [|y b]; simpl; split; intro E;
    try reflexivity; try discriminate.
  - apply andb_true_iff in E as [E1 E2].
    apply cu_eqb_eq in E1. apply IH in E2. congruence.
  - injection E as -> ->. apply andb_true_iff; split.
    + now apply cu_eqb_eq.
    + now apply IH.
Qed.

Lemma jsstring_eqb_refl (a : jsstring) : jsstring_eqb a a = true.
Proof. now apply jsstring_eqb_eq. Qed.

(** ** Proof steps *)

(** Case analysis on the completion a definition branches on. *)
Ltac case_completion :=
  match goal with
  | |- context [match ?c with Normal _ => _ | Throw _ => _ end] => destruct c
  end.

(** Case analysis on a character: each of the five that are escaped,
    then any other, with the five comparisons rewritten to [false]. *)
Ltac case_character c :=
  destruct (N.eqb_spec c c_amp) as [->|?Hamp];
  [|destruct (N.eqb_spec c c_lt) as [->|?Hlt];
    [|destruct (N.eqb_spec c c_gt) as [->|?Hgt];
      [|destruct (N.eqb_spec c c_quot) as [->|?Hquot];
        [|destruct (N.eqb_spec c c_apos) as [->|?Hapos];
          [|apply N.eqb_neq in Hamp, Hlt, Hgt, Hquot, Hapos]]]]].

(** ** The alert list *)

Lemma removelast_cons_length (A : Type) (a : A) (l : list A) :
  l <> [] -> length (removelast (a :: l)) = length l.
Proof.
  intro Hne. revert a. induction l as [|b l IH]; intro a.
  - contradiction.
  - destruct l as [|c l].
    + reflexivity.
    + change (removelast (a :: b :: c :: l)) with (a :: removelast (b :: c :: l)).
      change (length (a :: removelast (b :: c :: l)))
        with (S (length (removelast (b :: c :: l)))).
      rewrite (IH ltac:(discriminate) b). reflexivity.
Qed.

Lemma addNewAlert_alerts (alert : jsval) (st : dash_state) :
  st_alerts (snd (addNewAlert alert st)) =
  if (10 <? length (alert :: st_alerts st))%nat
  then pop (alert :: st_alerts st)
  else alert :: st_alerts st.
Proof.
  unfold addNewAlert.
  set (alerts := if (10 <? length (alert :: st_alerts st))%nat
                 then pop (alert :: st_alerts st) else alert :: st_alerts st).
  case_completion; simpl; [| reflexivity].
  unfold showNotification. simpl. destruct (st_notify_granted st); reflexivity.
Qed.

(** C8 holds in the script that asks the server for its alerts: if
    [state.alerts] holds at most 10 alerts, then after
    [addNewAlert(alert)] the new alert is its first element and it still
    holds at most 10: at 10, the last (oldest) one was dropped. This
    holds however the call completes. *)
Theorem addNewAlert_at_most_ten (alert : jsval) (st : dash_state) :
  (length (st_alerts st) <= 10)%nat ->
  let st' := snd (addNewAlert alert st) in
  hd_error (st_alerts st') = Some alert /\
  (length (st_alerts st') <= 10)%nat /\
  st_alerts st' =
    (if (length (st_alerts st) <? 10)%nat then alert :: st_alerts st
     else alert :: removelast (st_alerts st)).
Proof.
  intros Hlen st'. subst st'. rewrite addNewAlert_alerts.
  destruct (Nat.ltb_spec 10 (length (alert :: st_alerts st))) as [Hgt | Hle];
    cbn [length] in *.
  - assert (Hten : length (st_alerts st) = 10%nat) by lia.
    destruct (st_alerts st) as [|b l] eqn:E; [discriminate|].
    assert (Hpop : pop (alert :: b :: l) = alert :: removelast (b :: l)) by reflexivity.
    rewrite Hpop.
    destruct (Nat.ltb_spec (length (b :: l)) 10) as [Hlt | _]; [lia|].
    repeat split.
    change (alert :: removelast (b :: l)) with (removelast (alert :: b :: l)).
    rewrite removelast_cons_length by discriminate. lia.
  - destruct (Nat.ltb_spec (length (st_alerts st)) 10) as [_ | Hge]; [|lia].
    repeat split. simpl. lia.
Qed.





(** ** escapeHtml *)

Lemma flat_map_flat_map (A B C : Type) (f : A -> list B) (g : B -> list C) (l : list A) :
  flat_map g (flat_map f l) = flat_map (fun x => flat_map g (f x)) l.
Proof.
  induction l as [|a l IH]; simpl; [reflexivity|].
  rewrite flat_map_app, IH. reflexivity.
Qed.

Lemma escape_chain_one (c : code_unit) :
  replace_all c_apos e_apos
    (replace_all c_quot e_quot
      (replace_all c_gt e_gt
        (replace_all c_lt e_lt
          (replace_all c_amp e_amp [c])))) = escape_one c.
Proof.
  unfold escape_one, replace_all.
  case_character c; try reflexivity.
  unfold cu_eqb. simpl. rewrite Hamp. simpl. rewrite Hlt. simpl.
  rewrite Hgt. simpl. rewrite Hquot. simpl. rewrite Hapos. reflexivity.
Qed.

(** The five replacements in sequence amount to one pass that maps
    every character to its entity. *)
Lemma escape_chain (s : jsstring) :
  replace_all c_apos e_apos
    (replace_all c_quot e_quot
      (replace_all c_gt e_gt
        (replace_all c_lt e_lt
          (replace_all c_amp e_amp s)))) = flat_map escape_one s.
Proof.
  induction s as [|c s IH]; [reflexivity|].
  change (c :: s) with ([c] ++ s).
  unfold replace_all in *.
  repeat rewrite flat_map_app.
  rewrite IH. f_equal.
  change (flat_map escape_one [c]) with (escape_one c ++ []).
  rewrite app_nil_r. exact (escape_chain_one c).
Qed.

Lemma well_escaped_one (c : code_unit) (t : jsstring) :
  well_escaped (escape_one c ++ t) = well_escaped t.
Proof.
  unfold escape_one.
  case_character c; try (now vm_compute).
  unfold cu_eqb. rewrite Hamp, Hlt, Hgt, Hquot, Hapos.
  cbn [app well_escaped]. unfold is_special, cu_eqb.
  rewrite Hamp, Hlt, Hgt, Hquot, Hapos. reflexivity.
Qed.

Lemma well_escaped_flat_map (s : jsstring) :
  well_escaped (flat_map escape_one s) = true.
Proof.
  induction s as [|c s IH]; [reflexivity|].
  simpl flat_map. rewrite well_escaped_one. exact IH.
Qed.

Lemma well_escaped_no_special (s : jsstring) (c : code_unit) :
  well_escaped s = true -> In c s -> is_special c = false.
Proof.
  induction s as [|x s IH]; intros W I; [contradiction|].
  cbn [well_escaped] in W.
  apply andb_true_iff in W as [W1 W2]. apply andb_true_iff in W1 as [W0 _].
  destruct I as [E | I].
  - subst. now apply negb_true_iff.
  - now apply IH.
Qed.

Lemma well_escaped_amp (pre post : jsstring) :
  well_escaped (pre ++ c_amp :: post) = true ->
  exists e rest, In e entities /\ c_amp :: post = e ++ rest.
Proof.
  induction pre as [|x pre IH]; intro W.
  - change ([] ++ c_amp :: post) with (c_amp :: post) in W.
    cbn [well_escaped] in W.
    apply andb_true_iff in W as [W1 _]. apply andb_true_iff in W1 as [_ W1].
    change (cu_eqb c_amp c_amp) with true in W1. cbn iota in W1.
    apply existsb_exists in W1 as [e [He Hs]].
    exists e. revert Hs. generalize (c_amp :: post) as t.
    induction e as [|y e IHe]; intros t Hs.
    + exists t. split; [exact He | reflexivity].
    + destruct t as [|z t]; [discriminate|].
      simpl in Hs. apply andb_true_iff in Hs as [E1 E2].
      apply cu_eqb_eq in E1. subst z.
      assert (Hin : exists rest, t = e ++ rest).
      { clear He IHe. revert t E2. induction e as [|w e IHw]; intros t E2.
        - now exists t.
        - destruct t as [|z t]; [discriminate|]. simpl in E2.
          apply andb_true_iff in E2 as [F1 F2]. apply cu_eqb_eq in F1. subst z.
          destruct (IHw t F2) as [rest ->]. now exists rest. }
      destruct Hin as [rest ->]. exists rest. split; [exact He | reflexivity].
  - simpl in W. apply andb_true_iff in W as [_ W]. now apply IH.
Qed.

(** Induction on a value, with the elements of an array. *)
Lemma jsval_elements_ind (P : jsval -> Prop) :
  P JUndefined -> P JNull -> (forall b, P (JBool b)) -> (forall x, P (JNum x)) ->
  (forall s, P (JStr s)) ->
  (forall elems, Forall P elems -> P (JArr elems)) ->
  (forall props, P (JObj props)) ->
  forall v, P v.
Proof.
  intros Hu Hn Hb Hx Hs Ha Ho.
  fix IH 1. intros [ | | b | x | s | elems | props].
  - exact Hu.
  - exact Hn.
  - apply Hb.
  - apply Hx.
  - apply Hs.
  - apply Ha.
    exact ((fix all (l : list jsval) : Forall P l :=
              match l with
              | [] => Forall_nil P
              | v :: l' => Forall_cons v (IH v) (all l')
              end) elems).
  - apply Ho.
Qed.

(** [String(v)] returns exactly on the values that have a string. *)
Lemma ToString_has_string (v : jsval) :
  match ToString v with Some _ => true | None => false end = has_string v.
Proof.
  induction v as [ | | b | x | s | elems IH | props] using jsval_elements_ind;
    try reflexivity.
  - destruct b; reflexivity.
  - cbn [ToString has_string].
    set (elem_string := fun e => match e with
                                 | JUndefined | JNull => Some []
                                 | _ => ToString e
                                 end).
    assert (Hseq : match sequence (map elem_string elems) with
                   | Some _ => true
                   | None => false
                   end = forallb has_string elems).
    { induction IH as [|v l Hv _ IHl]; [reflexivity|].
      assert (Hf : match elem_string v with Some _ => true | None => false end
                   = has_string v)
        by (rewrite <- Hv; destruct v; reflexivity).
      cbn [map sequence forallb]. rewrite <- IHl, <- Hf.
      destruct (elem_string v); [|reflexivity].
      destruct (sequence (map elem_string l)); reflexivity. }
    rewrite <- Hseq. destruct (sequence (map elem_string elems)); reflexivity.
  - cbn [ToString has_string]. destruct (has_own (lit "toString") props); reflexivity.
Qed.

(** C9 (as amended). [escapeHtml] hands a non-string argument to
    [String] and returns what that gives. It returns exactly on the
    values that have a string: every primitive, every object without
    a [toString] property of its own, every array whose elements are
    such values at every depth; on every other value it throws the
    TypeError of [String]. On a string it returns the string with
    every [&], [<], [>], double and single quote replaced by its
    entity: the result holds none of [<], [>] and the two quotes, and
    at every [&] of the result starts one of the five entities. *)
Theorem escapeHtml_spec :
  (forall v, typeof v <> TString -> escapeHtml v = ToString_c v) /\
  (forall v s, ToString v = Some s -> exists out, escapeHtml v = Normal out) /\
  (forall v, has_string v = true -> exists out, escapeHtml v = Normal out) /\
  (forall v, has_string v = false -> escapeHtml v = Throw cannot_convert) /\
  escapeHtml (JArr [JObj [(lit "toString", JNum (num_of_Z 1))]]) = Throw cannot_convert /\
  (forall s, exists out,
      escapeHtml (JStr s) = Normal out /\
      out = flat_map escape_one s /\
      well_escaped out = true /\
      (forall c, In c out ->
         c <> c_lt /\ c <> c_gt /\ c <> c_quot /\ c <> c_apos) /\
      (forall pre post, out = pre ++ c_amp :: post ->
         exists e rest, In e entities /\ c_amp :: post = e ++ rest)).
Proof.
  assert (Hsome : forall v s, ToString v = Some s -> exists out, escapeHtml v = Normal out).
  { intros v s Hs. destruct v; unfold escapeHtml;
      try (unfold ToString_c; rewrite Hs; now eexists).
    now eexists. }
  split; [|split; [exact Hsome|split; [|split; [|split]]]].
  - intros v Hty. destruct v; try reflexivity. now contradiction Hty.
  - intros v Hv. pose proof (ToString_has_string v) as Hts. rewrite Hv in Hts.
    destruct (ToString v) as [s|] eqn:Es; [|discriminate]. exact (Hsome v s Es).
  - intros v Hv. pose proof (ToString_has_string v) as Hts. rewrite Hv in Hts.
    destruct (ToString v) as [s|] eqn:Es; [discriminate|].
    destruct v; try discriminate; unfold escapeHtml, ToString_c; rewrite Es; reflexivity.
  - reflexivity.
  - intro s. exists (flat_map escape_one s).
    assert (W := well_escaped_flat_map s).
    split; [|split; [|split; [|split]]].
    + unfold escapeHtml. now rewrite escape_chain.
    + reflexivity.
    + exact W.
    + intros c Hin. pose proof (well_escaped_no_special _ _ W Hin) as Hsp.
      unfold is_special in Hsp.
      repeat (apply orb_false_iff in Hsp as [Hsp ?]).
      repeat split; apply cu_eqb_neq; assumption.
    + intros pre post E. apply well_escaped_amp with (pre := pre).
      now rewrite <- E.
Qed.

(** C9, the claim as stated fails: [String] has no result for an object
    whose own [toString] cannot be called, and [escapeHtml] throws its
    TypeError. *)
Lemma escapeHtml_throws_on_unprintable :
  escapeHtml (JObj [(lit "toString", JNum (num_of_Z 1))]) = Throw cannot_convert.
Proof. reflexivity. Qed.

(** ** The API wrappers *)

Lemma api_catch_handle_response (r : response) (w : window) :
  answers (Normal r) w (api_catch (handle_response r w)).
Proof.
  unfold answers, handle_response.
  destruct (resp_ok r); simpl.
  - destruct (resp_json r) as [body | e]; simpl; eauto.
  - destruct (Z.eqb_spec (resp_status r) 401) as [E | NE]; simpl.
    + do 2 eexists. split; [reflexivity|]. split; reflexivity.
    + do 2 eexists. split; [reflexivity|]. split; [reflexivity|]. intro. contradiction.
Qed.

Lemma api_catch_throw (e : js_error) (w : window) :
  exists w', api_catch (Throw e, w) = (Normal JNull, w').
Proof. simpl. eexists. reflexivity. Qed.

Lemma api_catch_never_throws (c : completion jsval * window) :
  exists v w', api_catch c = (Normal v, w').
Proof. destruct c as [[v | e] w]; simpl; eauto. Qed.

(** C10. Whatever the endpoint, the payload, the page, the network and
    [JSON.stringify] do, [api.get], [api.post] and [api.delete] return a
    value and never throw; when the request was made they answer as
    [answers] says ([null] on a network error or a response that is not
    OK, after the redirect to the login page on 401; the parsed body on
    an OK response), and when it could not be built they return
    [null]. *)
Theorem api_wrappers_never_throw
  (fetch : request -> completion response)
  (JSON_stringify : jsval -> completion (option jsstring))
  (endpoint data : jsval) (w : window) :
  (exists v w', api_get fetch endpoint w = (Normal v, w')) /\
  (exists v w', api_post fetch JSON_stringify endpoint data w = (Normal v, w')) /\
  (exists v w', api_delete fetch endpoint w = (Normal v, w')) /\
  (forall ep, ToString endpoint = Some ep ->
     answers (fetch {| req_url := API_BASE ++ ep; req_method := lit "GET";
                       req_headers := json_headers; req_body := None |})
             w (api_get fetch endpoint w) /\
     answers (fetch {| req_url := API_BASE ++ ep; req_method := lit "DELETE";
                       req_headers := csrf_headers w; req_body := None |})
             w (api_delete fetch endpoint w) /\
     (forall body, JSON_stringify data = Normal body ->
        answers (fetch {| req_url := API_BASE ++ ep; req_method := lit "POST";
                          req_headers := csrf_headers w; req_body := body |})
                w (api_post fetch JSON_stringify endpoint data w)) /\
     (forall e, JSON_stringify data = Throw e ->
        exists w', api_post fetch JSON_stringify endpoint data w = (Normal JNull, w'))) /\
  (ToString endpoint = None ->
     exists w1 w2 w3,
       api_get fetch endpoint w = (Normal JNull, w1) /\
       api_post fetch JSON_stringify endpoint data w = (Normal JNull, w2) /\
       api_delete fetch endpoint w = (Normal JNull, w3)).
Proof.
  split; [apply api_catch_never_throws|].
  split; [apply api_catch_never_throws|].
  split; [apply api_catch_never_throws|].
  split.
  - intros ep Hep. split; [|split; [|split]].
    + unfold api_get, ToString_c. rewrite Hep.
      destruct (fetch _) as [r | e].
      * apply api_catch_handle_response.
      * simpl. unfold answers. do 2 eexists. split; reflexivity.
    + unfold api_delete, ToString_c. rewrite Hep.
      destruct (fetch _) as [r | e].
      * apply api_catch_handle_response.
      * simpl. unfold answers. do 2 eexists. split; reflexivity.
    + intros body Hb. unfold api_post, ToString_c. rewrite Hep, Hb.
      destruct (fetch _) as [r | e].
      * apply api_catch_handle_response.
      * simpl. unfold answers. do 2 eexists. split; reflexivity.
    + intros e He. unfold api_post, ToString_c. rewrite Hep, He.
      apply api_catch_throw.
  - intro Hn. unfold api_get, api_post, api_delete, ToString_c. rewrite Hn.
    simpl. do 3 eexists. repeat split.
Qed.

(** ** The alert table *)

Lemma bind_Normal {A B} (c : completion A) (k : A -> completion B) (b : B) :
  bind c k = Normal b -> exists a, c = Normal a /\ k a = Normal b.
Proof. destruct c as [a | e]; simpl; [eauto | discriminate]. Qed.

(** A row that was built read every property of the alert and computed
    its fields from them. *)
Lemma alertRowData_inv `{Platform} (alert : jsval) (row : alert_row) :
  alertRowData alert = Normal row ->
  exists task_id message sent_success,
    get_prop alert (lit "task_id") = Normal task_id /\
    get_prop alert (lit "message") = Normal message /\
    get_prop alert (lit "sent_success") = Normal sent_success /\
    row_type row = (if ToBoolean task_id then s_monitor_alert else s_system_alert) /\
    parseAlertMessage message = Normal (row_condition row) /\
    row_status row = (if ToBoolean sent_success then lit "success" else lit "error").
Proof.
  unfold alertRowData. intro E.
  apply bind_Normal in E as [triggered_at [_ E]].
  apply bind_Normal in E as [time [_ E]].
  apply bind_Normal in E as [symbol [_ E]].
  apply bind_Normal in E as [task_id [Htask E]].
  apply bind_Normal in E as [message [Hmsg E]].
  apply bind_Normal in E as [condition [Hcond E]].
  apply bind_Normal in E as [price [_ E]].
  apply bind_Normal in E as [sent_success [Hsent E]].
  injection E as <-. simpl.
  exists task_id, message, sent_success. repeat split; assumption.
Qed.

(** The badge of the status cell carries the row's status as its class;
    its label is the same for every status. *)
Lemma createAlertRow_statusCell_badge (row : alert_row) :
  createAlertRow_statusCell row =
  Element (lit "td") [] [] []
          [Element (lit "span") (lit "status-badge " ++ row_status row) [] s_sent []].
Proof. reflexivity. Qed.

(** C3, the code at the failing input. Every row that [loadAlerts]
    builds ends with the status cell, whose badge carries the status
    as its class ('status-badge success' for a truthy [sent_success],
    'status-badge error' otherwise) and reads '已发送' whatever the
    status is. The row of an alert whose delivery failed differs from
    the row of the same alert delivered only in that class: its badge
    reads '已发送' as well. *)
Theorem failed_send_badge_reads_sent :
  (forall (P : Platform) toLocaleString_en_US formatTime formatPrice_other alert tr,
      alertRow toLocaleString_en_US formatTime formatPrice_other alert = Normal tr ->
      exists sent_success cells,
        get_prop alert (lit "sent_success") = Normal sent_success /\
        length cells = 5%nat /\
        el_children tr =
          cells ++ [status_cell (lit "status-badge "
                                   ++ (if ToBoolean sent_success
                                       then lit "success" else lit "error"))
                                s_sent]) /\
  alertRow (H := Reference.platform) ex_grouped ex_formatTime ex_formatPrice_other
           (ex_alert (JNum (num_of_Z 3)) (JBool false))
    = Normal (Element (lit "tr") [] [] []
                (ex_alert_cells ++ [status_cell (lit "status-badge error") s_sent])) /\
  alertRow (H := Reference.platform) ex_grouped ex_formatTime ex_formatPrice_other
           (ex_alert (JNum (num_of_Z 3)) (JBool true))
    = Normal (Element (lit "tr") [] [] []
                (ex_alert_cells ++ [status_cell (lit "status-badge success") s_sent])).
Proof.
  split; [|split; vm_compute; reflexivity].
  intros P toLocaleString_en_US formatTime formatPrice_other alert tr E.
  unfold alertRow in E. apply bind_Normal in E as [row [Hrow E]].
  apply alertRowData_inv in Hrow
    as (task_id & message & sent_success & _ & _ & Hsent & _ & _ & Hstatus).
  unfold createAlertRow in E.
  apply bind_Normal in E as [symbolStrong [_ E]].
  apply bind_Normal in E as [price [_ E]].
  injection E as <-.
  exists sent_success.
  exists [createElement (lit "td") [] (formatTime (row_time row));
          appendChild (new_element (lit "td")) symbolStrong;
          createAlertRow_typeCell row;
          createAlertRow_conditionCell row;
          createElement (lit "td") [] price].
  split; [exact Hsent|]. split; [reflexivity|].
  rewrite createAlertRow_statusCell_badge, Hstatus. reflexivity.
Qed.

(** C6 (as amended). For every alert for which [loadAlerts] builds a
    row, the type shown is the task-linked '监控预警' if and only if
    [task_id] is truthy, and the system-level '系统预警' otherwise: an
    alert whose [task_id] is null (or absent) is a system alert, and
    one whose [task_id] is a number other than zero is a monitoring
    alert. *)
Theorem alert_type_reflects_task_id `{Platform} (alert : jsval) (row : alert_row) :
  alertRowData alert = Normal row ->
  exists task_id,
    get_prop alert (lit "task_id") = Normal task_id /\
    (row_type row = s_monitor_alert <-> ToBoolean task_id = true) /\
    (row_type row = s_system_alert <-> ToBoolean task_id = false) /\
    (task_id = JNull \/ task_id = JUndefined -> row_type row = s_system_alert) /\
    (forall s m e, task_id = JNum (S754_finite s m e) -> row_type row = s_monitor_alert) /\
    el_textContent (createAlertRow_typeCell row) = row_type row.
Proof.
  intro E. apply alertRowData_inv in E
    as (task_id & message & sent_success & Htask & _ & _ & Htype & _ & _).
  exists task_id. split; [exact Htask|].
  rewrite Htype.
  split; [|split; [|split; [|split]]].
  - destruct (ToBoolean task_id); split; intro; try reflexivity; discriminate.
  - destruct (ToBoolean task_id); split; intro; try reflexivity; discriminate.
  - intros [-> | ->]; reflexivity.
  - intros s m e ->. reflexivity.
  - unfold createAlertRow_typeCell. rewrite Htype.
    destruct (ToBoolean task_id); reflexivity.
Qed.

(** ** Task creation *)

Lemma strict_eq_str_true (v : jsval) (s : jsstring) :
  strict_eq_str v s = true <-> v = JStr s.
Proof.
  destruct v; simpl; split; intro E; try discriminate.
  - apply jsstring_eqb_eq in E. now subst.
  - injection E as ->. apply jsstring_eqb_refl.
Qed.

(** The configuration [createTask] builds for a PRICE_THRESHOLD task
    has one property: the upper bound when the condition is 'above',
    the lower bound otherwise. *)
Lemma build_ruleConfig_price `{Platform} (fields : list (jsstring * jsstring))
  (config : list (jsstring * jsval)) :
  build_ruleConfig (JStr PRICE_THRESHOLD) fields = Normal config ->
  exists price,
    parseFloat_of (FormData_get fields (lit "threshold_price")) = Normal price /\
    config =
      (if strict_eq_str (FormData_get fields (lit "price_condition")) (lit "above")
       then [(k_threshold_high, JNum price)]
       else [(k_threshold_low, JNum price)]).
Proof.
  unfold build_ruleConfig.
  replace (strict_eq_str (JStr PRICE_THRESHOLD) PRICE_THRESHOLD) with true
    by (symmetry; now apply strict_eq_str_true).
  intro E. apply bind_Normal in E as [price [Hp E]].
  exists price. split; [exact Hp|].
  destruct (strict_eq_str _ (lit "above")); now injection E as <-.
Qed.

Lemma createTask_taskData_inv `{Platform} (f : form) (td : task_data) :
  createTask_taskData f = Normal td ->
  exists s,
    FormData_get (form_fields f) (lit "symbol") = JStr s /\
    td_symbol td = toUpperCase s /\
    td_rule_type td = FormData_get (form_fields f) (lit "rule_type") /\
    build_ruleConfig (td_rule_type td) (form_fields f) = Normal (td_rule_config td).
Proof.
  unfold createTask_taskData. intro E.
  apply bind_Normal in E as [userId [_ E]].
  apply bind_Normal in E as [symbol [Hsym E]].
  apply bind_Normal in E as [ruleConfig [Hcfg E]].
  destruct (form_has_submit f); [|discriminate].
  injection E as <-. simpl.
  destruct (FormData_get (form_fields f) (lit "symbol")) as [ | | | |s| | ];
    try discriminate.
  injection Hsym as <-. exists s. repeat split. exact Hcfg.
Qed.

(** The configuration posted for a PRICE_THRESHOLD task is one
    property: which one, the form's condition decides. *)
Lemma createTask_price_config `{Platform} (f : form) (td : task_data) :
  createTask_taskData f = Normal td ->
  td_rule_type td = JStr PRICE_THRESHOLD ->
  exists price,
    td_rule_config td =
      (if strict_eq_str (FormData_get (form_fields f) (lit "price_condition")) (lit "above")
       then [(k_threshold_high, JNum price)]
       else [(k_threshold_low, JNum price)]).
Proof.
  intros E Hty.
  apply createTask_taskData_inv in E as (s & _ & _ & _ & Hcfg).
  rewrite Hty in Hcfg. apply build_ruleConfig_price in Hcfg as [price [_ Hc]].
  now exists price.
Qed.

(** C1 (as amended). For every PRICE_THRESHOLD task created through the
    form, the [rule_config] that is posted holds exactly one of
    [threshold_high] and [threshold_low]: the upper bound when the
    form's condition is 'above', the lower bound otherwise, and never
    both. *)
Theorem createTask_exactly_one_bound `{Platform} (f : form) (td : task_data) :
  createTask_taskData f = Normal td ->
  td_rule_type td = JStr PRICE_THRESHOLD ->
  let config := td_rule_config td in
  let above := strict_eq_str (FormData_get (form_fields f) (lit "price_condition"))
                             (lit "above") in
  has_own k_threshold_high config || has_own k_threshold_low config = true /\
  has_own k_threshold_high config = above /\
  has_own k_threshold_low config = negb above /\
  exists price,
    config = [((if above then k_threshold_high else k_threshold_low), JNum price)].
Proof.
  intros E Hty config above.
  destruct (createTask_price_config f td E Hty) as [price Hc].
  subst config above. rewrite Hc.
  destruct (strict_eq_str _ (lit "above")); repeat split; exists price; reflexivity.
Qed.

(** C1, the claim as stated fails in its second part: whatever the
    platform and the form, no PRICE_THRESHOLD task data that
    [createTask] posts holds both bounds. *)
Lemma createTask_never_both_bounds :
  ~ (exists (P : Platform) (f : form) (td : task_data),
       createTask_taskData f = Normal td /\
       td_rule_type td = JStr PRICE_THRESHOLD /\
       has_own k_threshold_high (td_rule_config td) = true /\
       has_own k_threshold_low (td_rule_config td) = true).
Proof.
  intros (P & f & td & E & Hty & Hhigh & Hlow).
  destruct (createTask_price_config f td E Hty) as [price Hc].
  rewrite Hc in Hhigh, Hlow.
  destruct (strict_eq_str _ (lit "above")); discriminate.
Qed.

(** C7. For every submission of the form that reaches the POST, the
    [symbol] of the task data is the upper-case form of the string the
    user entered in the symbol field. *)
Theorem createTask_symbol_uppercase `{Platform} (f : form) (td : task_data) :
  createTask_taskData f = Normal td ->
  exists entered,
    FormData_get (form_fields f) (lit "symbol") = JStr entered /\
    td_symbol td = toUpperCase entered /\
    get_prop (taskData_value td) (lit "symbol") = Normal (JStr (toUpperCase entered)).
Proof.
  intro E. apply createTask_taskData_inv in E as (s & Hget & Hsym & _ & _).
  exists s. repeat split; try assumption.
  unfold taskData_value. simpl. now rewrite Hsym.
Qed.

(** ** Alert messages *)

Lemma span_digits_app (d post : jsstring) :
  all_digits d -> starts_with_digit post = false ->
  span_digits (d ++ post) = (d, post).
Proof.
  unfold all_digits. induction d as [|c d IH]; simpl; intros Hd Hp.
  - destruct post as [|p post]; [reflexivity|]. simpl in *. now rewrite Hp.
  - apply andb_true_iff in Hd as [Hc Hd]. rewrite Hc, (IH Hd Hp). reflexivity.
Qed.

Lemma number_at_integer (d post : jsstring) :
  d <> [] -> all_digits d ->
  starts_with_digit post = false -> starts_with_dot post = false ->
  number_at (d ++ post) = Some (d, post).
Proof.
  intros Hne Hd Hp Hdot. unfold number_at.
  rewrite (span_digits_app d post Hd Hp).
  destruct d as [|c d]; [contradiction|].
  destruct post as [|p post]; [reflexivity|].
  simpl in Hdot. now rewrite Hdot.
Qed.

Lemma is_digit_dot : is_digit c_dot = false.
Proof. reflexivity. Qed.

Lemma number_at_decimal (d1 d2 post : jsstring) :
  d1 <> [] -> all_digits d1 -> all_digits d2 ->
  starts_with_digit post = false ->
  number_at ((d1 ++ c_dot :: d2) ++ post) = Some (d1 ++ c_dot :: d2, post).
Proof.
  intros Hne H1 H2 Hp. unfold number_at.
  rewrite <- app_assoc.
  rewrite (span_digits_app d1 ((c_dot :: d2) ++ post) H1 is_digit_dot).
  destruct d1 as [|c d1]; [contradiction|].
  cbn [app]. change (cu_eqb c_dot c_dot) with true. cbn iota.
  rewrite (span_digits_app d2 post H2 Hp). reflexivity.
Qed.

Lemma match_number_skip (pre rest : jsstring) :
  no_digit pre -> match_number (pre ++ rest) = match_number rest.
Proof.
  unfold no_digit. induction pre as [|c pre IH]; simpl; intro Hn; [reflexivity|].
  apply andb_true_iff in Hn as [Hc Hn]. apply negb_true_iff in Hc.
  unfold number_at. cbn [span_digits]. rewrite Hc. now apply IH.
Qed.

Lemma match_number_here (s : jsstring) (m r : jsstring) :
  number_at s = Some (m, r) -> match_number s = Some m.
Proof. intro E. destruct s; cbn [match_number]; now rewrite E. Qed.

(** The regular expression finds the first number of the message. *)
Lemma match_number_first (msg x : jsstring) :
  first_number msg x -> match_number msg = Some x.
Proof.
  intros [pre post -> Hpre Hne Hx Hp Hdot | pre d1 d2 post -> -> Hpre Hne H1 H2 Hp].
  - rewrite match_number_skip by assumption.
    eapply match_number_here. now apply number_at_integer.
  - rewrite match_number_skip by assumption.
    eapply match_number_here. now apply number_at_decimal.
Qed.

Lemma startsWith_app (p t : jsstring) : startsWith (p ++ t) p = true.
Proof.
  induction p as [|c p IH]; simpl; [reflexivity|].
  unfold cu_eqb. now rewrite N.eqb_refl.
Qed.

Lemma includes_startsWith (s p : jsstring) :
  startsWith s p = true -> includes s p = true.
Proof. intro E. destruct s; cbn [includes]; now rewrite E. Qed.

Lemma includes_app (a p b : jsstring) : includes (a ++ p ++ b) p = true.
Proof.
  induction a as [|c a IH].
  - apply includes_startsWith. exact (startsWith_app p b).
  - cbn [app includes]. rewrite IH. apply orb_true_r.
Qed.

(** ** Task cards *)

Section TaskCards.
Context `{Platform}.

(** What [createTaskCard] shows for a task object of rule type
    PRICE_THRESHOLD whose configuration is [config]. *)
Lemma ruleDetail_price_threshold (props : list (jsstring * jsval))
  (rule_config config : jsval) :
  lookup (lit "rule_type") props = Some (JStr PRICE_THRESHOLD) ->
  lookup (lit "rule_config") props = Some rule_config ->
  parse_rule_config rule_config = Normal config ->
  createTaskCard_ruleDetail (JObj props) =
  try_catch
    (threshold_high <- get_prop config k_threshold_high ;;
     if ToBoolean threshold_high then
       x <- ToString_c threshold_high ;; Normal (s_target_ge ++ x)
     else
       threshold_low <- get_prop config k_threshold_low ;;
       if ToBoolean threshold_low then
         x <- ToString_c threshold_low ;; Normal (s_target_le ++ x)
       else Normal [])
    (fun _ => Normal s_config_error).
Proof.
  intros Hty Hrc Hcfg.
  unfold createTaskCard_ruleDetail, ruleDetail_try, get_prop at 1 2 3 4.
  rewrite Hty, Hrc. cbn [bind].
  destruct (lookup (lit "status") props); cbn [bind ToString_c ToString];
    rewrite Hcfg; cbn [bind];
    replace (strict_eq_str (JStr PRICE_THRESHOLD) PRICE_THRESHOLD) with true
      by (symmetry; now apply strict_eq_str_true);
    reflexivity.
Qed.

(** A configuration without bounds leaves the detail of the card
    empty. *)
Lemma ruleDetail_no_bounds (props cfg : list (jsstring * jsval)) (rule_config : jsval) :
  lookup (lit "rule_type") props = Some (JStr PRICE_THRESHOLD) ->
  lookup (lit "rule_config") props = Some rule_config ->
  parse_rule_config rule_config = Normal (JObj cfg) ->
  lookup k_threshold_high cfg = None ->
  lookup k_threshold_low cfg = None ->
  createTaskCard_ruleDetail (JObj props) = Normal [].
Proof.
  intros Hty Hrc Hcfg Hh Hl.
  rewrite (ruleDetail_price_threshold props rule_config (JObj cfg) Hty Hrc Hcfg).
  unfold get_prop. rewrite Hh, Hl. reflexivity.
Qed.

(** A configuration that cannot be parsed is marked. *)
Lemma ruleDetail_unparsable (props : list (jsstring * jsval)) (text : jsstring)
  (rule_type : jsval) (e : js_error) (shown : jsstring) :
  lookup (lit "rule_type") props = Some rule_type ->
  ToString rule_type = Some shown ->
  lookup (lit "rule_config") props = Some (JStr text) ->
  JSON_parse text = Throw e ->
  createTaskCard_ruleDetail (JObj props) = Normal s_config_error.
Proof.
  intros Hty Hshown Hrc Hparse.
  unfold createTaskCard_ruleDetail, ruleDetail_try, get_prop at 1 2 3.
  rewrite Hty, Hrc.
  destruct (lookup (lit "status") props); cbn [bind]; unfold ToString_c;
    rewrite Hshown; cbn [bind parse_rule_config]; rewrite Hparse; reflexivity.
Qed.
End TaskCards.

(** What the code reads: of a message, the first run of digits (with a
    dot and digits, if they follow at once), under the sign of the
    word it tests first; of a configuration, the bound it tests
    first. *)
Lemma threshold_alerts_show_bound_sign :
  (forall msg x,
      includes msg s_break_above = true -> first_number msg x ->
      let shown := s_price_sp ++ s_ge ++ s_sp_dollar ++ x in
      parseAlertMessage (JStr msg) = Normal shown /\
      includes shown s_ge = true /\ includes shown x = true) /\
  (forall msg x,
      includes msg s_drop_below = true -> includes msg s_break_above = false ->
      first_number msg x ->
      let shown := s_price_sp ++ s_le ++ s_sp_dollar ++ x in
      parseAlertMessage (JStr msg) = Normal shown /\
      includes shown s_le = true /\ includes shown x = true) /\
  (forall (P : Platform) props rule_config config threshold_high x,
      lookup (lit "rule_type") props = Some (JStr PRICE_THRESHOLD) ->
      lookup (lit "rule_config") props = Some rule_config ->
      parse_rule_config rule_config = Normal config ->
      get_prop config k_threshold_high = Normal threshold_high ->
      ToBoolean threshold_high = true ->
      ToString threshold_high = Some x ->
      createTaskCard_ruleDetail (JObj props) = Normal (s_target_ge ++ x) /\
      includes (s_target_ge ++ x) (s_ge ++ s_sp_dollar ++ x) = true) /\
  (forall (P : Platform) props rule_config config threshold_high threshold_low x,
      lookup (lit "rule_type") props = Some (JStr PRICE_THRESHOLD) ->
      lookup (lit "rule_config") props = Some rule_config ->
      parse_rule_config rule_config = Normal config ->
      get_prop config k_threshold_high = Normal threshold_high ->
      ToBoolean threshold_high = false ->
      get_prop config k_threshold_low = Normal threshold_low ->
      ToBoolean threshold_low = true ->
      ToString threshold_low = Some x ->
      createTaskCard_ruleDetail (JObj props) = Normal (s_target_le ++ x) /\
      includes (s_target_le ++ x) (s_le ++ s_sp_dollar ++ x) = true).
Proof.
  split; [|split; [|split]].
  - intros msg x Hinc Hx shown. subst shown.
    cbn [parseAlertMessage]. unfold parseAlertMessage_str.
    rewrite Hinc. cbn [orb]. rewrite (match_number_first msg x Hx).
    split; [reflexivity|]. split.
    + exact (includes_app s_price_sp s_ge (s_sp_dollar ++ x)).
    + replace (s_price_sp ++ s_ge ++ s_sp_dollar ++ x)
        with ((s_price_sp ++ s_ge ++ s_sp_dollar) ++ x ++ [])
        by (rewrite app_nil_r, <- !app_assoc; reflexivity).
      apply includes_app.
  - intros msg x Hinc Hnot Hx shown. subst shown.
    cbn [parseAlertMessage]. unfold parseAlertMessage_str.
    rewrite Hinc, Hnot. cbn [orb]. rewrite (match_number_first msg x Hx).
    split; [reflexivity|]. split.
    + exact (includes_app s_price_sp s_le (s_sp_dollar ++ x)).
    + replace (s_price_sp ++ s_le ++ s_sp_dollar ++ x)
        with ((s_price_sp ++ s_le ++ s_sp_dollar) ++ x ++ [])
        by (rewrite app_nil_r, <- !app_assoc; reflexivity).
      apply includes_app.
  - intros P props rule_config config threshold_high x Hty Hrc Hcfg Hget Htrue Hx.
    rewrite (ruleDetail_price_threshold props rule_config config Hty Hrc Hcfg).
    rewrite Hget. cbn [bind]. rewrite Htrue. unfold ToString_c. rewrite Hx.
    split; [reflexivity|].
    pose proof (includes_app [0x76EE; 0x6807; 0x4EF7; 0x683C; 0x3A; 0x20]%N
                             (s_ge ++ s_sp_dollar ++ x) []) as Hi.
    rewrite app_nil_r in Hi. exact Hi.
  - intros P props rule_config config threshold_high threshold_low x
           Hty Hrc Hcfg Hgh Hfalse Hgl Htrue Hx.
    rewrite (ruleDetail_price_threshold props rule_config config Hty Hrc Hcfg).
    rewrite Hgh. cbn [bind]. rewrite Hfalse, Hgl. cbn [bind]. rewrite Htrue.
    unfold ToString_c. rewrite Hx.
    split; [reflexivity|].
    pose proof (includes_app [0x76EE; 0x6807; 0x4EF7; 0x683C; 0x3A; 0x20]%N
                             (s_le ++ s_sp_dollar ++ x) []) as Hi.
    rewrite app_nil_r in Hi. exact Hi.
Qed.

(** ** Decimal digits *)

Lemma digits_acc_app (fuel : nat) (n : Z) (acc : jsstring) :
  digits_acc fuel n acc = digits_acc fuel n [] ++ acc.
Proof.
  revert n acc. induction fuel as [|fuel IH]; intros n acc; [reflexivity|].
  cbn [digits_acc]. destruct (n <? 10); [reflexivity|].
  rewrite IH. rewrite (IH _ [_]). rewrite <- app_assoc. reflexivity.
Qed.

Lemma digits_acc_fuel (f1 f2 : nat) (n : Z) (acc : jsstring) :
  0 <= n -> n < 2 ^ Z.of_nat f1 -> n < 2 ^ Z.of_nat f2 ->
  (0 < f1)%nat -> (0 < f2)%nat ->
  digits_acc f1 n acc = digits_acc f2 n acc.
Proof.
  revert f2 n acc. induction f1 as [|f1 IH]; intros f2 n acc Hn H1 H2 P1 P2; [lia|].
  destruct f2 as [|f2]; [lia|].
  cbn [digits_acc]. destruct (Z.ltb_spec n 10) as [Hlt | Hge]; [reflexivity|].
  rewrite Nat2Z.inj_succ, Z.pow_succ_r in H1, H2 by lia.
  assert (Hq : 0 <= n / 10) by (apply Z.div_pos; lia).
  assert (Hm : 10 * (n / 10) <= n) by (apply Z.mul_div_le; lia).
  apply IH; try lia.
  - destruct f1 as [|f1]; [simpl in H1; lia | lia].
  - destruct f2 as [|f2]; [simpl in H2; lia | lia].
Qed.

Lemma decimal_digits_small (n : Z) :
  0 <= n < 10 -> decimal_digits n = [digit_cu n].
Proof.
  intro Hn. unfold decimal_digits. cbn [digits_acc].
  destruct (Z.ltb_spec n 10) as [_ | Hge]; [|lia].
  rewrite Z.mod_small by lia. reflexivity.
Qed.

Lemma decimal_digits_step (n : Z) :
  10 <= n -> decimal_digits n = decimal_digits (n / 10) ++ [digit_cu (n mod 10)].
Proof.
  intro Hn. unfold decimal_digits at 1. cbn [digits_acc].
  destruct (Z.ltb_spec n 10) as [Hlt | _]; [lia|].
  rewrite digits_acc_app. f_equal.
  assert (Hq : 0 < n / 10) by (apply Z.div_str_pos; lia).
  assert (Hm : 10 * (n / 10) <= n) by (apply Z.mul_div_le; lia).
  destruct (Z.log2_spec n ltac:(lia)) as [Hlo Hhi].
  destruct (Z.log2_spec (n / 10) Hq) as [Hlo' Hhi'].
  assert (Hl : 0 <= Z.log2 n) by apply Z.log2_nonneg.
  assert (Hl' : 0 <= Z.log2 (n / 10)) by apply Z.log2_nonneg.
  assert (Hl3 : 3 <= Z.log2 n).
  { apply Z.log2_le_pow2; [lia|]. simpl. lia. }
  rewrite Z.pow_succ_r in Hhi, Hhi' by assumption.
  unfold decimal_digits. apply digits_acc_fuel; try lia.
  - rewrite Z2Nat.id by assumption. lia.
  - rewrite Nat2Z.inj_succ, Z2Nat.id, Z.pow_succ_r by assumption. lia.
Qed.

Lemma decimal_digits_nonempty (n : Z) : 0 <= n -> decimal_digits n <> [].
Proof.
  intro Hn. destruct (Z.lt_ge_cases n 10).
  - rewrite decimal_digits_small by lia. discriminate.
  - rewrite decimal_digits_step by lia. intro E. now apply app_eq_nil in E as [_ E].
Qed.

Lemma decimal_digits_hundreds (n : Z) :
  100 <= n ->
  decimal_digits n =
  decimal_digits (n / 100) ++ [digit_cu (n / 10 mod 10); digit_cu (n mod 10)].
Proof.
  intro Hn. rewrite decimal_digits_step by lia.
  assert (Hq : 10 <= n / 10) by (apply Z.div_le_lower_bound; lia).
  rewrite (decimal_digits_step (n / 10)) by exact Hq.
  rewrite Z.div_div by lia. rewrite <- app_assoc. reflexivity.
Qed.

Lemma firstn_length_app (A : Type) (a b : list A) : firstn (length a) (a ++ b) = a.
Proof. induction a as [|x a IH]; simpl; [now destruct b | now rewrite IH]. Qed.

Lemma skipn_length_app (A : Type) (a b : list A) : skipn (length a) (a ++ b) = b.
Proof. induction a as [|x a IH]; simpl; [reflexivity | exact IH]. Qed.

(** The layout step of [toFixed(2)]: the digits of [n], padded to
    three, with a dot before the last two. *)
Lemma fixed2_layout (n : Z) :
  0 <= n ->
  let m := if n =? 0 then lit "0" else decimal_digits n in
  let k := Z.of_nat (length m) in
  let m' := if k <=? 2 then repeat_cu 48%N (2 + 1 - k) ++ m else m in
  let k' := Z.of_nat (length m') in
  firstn (Z.to_nat (k' - 2)) m' ++ lit "." ++ skipn (Z.to_nat (k' - 2)) m' =
  decimal_digits (n / 100) ++ lit "." ++ [digit_cu (n / 10 mod 10); digit_cu (n mod 10)].
Proof.
  intros Hn m.
  assert (Hm : m = decimal_digits n).
  { subst m. destruct (Z.eqb_spec n 0) as [-> | _]; reflexivity. }
  clearbody m. subst m.
  destruct (Z.lt_ge_cases n 10) as [H10 | H10];
    [|destruct (Z.lt_ge_cases n 100) as [H100 | H100]].
  - rewrite decimal_digits_small by lia.
    rewrite (Z.div_small n 100), (Z.div_small n 10), (Z.mod_small n 10) by lia.
    reflexivity.
  - rewrite decimal_digits_step by lia.
    assert (Hq : 1 <= n / 10 < 10).
    { split; [apply Z.div_le_lower_bound; lia | apply Z.div_lt_upper_bound; lia]. }
    rewrite (decimal_digits_small (n / 10)) by lia.
    rewrite (Z.div_small n 100), (Z.mod_small (n / 10) 10) by lia.
    reflexivity.
  - rewrite decimal_digits_hundreds by lia.
    set (hi := decimal_digits (n / 100)).
    set (lo := [digit_cu (n / 10 mod 10); digit_cu (n mod 10)]).
    assert (Hhi : hi <> []).
    { apply decimal_digits_nonempty. apply Z.div_pos; lia. }
    cbv zeta. rewrite length_app. change (length lo) with 2%nat.
    destruct (Z.leb_spec (Z.of_nat (length hi + 2)) 2) as [Hle | _].
    + destruct hi; [contradiction | simpl in Hle; lia].
    + rewrite length_app. change (length lo) with 2%nat.
      replace (Z.to_nat (Z.of_nat (length hi + 2) - 2)) with (length hi) by lia.
      now rewrite firstn_length_app, skipn_length_app.
Qed.

(** ** formatPercentage *)

Lemma magnitude_bounds (v : number) :
  0 <= fst (magnitude v) /\ 0 < snd (magnitude v).
Proof.
  destruct v as [s | s | | s m e]; unfold magnitude; cbn [fst snd]; try lia.
  destruct (Z.leb_spec 0 e) as [E | E]; cbn [fst snd]; split; lia.
Qed.

(** C4 (as amended). For every finite number [v] of magnitude below
    10^21, [formatPercentage(v)] is a sign, ['+'] when [v >= 0] and
    ['-'] when [v < 0], then the magnitude of [v] rounded to the nearest
    hundredth and written with exactly two decimals, then ['%']: the
    digits are those of an integer [n] with [|100 |v| - n| <= 1/2],
    [n / 100] before the dot and the two digits of [n mod 100] after
    it. *)
Theorem formatPercentage_two_decimals (v : number) :
  is_finite v = true ->
  fst (magnitude v) < 10 ^ 21 * snd (magnitude v) ->
  exists n : Z,
    0 <= n /\
    2 * Z.abs (100 * fst (magnitude v) - n * snd (magnitude v)) <= snd (magnitude v) /\
    formatPercentage v =
      (if num_ge0 v then lit "+" else lit "-")
        ++ decimal_digits (n / 100)
        ++ lit "." ++ [digit_cu (n / 10 mod 10); digit_cu (n mod 10)]
        ++ lit "%" /\
    num_lt0 v = negb (num_ge0 v).
Proof.
  intros Hfin Hsmall.
  destruct (magnitude_bounds v) as [Hnum Hden].
  set (num := fst (magnitude v)) in *. set (den := snd (magnitude v)) in *.
  set (n := (2 * num * 10 ^ 2 + den) / (2 * den)).
  assert (Hdm := Z.div_mod (2 * num * 10 ^ 2 + den) (2 * den) ltac:(lia)).
  assert (Hmod := Z.mod_pos_bound (2 * num * 10 ^ 2 + den) (2 * den) ltac:(lia)).
  fold n in Hdm.
  change (10 ^ 2) with 100 in *.
  assert (Hn : 0 <= n) by (apply Z.div_pos; lia).
  exists n. split; [exact Hn|]. split; [|split].
  - replace (n * den) with (den * n) by apply Z.mul_comm.
    replace (2 * den * n) with (2 * (den * n)) in Hdm by ring.
    lia.
  - unfold formatPercentage, toFixed. rewrite Hfin. cbn [negb].
    destruct (magnitude v) as [num' den'] eqn:Emag.
    change num' with num. change den' with den.
    destruct (Z.leb_spec (10 ^ 21 * den) num) as [Hbig | _]; [lia|].
    change (2 =? 0) with false. cbv iota.
    change (10 ^ 2) with 100. fold n.
    pose proof (fixed2_layout n Hn) as Hlay. cbv zeta in Hlay.
    rewrite Hlay. clear Hlay.
    destruct v as [s | s | | s m e]; try discriminate; destruct s;
      cbn [num_ge0 num_lt0 SFleb SFltb SFcompare];
      rewrite <- ?app_assoc; reflexivity.
  - destruct v as [s | s | | s m e]; try discriminate; destruct s; reflexivity.
Qed.

(** ** Concrete runs *)

(** A page that holds ten alerts receives an eleventh. *)
Lemma addNewAlert_at_most_ten_witness :
  (length (st_alerts ex_full_state) <= 10)%nat /\
  hd_error (st_alerts (snd (addNewAlert (ex_alert JNull (JBool false)) ex_full_state)))
    = Some (ex_alert JNull (JBool false)) /\
  (length (st_alerts (snd (addNewAlert (ex_alert JNull (JBool false)) ex_full_state)))
     <= 10)%nat.
Proof.
  assert (Hlen : (length (st_alerts ex_full_state) <= 10)%nat) by (apply Nat.le_refl).
  destruct (addNewAlert_at_most_ten (ex_alert JNull (JBool false)) ex_full_state Hlen)
    as (Hhd & Hle & _).
  split; [exact Hlen | split; [exact Hhd | exact Hle]].
Defined.


(** An alert of task 3 is shown as a monitoring alert. *)
Lemma alert_type_witness :
  exists row,
    alertRowData (H := Reference.platform) (ex_alert (JNum (num_of_Z 3)) (JBool true))
      = Normal row /\
    row_type row = s_monitor_alert.
Proof.
  eexists. split; [vm_compute; reflexivity|].
  match goal with |- row_type ?r = _ =>
    destruct (alert_type_reflects_task_id (H := Reference.platform)
                (ex_alert (JNum (num_of_Z 3)) (JBool true)) r)
      as (task_id & Htask & _ & _ & _ & Hnum & _)
  end.
  - vm_compute; reflexivity.
  - vm_compute in Htask. injection Htask as <-. eapply Hnum. reflexivity.
Defined.

(** C6, the claim as stated fails: an alert whose [task_id] is 0 is not
    null, and the table shows it as a system alert. *)
Lemma zero_task_id_shown_as_system_alert :
  exists row,
    alertRowData (H := Reference.platform) (ex_alert (JNum (num_of_Z 0)) (JBool true))
      = Normal row /\
    get_prop (ex_alert (JNum (num_of_Z 0)) (JBool true)) (lit "task_id")
      = Normal (JNum (num_of_Z 0)) /\
    JNum (num_of_Z 0) <> JNull /\
    row_type row = s_system_alert /\
    row_type row <> s_monitor_alert.
Proof.
  eexists. split; [vm_compute; reflexivity|].
  split; [reflexivity|]. split; [discriminate|]. split; [reflexivity | discriminate].
Qed.

(** The form 'btc above 50000' posts an upper bound only. *)
Lemma createTask_exactly_one_bound_witness :
  exists td,
    createTask_taskData (H := Reference.platform) ex_form = Normal td /\
    td_rule_config td = [(k_threshold_high, JNum (num_of_Z 50000))] /\
    has_own k_threshold_high (td_rule_config td) = true /\
    has_own k_threshold_low (td_rule_config td) = false.
Proof.
  eexists. split; [vm_compute; reflexivity|].
  match goal with |- td_rule_config ?t = _ /\ _ =>
    destruct (createTask_exactly_one_bound (H := Reference.platform) ex_form t)
      as (_ & Hhigh & Hlow & _)
  end.
  - vm_compute; reflexivity.
  - reflexivity.
  - split; [vm_compute; reflexivity|]. split; [exact Hhigh | exact Hlow].
Defined.

(** The form 'btc above 50000' posts the symbol 'BTC'. *)
Lemma createTask_symbol_uppercase_witness :
  exists td,
    createTask_taskData (H := Reference.platform) ex_form = Normal td /\
    td_symbol td = lit "BTC".
Proof.
  eexists. split; [vm_compute; reflexivity|].
  match goal with |- td_symbol ?t = _ =>
    destruct (createTask_symbol_uppercase (H := Reference.platform) ex_form t)
      as (entered & Hget & Hsym & _)
  end.
  - vm_compute; reflexivity.
  - vm_compute in Hget. injection Hget as <-. exact Hsym.
Defined.

(** C5, the code at the failing inputs. The price alert of the README
    states a price of $50,125.00 over a bound of $50,000.00;
    [parseAlertMessage] stops at the comma and reports '价格 ≥ $50'. A
    message that names both bounds is reported with '≥' and the upper
    one. The card of a task with both bounds shows the upper bound
    only, whatever the lower bound is. *)
Theorem threshold_alerts_misreported :
  includes ex_readme_alert s_break_above = true /\
  includes ex_readme_alert (lit "$50,125.00") = true /\
  includes ex_readme_alert (lit "$50,000.00") = true /\
  parseAlertMessage (JStr ex_readme_alert)
    = Normal (s_price_sp ++ s_ge ++ s_sp_dollar ++ lit "50") /\
  includes ex_band_message s_drop_below = true /\
  includes ex_band_message (lit "2800") = true /\
  parseAlertMessage (JStr ex_band_message)
    = Normal (s_price_sp ++ s_ge ++ s_sp_dollar ++ lit "3500") /\
  (forall (P : Platform) props rule_config config threshold_high threshold_low x,
      lookup (lit "rule_type") props = Some (JStr PRICE_THRESHOLD) ->
      lookup (lit "rule_config") props = Some rule_config ->
      parse_rule_config rule_config = Normal config ->
      get_prop config k_threshold_high = Normal threshold_high ->
      get_prop config k_threshold_low = Normal threshold_low ->
      ToBoolean threshold_high = true ->
      ToString threshold_high = Some x ->
      createTaskCard_ruleDetail (JObj props) = Normal (s_target_ge ++ x)) /\
  createTaskCard_ruleDetail (H := Reference.platform) (ex_task ex_band_config)
    = Normal (s_target_ge ++ lit "3500") /\
  includes (s_target_ge ++ lit "3500") s_le = false /\
  includes (s_target_ge ++ lit "3500") (lit "2800") = false.
Proof.
  destruct threshold_alerts_show_bound_sign as (_ & _ & Hhigh & _).
  repeat split; try reflexivity.
  intros P props rule_config config threshold_high threshold_low x
         Hty Hrc Hparse Hget _ Htrue Hx.
  now apply (Hhigh P props rule_config config threshold_high x).
Qed.

(** C2, the code at the failing input: a PRICE_THRESHOLD task whose
    configuration parses and holds no bound gets an empty detail,
    whether the configuration came as an object or as JSON text, while
    one that does not parse gets '配置错误'. *)
Theorem empty_config_detail_is_blank :
  (forall (P : Platform) (props : list (jsstring * jsval)),
      lookup (lit "rule_type") props = Some (JStr PRICE_THRESHOLD) ->
      lookup (lit "rule_config") props = Some (JObj []) ->
      createTaskCard_ruleDetail (JObj props) = Normal []) /\
  createTaskCard_ruleDetail (H := Reference.platform) (ex_task (lit "{}")) = Normal [] /\
  createTaskCard_ruleDetail (H := Reference.platform) (ex_task (lit "{oops"))
    = Normal s_config_error /\
  createTaskCard_ruleDetail (H := Reference.platform) (ex_task (lit "null"))
    = Normal s_config_error /\
  [] <> s_config_error.
Proof.
  split; [|split; [|split; [|split]]].
  - intros P props Hty Hrc.
    apply (ruleDetail_no_bounds props [] (JObj [])); try assumption; reflexivity.
  - apply (ruleDetail_no_bounds _ [] (JStr (lit "{}"))); reflexivity.
  - eapply (ruleDetail_unparsable _ (lit "{oops")); reflexivity.
  - reflexivity.
  - discriminate.
Qed.

(** The gain of 94600 over 90000 is a finite number below 10^21, and
    is written '+5.11%'. *)
Lemma formatPercentage_two_decimals_witness :
  is_number ex_gain = true /\
  is_finite ex_gain = true /\
  fst (magnitude ex_gain) < 10 ^ 21 * snd (magnitude ex_gain) /\
  formatPercentage ex_gain = lit "+5.11%" /\
  exists n : Z,
    0 <= n /\
    2 * Z.abs (100 * fst (magnitude ex_gain) - n * snd (magnitude ex_gain))
      <= snd (magnitude ex_gain) /\
    formatPercentage ex_gain =
      (if num_ge0 ex_gain then lit "+" else lit "-")
        ++ decimal_digits (n / 100)
        ++ lit "." ++ [digit_cu (n / 10 mod 10); digit_cu (n mod 10)]
        ++ lit "%" /\
    num_lt0 ex_gain = negb (num_ge0 ex_gain).
Proof.
  split; [reflexivity|]. split; [reflexivity|]. split; [reflexivity|].
  split; [vm_compute; reflexivity|].
  apply formatPercentage_two_decimals; reflexivity.
Defined.

(** C4, the claim as stated fails: 10^21 is a finite number, and
    [formatPercentage] writes it in exponent notation, with no decimals
    at all. *)
Lemma formatPercentage_huge_has_no_decimals :
  is_number ex_huge = true /\
  is_finite ex_huge = true /\
  formatPercentage ex_huge = lit "+1e+21%" /\
  ~ (exists n : Z,
       formatPercentage ex_huge =
         lit "+" ++ decimal_digits (n / 100)
           ++ lit "." ++ [digit_cu (n / 10 mod 10); digit_cu (n mod 10)]
           ++ lit "%").
Proof.
  assert (E : formatPercentage ex_huge = lit "+1e+21%") by (vm_compute; reflexivity).
  split; [reflexivity|]. split; [reflexivity|]. split; [exact E|].
  intros [n Hn]. rewrite E in Hn.
  remember (decimal_digits (n / 100)) as hi.
  remember (digit_cu (n / 10 mod 10)) as d1.
  remember (digit_cu (n mod 10)) as d2.
  clear - Hn.
  apply (f_equal (@rev code_unit)) in Hn.
  rewrite !rev_app_distr in Hn. cbn in Hn. discriminate.
Qed.

(** ** More concrete runs *)

(** Text is escaped; the string form of a value that is not a string
    is returned as it is. *)
Example escapeHtml_examples :
  escapeHtml (JStr (lit "<a href='x'>T&J</a>"))
    = Normal (lit "&lt;a href=&#039;x&#039;&gt;T&amp;J&lt;/a&gt;") /\
  escapeHtml (JNum (num_of_Z 42)) = Normal (lit "42") /\
  escapeHtml JNull = Normal (lit "null") /\
  escapeHtml (JArr [JStr (lit "<b>")]) = Normal (lit "<b>").
Proof. repeat split; reflexivity. Qed.

(** The three outcomes of a request: the body, the redirect, the log. *)
Example api_get_examples :
  api_get (ex_fetch_ok (JArr [])) (JStr (lit "/tasks")) ex_window
    = (Normal (JArr []), ex_window) /\
  api_get ex_fetch_unauthorized (JStr (lit "/tasks")) ex_window
    = (Normal JNull, set_href (lit "/login.html") ex_window) /\
  api_get ex_fetch_down (JStr (lit "/tasks")) ex_window
    = (Normal JNull,
       {| location_href := lit "/";
          document_cookie := lit "theme=dark; csrf_token=abc123";
          console := [LogError (lit "API Error:")
                               (mk_error TypeError (lit "Failed to fetch"));
                      LogText (s_api_failed ++ lit "Failed to fetch")] |}) /\
  getCsrfToken ex_window = lit "abc123".
Proof. repeat split; reflexivity. Qed.

(** Percentages as the price cards show them. *)
Example formatPercentage_examples :
  formatPercentage ex_gain = lit "+5.11%" /\
  formatPercentage ex_loss = lit "-2.50%" /\
  formatPercentage (num_of_Z 0) = lit "+0.00%" /\
  formatPercentage (num_div (num_of_Z (-1)) (num_of_Z 1000)) = lit "-0.00%" /\
  formatPercentage (num_div (num_of_Z 1) (num_of_Z 8)) = lit "+0.13%" /\
  formatPercentage NaN = lit "NaN%".
Proof. repeat split; vm_compute; reflexivity. Qed.

(** ** Cookies *)

Lemma startsWith_cons_neq (c x : code_unit) (s p : jsstring) :
  x <> c -> startsWith (x :: s) (c :: p) = false.
Proof.
  intro Hne. cbn [startsWith].
  destruct (N.eqb_spec x c) as [E|_]; [contradiction|].
  unfold cu_eqb. apply N.eqb_neq in Hne. rewrite Hne. reflexivity.
Qed.

Lemma split_aux_skip (sep a rest cur : jsstring) :
  split_aux sep (a ++ rest) cur (length a) = split_aux sep rest cur 0.
Proof.
  induction a as [|x a IH]; [reflexivity|].
  cbn [app length split_aux]. exact IH.
Qed.

(** A piece without the first character of the separator is cut off at
    the separator that follows it. *)
Lemma split_aux_piece (c : code_unit) (sep piece rest cur : jsstring) :
  ~ In c piece ->
  split_aux (c :: sep) (piece ++ (c :: sep) ++ rest) cur 0 =
  (rev cur ++ piece) :: split_aux (c :: sep) rest [] 0.
Proof.
  revert cur. induction piece as [|x piece IH]; intros cur Hno.
  - cbn [app]. cbn [split_aux].
    change (c :: sep ++ rest) with ((c :: sep) ++ rest).
    rewrite startsWith_app. rewrite app_nil_r.
    replace (length (c :: sep) - 1)%nat with (length sep) by (cbn [length]; lia).
    change ((c :: sep) ++ rest) with (c :: (sep ++ rest)).
    rewrite split_aux_skip. reflexivity.
  - cbn [app]. cbn [split_aux].
    rewrite startsWith_cons_neq by (intro E; apply Hno; left; exact E).
    rewrite IH by (intro I; apply Hno; right; exact I).
    cbn [rev]. rewrite <- app_assoc. reflexivity.
Qed.

Lemma split_aux_last (c : code_unit) (sep piece cur : jsstring) :
  ~ In c piece ->
  split_aux (c :: sep) piece cur 0 = [rev cur ++ piece].
Proof.
  revert cur. induction piece as [|x piece IH]; intros cur Hno.
  - cbn [split_aux]. rewrite app_nil_r. reflexivity.
  - cbn [split_aux].
    rewrite startsWith_cons_neq by (intro E; apply Hno; left; exact E).
    rewrite IH by (intro I; apply Hno; right; exact I).
    cbn [rev]. rewrite <- app_assoc. reflexivity.
Qed.

(** Splitting the joined cookies gives the cookies back. *)
Lemma split_join (c : code_unit) (sep : jsstring) (rows : list jsstring) :
  rows <> [] -> Forall (fun row => ~ In c row) rows ->
  split (join (c :: sep) rows) (c :: sep) = rows.
Proof.
  unfold split. induction rows as [|row rows IH]; intros Hne Hall; [contradiction|].
  inversion Hall as [|? ? Hrow Hrest]; subst.
  destruct rows as [|row2 rows].
  - cbn [join]. rewrite split_aux_last by exact Hrow. reflexivity.
  - change (join (c :: sep) (row :: row2 :: rows))
      with (row ++ (c :: sep) ++ join (c :: sep) (row2 :: rows)).
    rewrite split_aux_piece by exact Hrow.
    rewrite IH by (discriminate || exact Hrest). reflexivity.
Qed.

Lemma split_aux_head (c : code_unit) (s cur : jsstring) :
  hd [] (split_aux [c] s cur 0) = rev cur ++ before_char c s.
Proof.
  revert cur. induction s as [|x s IH]; intro cur.
  - cbn [split_aux hd before_char]. rewrite app_nil_r. reflexivity.
  - cbn [split_aux before_char startsWith].
    destruct (cu_eqb x c); cbn [andb].
    + cbn [hd]. rewrite app_nil_r. reflexivity.
    + rewrite IH. cbn [rev]. rewrite <- app_assoc. reflexivity.
Qed.

Lemma startsWith_skipn (s p : jsstring) :
  startsWith s p = true -> s = p ++ skipn (length p) s.
Proof.
  revert s. induction p as [|y p IH]; intros s E; [reflexivity|].
  destruct s as [|x s]; [discriminate|].
  cbn [startsWith] in E. apply andb_true_iff in E as [E1 E2].
  apply cu_eqb_eq in E1. subst y.
  cbn [length skipn app]. f_equal. now apply IH.
Qed.

(** [getCsrfToken] looks the token up in the cookie string: it
    returns the value of the first cookie named [csrf_token], up to
    the next [=] of that value, and the empty string when no cookie
    has that name (an empty cookie string included). *)
Theorem getCsrfToken_lookup (w : window) (rows : list jsstring) :
  document_cookie w = join (lit "; ") rows ->
  Forall cookie_ok rows ->
  getCsrfToken w =
    match find (fun row => startsWith row (lit "csrf_token=")) rows with
    | Some row => before_char c_equals (skipn 11 row)
    | None => []
    end.
Proof.
  intros Hcookie Hrows. unfold getCsrfToken. rewrite Hcookie.
  destruct rows as [|row0 rows0] eqn:Erows.
  - reflexivity.
  - rewrite <- Erows in *.
    change (lit "; ") with (c_semicolon :: lit " ").
    rewrite split_join; [| subst; discriminate | exact Hrows].
    destruct (find _ rows) as [row|] eqn:Efind; [|reflexivity].
    apply find_some in Efind as [_ Estart].
    apply startsWith_skipn in Estart.
    change (length (lit "csrf_token=")) with 11%nat in Estart.
    remember (skipn 11 row) as v eqn:Ev. rewrite Estart.
    unfold split. change (lit "=") with [c_equals].
    change (lit "csrf_token=" ++ v) with (lit "csrf_token" ++ [c_equals] ++ v).
    rewrite split_aux_piece by (vm_compute; intuition discriminate).
    cbn [nth].
    assert (Hnth : forall l : list jsstring, nth 0 l [] = hd [] l)
      by (intros [|? ?]; reflexivity).
    rewrite Hnth.
    rewrite split_aux_head. reflexivity.
Qed.

Lemma getCsrfToken_lookup_witness :
  document_cookie ex_window = join (lit "; ") [lit "theme=dark"; lit "csrf_token=abc123"] /\
  Forall cookie_ok [lit "theme=dark"; lit "csrf_token=abc123"] /\
  getCsrfToken ex_window = lit "abc123".
Proof.
  assert (Hok : Forall cookie_ok [lit "theme=dark"; lit "csrf_token=abc123"])
    by (repeat constructor; vm_compute; intuition discriminate).
  split; [reflexivity|]. split; [exact Hok|].
  rewrite (getCsrfToken_lookup ex_window [lit "theme=dark"; lit "csrf_token=abc123"]
             eq_refl Hok).
  reflexivity.
Defined.

(** ** escapeHtml, read back *)

Lemma decode_entities_one (c : code_unit) (t : jsstring) :
  decode_entities_aux (escape_one c ++ t) 0 = c :: decode_entities_aux t 0.
Proof.
  unfold escape_one.
  case_character c; try reflexivity.
  unfold cu_eqb. rewrite Hamp, Hlt, Hgt, Hquot, Hapos.
  cbn [app decode_entities_aux].
  unfold e_amp, e_lt, e_gt, e_quot, e_apos.
  cbn [startsWith]. unfold cu_eqb.
  change 38%N with c_amp. rewrite Hamp. reflexivity.
Qed.

Lemma decode_entities_flat_map (s : jsstring) :
  decode_entities (flat_map escape_one s) = s.
Proof.
  unfold decode_entities. induction s as [|c s IH]; [reflexivity|].
  cbn [flat_map]. rewrite decode_entities_one, IH. reflexivity.
Qed.

Lemma escape_one_length (c : code_unit) : (1 <= length (escape_one c))%nat.
Proof.
  unfold escape_one.
  repeat match goal with |- context [if ?b then _ else _] => destruct b end;
    cbn [length e_amp e_lt e_gt e_quot e_apos]; lia.
Qed.

(** Escaping loses nothing: reading the entities of [escapeHtml(s)]
    back gives [s], so two different strings never have the same
    escaped form; the escaped form is at least as long as [s], and it
    is [s] itself when [s] holds none of the five characters. *)
Theorem escapeHtml_round_trip :
  (forall s, exists out,
      escapeHtml (JStr s) = Normal out /\
      decode_entities out = s /\
      (length s <= length out)%nat) /\
  (forall a b, escapeHtml (JStr a) = escapeHtml (JStr b) -> a = b) /\
  (forall s,
      (forall c, In c s -> cu_eqb c c_amp || is_special c = false) ->
      escapeHtml (JStr s) = Normal s).
Proof.
  assert (Hout : forall s, escapeHtml (JStr s) = Normal (flat_map escape_one s)).
  { intro s. unfold escapeHtml. rewrite escape_chain. reflexivity. }
  split; [|split].
  - intro s. exists (flat_map escape_one s).
    split; [apply Hout|]. split; [apply decode_entities_flat_map|].
    induction s as [|c s IH]; [apply Nat.le_refl|].
    cbn [flat_map length]. rewrite length_app.
    pose proof (escape_one_length c). lia.
  - intros a b E. rewrite !Hout in E. injection E as E.
    rewrite <- (decode_entities_flat_map a), <- (decode_entities_flat_map b).
    now rewrite E.
  - intros s Hs. rewrite Hout. f_equal.
    induction s as [|c s IH]; [reflexivity|].
    cbn [flat_map]. rewrite IH by (intros x I; apply Hs; right; exact I).
    specialize (Hs c (or_introl eq_refl)).
    apply orb_false_iff in Hs as [H1 H2]. unfold is_special in H2.
    apply orb_false_iff in H2 as [H2 H5]. apply orb_false_iff in H2 as [H2 H4].
    apply orb_false_iff in H2 as [H2 H3].
    unfold escape_one. rewrite H1, H2, H3, H4, H5. reflexivity.
Qed.

(** ** createElement *)







(** An element with a class and a text, as every call of the
    dashboard builds it. *)
Lemma createElement_classed (tag className textContent : jsstring) :
  createElement tag [(lit "className", className)] textContent =
  Element tag className [] textContent [].
Proof.
  unfold createElement. cbn [fold_left]. change (set_attr (new_element tag) (lit "className", className))
    with (Element tag className [] [] []).
  destruct (jsstring_eqb textContent []) eqn:E; cbn [negb]; [|reflexivity].
  apply jsstring_eqb_eq in E. subst. reflexivity.
Qed.


(** ** The API wrappers and the page *)

Lemma api_catch_page_after (w : window) (c : completion jsval * window) :
  (snd c = w \/
   (fst c = Normal JNull /\ snd c = set_href (lit "/login.html") w)) ->
  page_after w (api_catch c).
Proof.
  intros Hc. destruct c as [[v|e] w0]; cbn [fst snd] in Hc.
  - cbn [api_catch]. destruct Hc as [-> | [Hv ->]].
    + left. split; reflexivity.
    + right. left. cbn [fst snd].
      split; [exact Hv|]. split; reflexivity.
  - destruct Hc as [-> | [Hv _]]; [|discriminate].
    cbn [api_catch]. right. right.
    cbn [fst snd]. split; [reflexivity|]. split; [reflexivity|].
    exists e. unfold showError, console_error. cbn [console].
    rewrite <- app_assoc. reflexivity.
Qed.

Lemma handle_response_page (r : response) (w : window) :
  snd (handle_response r w) = w \/
  (fst (handle_response r w) = Normal JNull /\
   snd (handle_response r w) = set_href (lit "/login.html") w).
Proof.
  unfold handle_response.
  destruct (negb (resp_ok r)); [|left; reflexivity].
  destruct (resp_status r =? 401); [right; split; reflexivity | left; reflexivity].
Qed.

(** The API wrappers leave the location and the console of the page
    in one of three ways: untouched; redirected to the login page,
    with nothing logged; or with the location as it was and exactly
    two entries added to the console, the error and its message. In
    the last two they answer [null]. *)
Theorem api_wrappers_page_after
  (fetch : request -> completion response)
  (JSON_stringify : jsval -> completion (option jsstring))
  (endpoint data : jsval) (w : window) :
  page_after w (api_get fetch endpoint w) /\
  page_after w (api_post fetch JSON_stringify endpoint data w) /\
  page_after w (api_delete fetch endpoint w).
Proof.
  unfold api_get, api_post, api_delete.
  repeat split; apply api_catch_page_after;
    repeat case_completion;
    try (left; reflexivity); apply handle_response_page.
Qed.

(** ** The task form *)

Section TaskForms.
Context `{Platform}.

Lemma FormData_get_string_or_null (fields : list (jsstring * jsstring)) (name : jsstring) :
  (exists s, FormData_get fields name = JStr s) \/ FormData_get fields name = JNull.
Proof.
  induction fields as [|[k v] fields IH]; [right; reflexivity|].
  cbn [FormData_get]. destruct (jsstring_eqb k name); [left; now exists v | exact IH].
Qed.

Lemma parseFloat_of_field (fields : list (jsstring * jsstring)) (name : jsstring) :
  parseFloat_of (FormData_get fields name) = Normal (parseFloat (field_text fields name)).
Proof.
  unfold parseFloat_of, field_text.
  destruct (FormData_get_string_or_null fields name) as [[s ->] | ->]; reflexivity.
Qed.

Lemma parseInt_of_field (fields : list (jsstring * jsstring)) (name : jsstring) :
  parseInt_of (FormData_get fields name) = Normal (parseInt (field_text fields name)).
Proof.
  unfold parseInt_of, field_text.
  destruct (FormData_get_string_or_null fields name) as [[s ->] | ->]; reflexivity.
Qed.

Lemma build_ruleConfig_returns (ruleType : jsval) (fields : list (jsstring * jsstring)) :
  exists config, build_ruleConfig ruleType fields = Normal config.
Proof.
  unfold build_ruleConfig.
  destruct (strict_eq_str ruleType PRICE_THRESHOLD).
  - rewrite parseFloat_of_field. cbn [bind].
    destruct (strict_eq_str _ (lit "above")); eexists; reflexivity.
  - destruct (strict_eq_str ruleType PERCENTAGE).
    + rewrite !parseFloat_of_field. cbn [bind]. eexists; reflexivity.
    + eexists; reflexivity.
Qed.

(** [createTask] reaches its request exactly when the form has a
    [symbol] field and a submit button: no other field is needed, and
    nothing the user typed is checked. Without them it throws before
    anything is sent. *)
Theorem createTask_reaches_post_iff (f : form) :
  ((exists taskData, createTask_taskData f = Normal taskData) <->
   ((exists s, FormData_get (form_fields f) (lit "symbol") = JStr s) /\
    form_has_submit f = true)) /\
  ((exists e, createTask_taskData f = Throw e /\ err_kind e = TypeError) <->
   ~ (exists taskData, createTask_taskData f = Normal taskData)).
Proof.
  unfold createTask_taskData.
  rewrite parseInt_of_field. cbn [bind].
  destruct (build_ruleConfig_returns (FormData_get (form_fields f) (lit "rule_type"))
              (form_fields f)) as [config Hconfig].
  destruct (FormData_get_string_or_null (form_fields f) (lit "symbol")) as [[s Hs] | Hs];
    rewrite Hs; cbn [bind].
  - rewrite Hconfig. cbn [bind].
    destruct (form_has_submit f).
    + split; split.
      * intros _. split; [now exists s | reflexivity].
      * intros _. eexists; reflexivity.
      * intros [e [E _]]. discriminate.
      * intros N. exfalso. apply N. eexists; reflexivity.
    + split; split.
      * intros [td E]. discriminate.
      * intros [_ E]. discriminate.
      * intros _ [td E]. discriminate.
      * intros _. eexists. split; reflexivity.
  - split; split.
    + intros [td E]. discriminate.
    + intros [[s E] _]. discriminate.
    + intros _ [td E]. discriminate.
    + intros _. eexists. split; reflexivity.
Qed.

(** What [createTask] posts for the rule types other than the price
    threshold: for PERCENTAGE, exactly the two keys
    [percentage_threshold] and [reference_price], each [parseFloat] of
    its field; for any other rule type, a missing one included, an
    empty configuration. [user_id] is [parseInt] of its field. A
    missing field is read as the text ["null"]. *)
Theorem createTask_config_by_type (f : form) (taskData : task_data) :
  createTask_taskData f = Normal taskData ->
  let fields := form_fields f in
  td_user_id taskData = parseInt (field_text fields (lit "user_id")) /\
  td_rule_type taskData = FormData_get fields (lit "rule_type") /\
  (td_rule_type taskData = JStr PERCENTAGE ->
   td_rule_config taskData =
     [(k_percentage_threshold,
       JNum (parseFloat (field_text fields (lit "percentage_threshold"))));
      (k_reference_price,
       JNum (parseFloat (field_text fields (lit "reference_price"))))]) /\
  (td_rule_type taskData <> JStr PRICE_THRESHOLD ->
   td_rule_type taskData <> JStr PERCENTAGE ->
   td_rule_config taskData = []).
Proof.
  intros E fields. subst fields.
  destruct (createTask_taskData_inv f taskData E) as (s & Hs & Hsym & Htype & Hconfig).
  split; [|split; [exact Htype|split]].
  - unfold createTask_taskData in E. rewrite parseInt_of_field in E. cbn [bind] in E.
    rewrite Hs in E. cbn [bind] in E.
    destruct (build_ruleConfig _ _); cbn [bind] in E; [|discriminate].
    destruct (form_has_submit f); [|discriminate].
    injection E as <-. reflexivity.
  - intro Ht. rewrite Ht in Hconfig. unfold build_ruleConfig in Hconfig.
    change (strict_eq_str (JStr PERCENTAGE) PRICE_THRESHOLD) with false in Hconfig.
    change (strict_eq_str (JStr PERCENTAGE) PERCENTAGE) with true in Hconfig.
    cbn iota in Hconfig. rewrite !parseFloat_of_field in Hconfig.
    cbn [bind] in Hconfig. injection Hconfig as <-. reflexivity.
  - intros N1 N2. unfold build_ruleConfig in Hconfig.
    destruct (strict_eq_str (td_rule_type taskData) PRICE_THRESHOLD) eqn:E1.
    { apply strict_eq_str_true in E1. contradiction. }
    destruct (strict_eq_str (td_rule_type taskData) PERCENTAGE) eqn:E2.
    { apply strict_eq_str_true in E2. contradiction. }
    injection Hconfig as <-. reflexivity.
Qed.

End TaskForms.

(** ** Task cards *)

Section TaskCardDetails.
Context `{Platform}.

Lemma ruleDetail_reads (props : list (jsstring * jsval)) (rule_type : jsval)
  (shown : jsstring) :
  get_prop (JObj props) (lit "rule_type") = Normal rule_type ->
  ToString rule_type = Some shown ->
  createTaskCard_ruleDetail (JObj props) =
  try_catch (ruleDetail_try (JObj props)) (fun _ => Normal s_config_error).
Proof.
  intros Hrt Hs. unfold createTaskCard_ruleDetail.
  assert (Hstatus : exists v, get_prop (JObj props) (lit "status") = Normal v).
  { cbn [get_prop]. destruct (lookup (lit "status") props); eexists; reflexivity. }
  destruct Hstatus as [v ->]. cbn [bind]. rewrite Hrt. cbn [bind].
  unfold ToString_c. rewrite Hs. reflexivity.
Qed.

(** The rule detail of a PERCENTAGE task is ['涨跌幅: ' v '%'] with [v]
    whatever the configuration holds under [percentage_threshold],
    written as a string: a zero is shown, and a configuration without
    the key shows ['涨跌幅: undefined%']. *)
Theorem ruleDetail_percentage (props cfg : list (jsstring * jsval)) (rule_config : jsval) :
  lookup (lit "rule_type") props = Some (JStr PERCENTAGE) ->
  lookup (lit "rule_config") props = Some rule_config ->
  parse_rule_config rule_config = Normal (JObj cfg) ->
  createTaskCard_ruleDetail (JObj props) =
    match lookup k_percentage_threshold cfg with
    | Some v =>
        match ToString v with
        | Some x => Normal (s_change_pct ++ x ++ lit "%")
        | None => Normal s_config_error
        end
    | None => Normal (s_change_pct ++ lit "undefined%")
    end.
Proof.
  intros Hrt Hrc Hparse.
  rewrite (ruleDetail_reads props (JStr PERCENTAGE) PERCENTAGE)
    by (cbn [get_prop]; rewrite ?Hrt; reflexivity).
  unfold ruleDetail_try. cbn [get_prop]. rewrite Hrc, Hrt. cbn [bind].
  rewrite Hparse. cbn [bind].
  change (strict_eq_str (JStr PERCENTAGE) PRICE_THRESHOLD) with false.
  change (strict_eq_str (JStr PERCENTAGE) PERCENTAGE) with true.
  cbn iota. cbn [get_prop].
  destruct (lookup k_percentage_threshold cfg) as [v|]; cbn [bind]; [|reflexivity].
  unfold ToString_c. destruct (ToString v); reflexivity.
Qed.

(** A task of one of the two rule types whose configuration is
    missing, [null] or the JSON text [null] is marked ['配置错误']:
    reading a key of it throws, which the card catches. *)
Theorem ruleDetail_no_config (props : list (jsstring * jsval)) (rule_type : jsstring)
  (rule_config config : jsval) :
  lookup (lit "rule_type") props = Some (JStr rule_type) ->
  rule_type = PRICE_THRESHOLD \/ rule_type = PERCENTAGE ->
  get_prop (JObj props) (lit "rule_config") = Normal rule_config ->
  parse_rule_config rule_config = Normal config ->
  config = JNull \/ config = JUndefined ->
  createTaskCard_ruleDetail (JObj props) = Normal s_config_error.
Proof.
  intros Hrt Hknown Hrc Hparse Hconfig.
  rewrite (ruleDetail_reads props (JStr rule_type) rule_type)
    by (cbn [get_prop]; rewrite ?Hrt; reflexivity).
  unfold ruleDetail_try. rewrite Hrc. cbn [bind]. rewrite Hparse. cbn [bind].
  cbn [get_prop]. rewrite Hrt. cbn [bind].
  destruct Hknown as [-> | ->].
  - change (strict_eq_str (JStr PRICE_THRESHOLD) PRICE_THRESHOLD) with true. cbn iota.
    destruct Hconfig as [-> | ->]; reflexivity.
  - change (strict_eq_str (JStr PERCENTAGE) PRICE_THRESHOLD) with false.
    change (strict_eq_str (JStr PERCENTAGE) PERCENTAGE) with true. cbn iota.
    destruct Hconfig as [-> | ->]; reflexivity.
Qed.

(** A task of any other rule type gets a blank rule detail whenever
    its configuration parses, whatever the configuration is, and
    ['配置错误'] when it does not parse. *)
Theorem ruleDetail_other_type (props : list (jsstring * jsval)) (rule_type : jsstring)
  (rule_config : jsval) :
  lookup (lit "rule_type") props = Some (JStr rule_type) ->
  rule_type <> PRICE_THRESHOLD -> rule_type <> PERCENTAGE ->
  get_prop (JObj props) (lit "rule_config") = Normal rule_config ->
  createTaskCard_ruleDetail (JObj props) =
    match parse_rule_config rule_config with
    | Normal _ => Normal []
    | Throw _ => Normal s_config_error
    end.
Proof.
  intros Hrt N1 N2 Hrc.
  rewrite (ruleDetail_reads props (JStr rule_type) rule_type)
    by (cbn [get_prop]; rewrite ?Hrt; reflexivity).
  unfold ruleDetail_try. rewrite Hrc. cbn [bind].
  destruct (parse_rule_config rule_config) as [config|e]; cbn [bind]; [|reflexivity].
  cbn [get_prop]. rewrite Hrt. cbn [bind strict_eq_str].
  destruct (jsstring_eqb rule_type PRICE_THRESHOLD) eqn:E1.
  { apply jsstring_eqb_eq in E1. contradiction. }
  destruct (jsstring_eqb rule_type PERCENTAGE) eqn:E2.
  { apply jsstring_eqb_eq in E2. contradiction. }
  reflexivity.
Qed.

(** Computing the rule detail throws only while the task is read,
    before the [try]: on a task that is [null] or [undefined], or
    whose [rule_type] cannot be made a property key. For every other
    task it returns, whatever the configuration holds. *)
Theorem ruleDetail_throws_only_on_unreadable_task (task : jsval) :
  (task = JNull \/ task = JUndefined ->
   exists e, createTaskCard_ruleDetail task = Throw e) /\
  (forall rule_type,
     get_prop task (lit "rule_type") = Normal rule_type ->
     (ToString rule_type = None ->
      createTaskCard_ruleDetail task = Throw cannot_convert) /\
     (ToString rule_type <> None ->
      exists detail, createTaskCard_ruleDetail task = Normal detail)).
Proof.
  split.
  - intros [-> | ->]; eexists; reflexivity.
  - intros rule_type Hrt.
    assert (Hstatus : exists v, get_prop task (lit "status") = Normal v).
    { destruct task; try discriminate; cbn [get_prop];
        try (eexists; reflexivity).
      destruct (lookup (lit "status") props); eexists; reflexivity. }
    destruct Hstatus as [v Hv].
    unfold createTaskCard_ruleDetail. rewrite Hv, Hrt. cbn [bind].
    unfold ToString_c. split.
    + intros ->. reflexivity.
    + intro Hsome. destruct (ToString rule_type); [|contradiction].
      cbn [bind]. destruct (ruleDetail_try task); eexists; reflexivity.
Qed.

End TaskCardDetails.

(** ** Percentages in alert messages *)

(** Membership in a list written with [++] and [::]. *)
Ltac in_app :=
  repeat first [rewrite in_app_iff | progress cbn [In app]]; tauto.

Lemma span_digits_split (s d r : jsstring) :
  span_digits s = (d, r) -> s = d ++ r.
Proof.
  revert d r. induction s as [|c s IH]; intros d r E.
  - cbn [span_digits] in E. injection E as <- <-. reflexivity.
  - cbn [span_digits] in E. destruct (is_digit c).
    + destruct (span_digits s) as [d' r'] eqn:Es. injection E as <- <-.
      cbn [app]. f_equal. now apply IH.
    + injection E as <- <-. reflexivity.
Qed.

Lemma span_digits_stops (b : jsstring) (c : code_unit) (rest : jsstring) :
  is_digit c = false ->
  exists d b2, b = d ++ b2 /\ span_digits (b ++ c :: rest) = (d, b2 ++ c :: rest).
Proof.
  intro Hc. induction b as [|x b IH].
  - exists [], []. split; [reflexivity|]. cbn [app span_digits]. rewrite Hc. reflexivity.
  - cbn [app span_digits]. destruct (is_digit x) eqn:Ex.
    + destruct IH as (d & b2 & -> & ->). exists (x :: d), b2. split; reflexivity.
    + exists [], (x :: b). split; reflexivity.
Qed.

(** A number that starts before a character [c] that is neither a
    digit nor a dot ends at [c] or before it. *)
Lemma number_at_stops (b : jsstring) (c : code_unit) (rest m r : jsstring) :
  is_digit c = false -> cu_eqb c c_dot = false ->
  number_at (b ++ c :: rest) = Some (m, r) ->
  exists h t, r = h :: t /\ In h (b ++ [c]).
Proof.
  intros Hc Hdot. unfold number_at.
  destruct (span_digits_stops b c rest Hc) as (d & b2 & Eb & ->).
  destruct d as [|x d]; [discriminate|].
  destruct b2 as [|y b2]; cbn [app].
  - rewrite Hdot. intro E. injection E as <- <-.
    exists c, rest. split; [reflexivity|]. subst b. in_app.
  - destruct (cu_eqb y c_dot).
    + destruct (span_digits_stops b2 c rest Hc) as (d2 & b3 & Eb2 & ->).
      intro E. injection E as <- <-. subst b b2.
      destruct b3 as [|z b3]; cbn [app].
      * exists c, rest. split; [reflexivity|]. in_app.
      * exists z, (b3 ++ c :: rest). split; [reflexivity|]. in_app.
    + intro E. injection E as <- <-. subst b.
      exists y, (b2 ++ c :: rest). split; [reflexivity|]. in_app.
Qed.

Lemma number_at_not_digit (c : code_unit) (s : jsstring) :
  is_digit c = false -> number_at (c :: s) = None.
Proof. intro Hc. unfold number_at. cbn [span_digits]. rewrite Hc. reflexivity. Qed.

Lemma is_digit_not_sign (c : code_unit) :
  is_digit c = true -> cu_eqb c c_plus || cu_eqb c c_minus = false.
Proof.
  unfold is_digit, cu_eqb, c_plus, c_minus. intro Hd.
  apply andb_true_iff in Hd as [H1 H2]. apply N.leb_le in H1.
  apply orb_false_iff. split; apply N.eqb_neq; lia.
Qed.

Lemma sign_not_digit (c : code_unit) :
  cu_eqb c c_plus || cu_eqb c c_minus = true -> is_digit c = false.
Proof.
  intro Hs. destruct (is_digit c) eqn:Hd; [|reflexivity].
  rewrite (is_digit_not_sign c Hd) in Hs. discriminate.
Qed.

(** No percentage starts within the text before the first one. *)
Lemma percent_at_before (sign b : jsstring) (c : code_unit) (tail : jsstring) :
  ~ In c_percent (b ++ [c]) ->
  may_precede sign c = true ->
  (sign <> [] -> exists s0 t, tail = s0 :: t /\ is_digit s0 = false) ->
  percent_at (b ++ c :: tail) = None.
Proof.
  intros Hno Hclear Htail.
  unfold may_precede in Hclear.
  apply andb_true_iff in Hclear as [Hclear Hsign].
  apply andb_true_iff in Hclear as [Hdig Hdot].
  apply negb_true_iff in Hdig, Hdot.
  assert (Hfail : forall sg b', ~ In c_percent (b' ++ [c]) ->
             match number_at (b' ++ c :: tail) with
             | Some (m, c' :: _) => if cu_eqb c' c_percent then Some (sg ++ m) else None
             | _ => None
             end = None).
  { intros sg b' Hno'.
    destruct (number_at (b' ++ c :: tail)) as [[m r]|] eqn:En; [|reflexivity].
    destruct (number_at_stops _ _ _ _ _ Hdig Hdot En) as (h & t & -> & Hin).
    destruct (N.eqb_spec h c_percent) as [->|Hne]; [contradiction|].
    unfold cu_eqb. apply N.eqb_neq in Hne. rewrite Hne. reflexivity. }
  unfold percent_at. destruct b as [|f b]; cbn [app].
  - destruct (cu_eqb c c_plus || cu_eqb c c_minus) eqn:Hc.
    + destruct sign as [|s0 sign']; [discriminate Hsign|].
      destruct (Htail ltac:(discriminate)) as (t0 & t & -> & Ht0).
      rewrite (number_at_not_digit t0 t Ht0). reflexivity.
    + apply (Hfail [] []). exact Hno.
  - destruct (cu_eqb f c_plus || cu_eqb f c_minus).
    + apply (Hfail [f] b). intro I. apply Hno. right. exact I.
    + apply (Hfail [] (f :: b)). exact Hno.
Qed.

Lemma match_percent_here (s m : jsstring) :
  percent_at s = Some m -> match_percent s = Some m.
Proof. intro E. destruct s; cbn [match_percent]; rewrite E; reflexivity. Qed.

Lemma match_percent_skip (sign pre tail : jsstring) :
  ~ In c_percent pre ->
  ends_clear sign pre = true ->
  (sign <> [] -> exists s0 t, tail = s0 :: t /\ is_digit s0 = false) ->
  match_percent (pre ++ tail) = match_percent tail.
Proof.
  intros Hno Hclear Htail. induction pre as [|x pre IH]; [reflexivity|].
  assert (Hnone : percent_at ((x :: pre) ++ tail) = None).
  { unfold ends_clear in Hclear.
    destruct (rev (x :: pre)) as [|c rb] eqn:Er.
    - apply (f_equal (@length _)) in Er. rewrite length_rev in Er. discriminate.
    - assert (Epre : x :: pre = rev rb ++ [c]).
      { rewrite <- (rev_involutive (x :: pre)), Er. reflexivity. }
      rewrite Epre, <- app_assoc. cbn [app].
      apply (percent_at_before sign); [rewrite <- Epre; exact Hno | exact Hclear | exact Htail]. }
  cbn [app] in *. cbn [match_percent]. rewrite Hnone.
  apply IH.
  - intro I. apply Hno. right. exact I.
  - unfold ends_clear in *. cbn [rev] in Hclear.
    destruct (rev pre) as [|c rb]; [reflexivity | exact Hclear].
Qed.

Lemma percent_at_number (sign num post : jsstring) :
  sign = [] \/ sign = [c_plus] \/ sign = [c_minus] ->
  decimal_text num ->
  percent_at (sign ++ num ++ c_percent :: post) = Some (sign ++ num).
Proof.
  intros Hsign Hnum.
  assert (Hat : number_at (num ++ c_percent :: post) = Some (num, c_percent :: post)).
  { destruct Hnum as [[Hne Hd] | (d1 & d2 & -> & Hne & Hd1 & Hd2)].
    - apply number_at_integer; [exact Hne | exact Hd | reflexivity | reflexivity].
    - apply number_at_decimal; [exact Hne | exact Hd1 | exact Hd2 | reflexivity]. }
  assert (Hhead : exists d0 t, num = d0 :: t /\ is_digit d0 = true).
  { destruct Hnum as [[Hne Hd] | (d1 & d2 & -> & Hne & Hd1 & Hd2)].
    - destruct num as [|d0 t]; [contradiction|]. exists d0, t. split; [reflexivity|].
      unfold all_digits in Hd. cbn [forallb] in Hd. now apply andb_true_iff in Hd.
    - destruct d1 as [|d0 t]; [contradiction|]. exists d0, (t ++ c_dot :: d2).
      split; [reflexivity|].
      unfold all_digits in Hd1. cbn [forallb] in Hd1. now apply andb_true_iff in Hd1. }
  unfold percent_at.
  destruct Hsign as [-> | [-> | ->]]; cbn [app].
  - destruct Hhead as (d0 & t & E & Hd0).
    rewrite E in *. cbn [app] in *. rewrite (is_digit_not_sign d0 Hd0).
    rewrite Hat. change (cu_eqb c_percent c_percent) with true. reflexivity.
  - change (cu_eqb c_plus c_plus || cu_eqb c_plus c_minus) with true. cbn iota.
    rewrite Hat. reflexivity.
  - change (cu_eqb c_minus c_plus || cu_eqb c_minus c_minus) with true. cbn iota.
    rewrite Hat. reflexivity.
Qed.

Lemma match_percent_first (msg x : jsstring) :
  first_percentage msg x -> match_percent msg = Some x.
Proof.
  intros [pre sign num post -> -> Hsign Hnum Hno Hclear].
  rewrite (match_percent_skip sign); [| exact Hno | exact Hclear |].
  - apply match_percent_here. rewrite <- app_assoc. now apply percent_at_number.
  - intros Hne. destruct Hsign as [-> | [-> | ->]]; [contradiction| |];
      cbn [app]; do 2 eexists; split; reflexivity.
Qed.

(** An alert message about a rise or a fall (with ['涨'] or ['跌'],
    and neither ['突破'] nor ['跌破']) is shown as ['涨跌 ' x '%'] with
    [x] the first percentage written in it, sign included. *)
Theorem parseAlertMessage_percentage (msg x : jsstring) :
  includes msg s_break_above = false ->
  includes msg s_drop_below = false ->
  includes msg s_rise || includes msg s_fall = true ->
  first_percentage msg x ->
  parseAlertMessage (JStr msg) = Normal (s_updown_sp ++ x ++ lit "%").
Proof.
  intros H1 H2 H3 Hx. cbn [parseAlertMessage]. unfold parseAlertMessage_str.
  rewrite H1, H2, H3. cbn [orb].
  rewrite (match_percent_first msg x Hx). reflexivity.
Qed.

(** ** Messages without a number *)

Lemma number_at_no_digit (s : jsstring) : no_digit s -> number_at s = None.
Proof.
  unfold no_digit. destruct s as [|c s]; [reflexivity|].
  cbn [forallb]. intro E. apply andb_true_iff in E as [E _].
  apply negb_true_iff in E. now apply number_at_not_digit.
Qed.

Lemma match_number_no_digit (s : jsstring) : no_digit s -> match_number s = None.
Proof.
  induction s as [|c s IH]; intro Hs.
  - reflexivity.
  - cbn [match_number]. rewrite (number_at_no_digit _ Hs).
    apply IH. unfold no_digit in *. cbn [forallb] in Hs.
    now apply andb_true_iff in Hs.
Qed.

Lemma number_at_suffix (s m r : jsstring) :
  number_at s = Some (m, r) -> exists p, s = p ++ r.
Proof.
  unfold number_at. destruct (span_digits s) as [d r1] eqn:Es.
  apply span_digits_split in Es. subst s.
  destruct d as [|x d]; [discriminate|].
  destruct r1 as [|c r1].
  - intro E. injection E as <- <-. now exists (x :: d).
  - destruct (cu_eqb c c_dot).
    + destruct (span_digits r1) as [d2 r2] eqn:Es2.
      apply span_digits_split in Es2. subst r1.
      intro E. injection E as <- <-. exists ((x :: d) ++ c :: d2).
      rewrite <- app_assoc. reflexivity.
    + intro E. injection E as <- <-. now exists (x :: d).
Qed.

Lemma percent_at_needs_percent (s m : jsstring) :
  percent_at s = Some m -> In c_percent s.
Proof.
  assert (Hun : forall sg body m,
             match number_at body with
             | Some (m0, c' :: _) => if cu_eqb c' c_percent then Some (sg ++ m0) else None
             | _ => None
             end = Some m -> In c_percent body).
  { intros sg body m0. destruct (number_at body) as [[m1 r]|] eqn:En; [|discriminate].
    destruct r as [|c' r]; [discriminate|].
    destruct (cu_eqb c' c_percent) eqn:Ec; [|discriminate].
    intros _. apply cu_eqb_eq in Ec. subst c'.
    apply number_at_suffix in En as [p ->]. apply in_or_app. right. now left. }
  unfold percent_at. destruct s as [|c s]; [discriminate|].
  destruct (cu_eqb c c_plus || cu_eqb c c_minus).
  - intro E. right. exact (Hun _ _ _ E).
  - intro E. exact (Hun _ _ _ E).
Qed.

Lemma match_percent_needs_percent (s : jsstring) :
  ~ In c_percent s -> match_percent s = None.
Proof.
  induction s as [|c s IH]; intro Hno.
  - reflexivity.
  - cbn [match_percent].
    destruct (percent_at (c :: s)) as [m|] eqn:E.
    + apply percent_at_needs_percent in E. contradiction.
    + apply IH. intro I. apply Hno. right. exact I.
Qed.

(** What [parseAlertMessage] shows when the message carries no number
    it can use. Without any of the four words it is ['预警触发'],
    whatever else the message holds. A message with ['突破'] or
    ['跌破'] and no digit is ['价格预警']. A message about a rise or a
    fall without a percent sign is ['涨跌预警'], also when it states a
    price. *)
Theorem parseAlertMessage_labels :
  (forall msg,
      includes msg s_break_above = false -> includes msg s_drop_below = false ->
      includes msg s_rise = false -> includes msg s_fall = false ->
      parseAlertMessage (JStr msg) = Normal s_alert_fired) /\
  (forall msg,
      includes msg s_break_above || includes msg s_drop_below = true ->
      no_digit msg ->
      parseAlertMessage (JStr msg) = Normal s_price_alert) /\
  (forall msg,
      includes msg s_break_above = false -> includes msg s_drop_below = false ->
      includes msg s_rise || includes msg s_fall = true ->
      ~ In c_percent msg ->
      parseAlertMessage (JStr msg) = Normal s_updown_alert) /\
  parseAlertMessage (JStr (lit "BTC " ++ s_rise ++ lit " 50000"))
    = Normal s_updown_alert.
Proof.
  split; [|split; [|split]].
  - intros msg H1 H2 H3 H4. cbn [parseAlertMessage]. unfold parseAlertMessage_str.
    rewrite H1, H2, H3, H4. reflexivity.
  - intros msg H1 Hd. cbn [parseAlertMessage]. unfold parseAlertMessage_str.
    rewrite H1, (match_number_no_digit msg Hd). reflexivity.
  - intros msg H1 H2 H3 Hp. cbn [parseAlertMessage]. unfold parseAlertMessage_str.
    rewrite H1, H2, H3, (match_percent_needs_percent msg Hp). reflexivity.
  - reflexivity.
Qed.

(** ** Numbers with a fixed number of decimals *)

Lemma last_digits_length (f : nat) (n : Z) : length (last_digits f n) = f.
Proof.
  revert n. induction f as [|f IH]; intro n; [reflexivity|].
  cbn [last_digits]. rewrite length_app, IH. cbn [length]. lia.
Qed.

Lemma last_digits_zero (f : nat) : last_digits f 0 = repeat 48%N f.
Proof.
  induction f as [|f IH]; [reflexivity|].
  cbn [last_digits]. change (0 / 10) with 0. rewrite IH.
  change [digit_cu (0 mod 10)] with [48%N].
  cbn [repeat]. apply eq_sym, repeat_cons.
Qed.

Lemma decimal_digits_pow (f : nat) (n : Z) :
  10 ^ Z.of_nat f <= n ->
  decimal_digits n = decimal_digits (n / 10 ^ Z.of_nat f) ++ last_digits f n.
Proof.
  revert n. induction f as [|f IH]; intros n Hn.
  - change (10 ^ Z.of_nat 0) with 1. rewrite Z.div_1_r. cbn [last_digits].
    now rewrite app_nil_r.
  - rewrite Nat2Z.inj_succ, Z.pow_succ_r in * by lia.
    assert (Hp : 0 < 10 ^ Z.of_nat f) by (apply Z.pow_pos_nonneg; lia).
    rewrite decimal_digits_step by lia.
    rewrite (IH (n / 10)) by (apply Z.div_le_lower_bound; lia).
    rewrite Z.div_div by lia. cbn [last_digits].
    rewrite <- app_assoc. reflexivity.
Qed.

Lemma decimal_digits_pad (f : nat) (n : Z) :
  (1 <= f)%nat -> 0 <= n < 10 ^ Z.of_nat f ->
  (length (decimal_digits n) <= f)%nat /\
  repeat 48%N (f - length (decimal_digits n)) ++ decimal_digits n = last_digits f n.
Proof.
  revert n. induction f as [|f IH]; intros n Hf Hn; [lia|].
  rewrite Nat2Z.inj_succ, Z.pow_succ_r in Hn by lia.
  destruct (Z.lt_ge_cases n 10) as [H10 | H10].
  - rewrite decimal_digits_small by lia. cbn [length last_digits].
    split; [lia|].
    rewrite (Z.div_small n 10), (Z.mod_small n 10) by lia.
    rewrite last_digits_zero. f_equal. f_equal. lia.
  - assert (Hf' : (1 <= f)%nat).
    { destruct f; [change (10 ^ Z.of_nat 0) with 1 in Hn; lia | lia]. }
    assert (Hq : 0 <= n / 10 < 10 ^ Z.of_nat f).
    { split; [apply Z.div_pos; lia | apply Z.div_lt_upper_bound; lia]. }
    destruct (IH (n / 10) Hf' Hq) as [Hlen Hpad].
    rewrite decimal_digits_step by lia. rewrite length_app. cbn [length last_digits].
    split; [lia|].
    rewrite <- Hpad, <- app_assoc. f_equal. f_equal. lia.
Qed.

(** The layout step of [toFixed(f)] for [f >= 1]: the digits of [n],
    padded to [f + 1], with a dot before the last [f]. *)
Lemma fixed_layout (f : nat) (n : Z) :
  (1 <= f)%nat -> 0 <= n ->
  let m := if n =? 0 then lit "0" else decimal_digits n in
  let k := Z.of_nat (length m) in
  let m' := if k <=? Z.of_nat f
            then repeat_cu 48%N (Z.of_nat f + 1 - k) ++ m else m in
  let k' := Z.of_nat (length m') in
  firstn (Z.to_nat (k' - Z.of_nat f)) m' ++ lit "."
    ++ skipn (Z.to_nat (k' - Z.of_nat f)) m' =
  decimal_digits (n / 10 ^ Z.of_nat f) ++ lit "." ++ last_digits f n.
Proof.
  intros Hf Hn m.
  assert (Hm : m = decimal_digits n).
  { subst m. destruct (Z.eqb_spec n 0) as [-> | _]; reflexivity. }
  clearbody m. subst m. cbv zeta.
  destruct (Z.lt_ge_cases n (10 ^ Z.of_nat f)) as [Hlt | Hge].
  - destruct (decimal_digits_pad f n Hf (conj Hn Hlt)) as [Hlen Hpad].
    destruct (Z.leb_spec (Z.of_nat (length (decimal_digits n))) (Z.of_nat f))
      as [_ | Hgt]; [|lia].
    unfold repeat_cu.
    replace (Z.to_nat (Z.of_nat f + 1 - Z.of_nat (length (decimal_digits n))))
      with (S (f - length (decimal_digits n))) by lia.
    cbn [repeat]. rewrite <- app_comm_cons. unfold jsstring, code_unit in *. rewrite Hpad.
    cbn [length]. rewrite last_digits_length.
    replace (Z.to_nat (Z.of_nat (S f) - Z.of_nat f)) with 1%nat by lia.
    rewrite Z.div_small by lia. reflexivity.
  - rewrite (decimal_digits_pow f n Hge).
    set (hi := decimal_digits (n / 10 ^ Z.of_nat f)).
    assert (Hp : 0 < 10 ^ Z.of_nat f) by (apply Z.pow_pos_nonneg; lia).
    assert (Hhi : hi <> []).
    { apply decimal_digits_nonempty. apply Z.div_pos; lia. }
    rewrite length_app, last_digits_length.
    destruct (Z.leb_spec (Z.of_nat (length hi + f)) (Z.of_nat f)) as [Hle | _].
    + destruct hi; [contradiction | cbn [length] in Hle; lia].
    + rewrite length_app, last_digits_length.
      replace (Z.to_nat (Z.of_nat (length hi + f) - Z.of_nat f)) with (length hi) by lia.
      now rewrite firstn_length_app, skipn_length_app.
Qed.

(** [x.toFixed(f)] for [f >= 1] and a finite [x] below 10^21 in
    magnitude. *)
Lemma toFixed_decimals (x : number) (f : nat) :
  (1 <= f)%nat ->
  is_finite x = true ->
  fst (magnitude x) < 10 ^ 21 * snd (magnitude x) ->
  exists n, nearest_scaled x f n /\ toFixed x (Z.of_nat f) = fixed_text x f n.
Proof.
  intros Hf Hfin Hsmall.
  destruct (magnitude_bounds x) as [Hnum Hden].
  set (num := fst (magnitude x)) in *. set (den := snd (magnitude x)) in *.
  assert (Hp : 0 < 10 ^ Z.of_nat f) by (apply Z.pow_pos_nonneg; lia).
  set (p := 10 ^ Z.of_nat f) in *.
  set (n := (2 * num * p + den) / (2 * den)).
  assert (Hdm := Z.div_mod (2 * num * p + den) (2 * den) ltac:(lia)).
  assert (Hmod := Z.mod_pos_bound (2 * num * p + den) (2 * den) ltac:(lia)).
  fold n in Hdm.
  assert (Hn : 0 <= n) by (apply Z.div_pos; nia).
  exists n. split.
  - unfold nearest_scaled. fold num den p. split; [exact Hn|].
    set (r := (2 * num * p + den) mod (2 * den)) in *.
    replace (n * den) with (den * n) by apply Z.mul_comm.
    replace (2 * den * n) with (2 * (den * n)) in Hdm by ring.
    replace (2 * num * p) with (2 * (p * num)) in Hdm by ring.
    lia.
  - unfold toFixed, fixed_text. rewrite Hfin. cbn [negb].
    destruct (magnitude x) as [num' den'] eqn:Emag.
    change num' with num. change den' with den.
    destruct (Z.leb_spec (10 ^ 21 * den) num) as [Hbig | _]; [lia|].
    destruct (Z.eqb_spec (Z.of_nat f) 0) as [E0 | _]; [lia|].
    fold p. fold n.
    pose proof (fixed_layout f n Hf Hn) as Hlay. cbv zeta in Hlay.
    rewrite Hlay. reflexivity.
Qed.

Section PriceProperties.
Variable toLocaleString_en_US : number -> Z -> jsstring.

(** Below 1000, [utils.formatNumber(num, decimals)] writes [num]
    rounded to the nearest multiple of 10^-decimals with exactly
    [decimals] digits after the dot (for a finite [num] below 10^21 in
    magnitude and [decimals] from 1 to 100), with a minus sign for a
    negative [num]; from 1000 on it is what [toLocaleString] gives. *)
Theorem formatNumber_decimals (num : number) (decimals : nat) :
  (1 <= decimals <= 100)%nat ->
  is_finite num = true ->
  fst (magnitude num) < 10 ^ 21 * snd (magnitude num) ->
  (num_ge num (num_of_Z 1000) = true ->
   formatNumber toLocaleString_en_US num (Z.of_nat decimals)
     = toLocaleString_en_US num (Z.of_nat decimals)) /\
  (num_ge num (num_of_Z 1000) = false ->
   exists n,
     nearest_scaled num decimals n /\
     formatNumber toLocaleString_en_US num (Z.of_nat decimals)
       = fixed_text num decimals n /\
     length (last_digits decimals n) = decimals).
Proof.
  intros Hd Hfin Hsmall. unfold formatNumber. split; intros ->; [reflexivity|].
  destruct (toFixed_decimals num decimals ltac:(lia) Hfin Hsmall) as (n & Hn & E).
  exists n. split; [exact Hn|]. split; [exact E | apply last_digits_length].
Qed.

(** [utils.formatPrice] writes a price below 1000 with a dollar sign
    and four decimals from 1 on, six below 1 (negative prices and
    zero included): the price rounded to the nearest such decimal. A
    price that is not a number gives ['$NaN']. *)
Theorem formatPrice_decimals (price : number) :
  is_finite price = true ->
  fst (magnitude price) < 10 ^ 21 * snd (magnitude price) ->
  num_ge price (num_of_Z 1000) = false ->
  let decimals := if num_ge price (num_of_Z 1) then 4%nat else 6%nat in
  (exists n,
     nearest_scaled price decimals n /\
     formatPrice toLocaleString_en_US price = lit "$" ++ fixed_text price decimals n /\
     length (last_digits decimals n) = decimals) /\
  formatPrice toLocaleString_en_US NaN = lit "$NaN".
Proof.
  intros Hfin Hsmall Hlt decimals. split; [|reflexivity].
  unfold formatPrice, formatNumber. rewrite Hlt. subst decimals.
  destruct (num_ge price (num_of_Z 1)).
  - destruct (toFixed_decimals price 4 ltac:(lia) Hfin Hsmall) as (n & Hn & E).
    exists n. split; [exact Hn|]. split; [|apply last_digits_length].
    change 4 with (Z.of_nat 4). rewrite E. reflexivity.
  - destruct (toFixed_decimals price 6 ltac:(lia) Hfin Hsmall) as (n & Hn & E).
    exists n. split; [exact Hn|]. split; [|apply last_digits_length].
    change 6 with (Z.of_nat 6). rewrite E. reflexivity.
Qed.

Lemma toFixed_negative (x : number) (f : Z) :
  is_finite x = true -> num_lt0 x = true ->
  exists rest, toFixed x f = c_minus :: rest.
Proof.
  intros Hfin Hneg. unfold toFixed. rewrite Hfin, Hneg. cbn [negb].
  destruct (magnitude x) as [num den].
  destruct (10 ^ 21 * den <=? num); eexists; reflexivity.
Qed.

(** On a price card the class, the arrow and the sign of the change
    agree. A change of zero or more gets the class ['price-change up'],
    a leading ['+'] and ['↗']; any other change gets
    ['price-change down'] and ['↘'], with a leading ['-'] when it is a
    negative number and the text ['NaN% ↘'] when it is not a number.
    The card holds three elements without children of their own: the
    symbol, the price and the change, the symbol stored as text. *)
Theorem createPriceCard_change (symbol : jsstring) (data : price_data) :
  exists symbolDiv valueDiv changeDiv,
    el_children (createPriceCard toLocaleString_en_US symbol data)
      = [symbolDiv; valueDiv; changeDiv] /\
    el_textContent symbolDiv = symbol /\
    el_textContent valueDiv = formatPrice toLocaleString_en_US (pd_price data) /\
    el_children symbolDiv = [] /\ el_children valueDiv = [] /\
    el_children changeDiv = [] /\
    (num_ge0 (pd_change data) = true ->
     el_className changeDiv = lit "price-change up" /\
     exists text,
       el_textContent changeDiv = c_plus :: text ++ lit " " ++ s_arrow_up) /\
    (num_ge0 (pd_change data) = false ->
     el_className changeDiv = lit "price-change down" /\
     (exists text, el_textContent changeDiv = text ++ lit " " ++ s_arrow_down) /\
     (is_finite (pd_change data) = true ->
      exists text, el_textContent changeDiv = c_minus :: text) /\
     (pd_change data = NaN ->
      el_textContent changeDiv = lit "NaN% " ++ s_arrow_down)).
Proof.
  unfold createPriceCard. rewrite !createElement_classed.
  set (pct := formatPercentage (pd_change data)).
  do 3 eexists. split; [reflexivity|]. cbn [el_textContent el_children el_className].
  split; [reflexivity|]. split; [reflexivity|]. split; [reflexivity|].
  split; [reflexivity|]. split; [reflexivity|].
  split.
  - intro Hge. rewrite Hge. split; [reflexivity|].
    unfold pct, formatPercentage. rewrite Hge.
    exists (toFixed (pd_change data) 2 ++ lit "%").
    cbn [app lit list_ascii_of_string map]. rewrite <- !app_assoc. reflexivity.
  - intro Hlt. rewrite Hlt. split; [reflexivity|]. split; [now exists pct|]. split.
    + intro Hfin. unfold pct, formatPercentage. rewrite Hlt. cbn [app].
      assert (Hneg : num_lt0 (pd_change data) = true).
      { destruct (pd_change data) as [s | s | | s m e]; try discriminate;
          destruct s; try discriminate; reflexivity. }
      destruct (toFixed_negative (pd_change data) 2 Hfin Hneg) as [rest ->].
      eexists. cbn [app]. reflexivity.
    + intro Hnan. unfold pct. rewrite Hnan. reflexivity.
Qed.

End PriceProperties.

(** ** Submitting and deleting tasks *)



Section TaskRequests.
Context `{Platform}.
Variable fetch : request -> completion response.
Variable JSON_stringify : jsval -> completion (option jsstring).
Variable renderTaskList : jsval -> completion unit.


(** [loadTasks] replaces the list by the server's answer only when
    the request succeeds with a truthy JSON body (an empty array is
    one). When the request fails, the status is not OK or the body is
    not JSON, the list stays as it was; so it does when rendering the
    new list throws, after the list was replaced. *)
Theorem loadTasks_list (p : task_page) :
  let p' := TaskScript.loadTasks fetch renderTaskList p in
  match fetch {| req_url := lit "/api/tasks"; req_method := lit "GET";
                 req_headers := json_headers; req_body := None |} with
  | Throw _ => tp_tasks p' = tp_tasks p
  | Normal r =>
      if resp_ok r then
        match resp_json r with
        | Normal body => tp_tasks p' = if ToBoolean body then body else tp_tasks p
        | Throw _ => tp_tasks p' = tp_tasks p
        end
      else tp_tasks p' = tp_tasks p
  end.
Proof.
  unfold TaskScript.loadTasks, api_get, handle_response.
  cbn [ToString_c ToString].
  change (API_BASE ++ lit "/tasks") with (lit "/api/tasks").
  destruct (fetch _) as [r|e]; [|reflexivity].
  destruct (resp_ok r); cbn [negb].
  - destruct (resp_json r) as [body|e]; [|reflexivity].
    cbn [api_catch]. destruct (ToBoolean body); [|reflexivity].
    destruct (renderTaskList body); reflexivity.
  - destruct (resp_status r =? 401); reflexivity.
Qed.




End TaskRequests.

(** ** The notification of a new alert *)

(** [addNewAlert] announces an alert object as
    ['新预警', symbol ' ' type ' 触发'] when the page may show
    notifications (a missing [symbol] or [type] reads ['undefined']),
    and shows nothing otherwise. Called with [null] or [undefined] it
    throws a TypeError, but only at the notification: the value has
    been put into [state.alerts] and [loadAlerts] has been started by
    then, and no notification is shown. *)
Theorem addNewAlert_notification (st : dash_state) :
  (forall props symbol type,
      ToString (own_field props (lit "symbol")) = Some symbol ->
      ToString (own_field props (lit "type")) = Some type ->
      fst (addNewAlert (JObj props) st) = Normal tt /\
      st_notifications (snd (addNewAlert (JObj props) st)) =
        (if st_notify_granted st
         then st_notifications st ++ [(s_new_alert, symbol ++ lit " " ++ type ++ s_sp_fired)]
         else st_notifications st)) /\
  (forall props symbol,
      lookup (lit "symbol") props = Some (JStr symbol) ->
      lookup (lit "type") props = None ->
      st_notify_granted st = true ->
      st_notifications (snd (addNewAlert (JObj props) st)) =
        st_notifications st ++ [(s_new_alert, symbol ++ lit " undefined" ++ s_sp_fired)]) /\
  (forall alert,
      alert = JNull \/ alert = JUndefined ->
      (exists e, fst (addNewAlert alert st) = Throw e /\ err_kind e = TypeError) /\
      st_alerts (snd (addNewAlert alert st)) =
        (if (10 <? length (alert :: st_alerts st))%nat
         then pop (alert :: st_alerts st) else alert :: st_alerts st) /\
      st_loads_started (snd (addNewAlert alert st)) = S (st_loads_started st) /\
      st_notifications (snd (addNewAlert alert st)) = st_notifications st).
Proof.
  assert (Hobj : forall props symbol type,
             ToString (own_field props (lit "symbol")) = Some symbol ->
             ToString (own_field props (lit "type")) = Some type ->
             fst (addNewAlert (JObj props) st) = Normal tt /\
             st_notifications (snd (addNewAlert (JObj props) st)) =
               (if st_notify_granted st
                then st_notifications st
                       ++ [(s_new_alert, symbol ++ lit " " ++ type ++ s_sp_fired)]
                else st_notifications st)).
  { intros props symbol type Hs Ht. unfold addNewAlert, own_field in *.
    cbn [get_prop]. unfold ToString_c.
    destruct (lookup (lit "symbol") props) as [vs|]; cbn [bind]; rewrite Hs; cbn [bind];
      (destruct (lookup (lit "type") props) as [vt|]; cbn [bind]; rewrite Ht; cbn [bind]);
      unfold showNotification; cbn [st_notify_granted st_notifications];
      destruct (st_notify_granted st); split; reflexivity. }
  split; [exact Hobj|]. split.
  - intros props symbol Hs Ht Hg.
    destruct (Hobj props symbol (lit "undefined")) as [_ Hn].
    + unfold own_field. rewrite Hs. reflexivity.
    + unfold own_field. rewrite Ht. reflexivity.
    + rewrite Hn, Hg. reflexivity.
  - intros alert Halert. split; [|split; [apply addNewAlert_alerts|]].
    + destruct Halert as [-> | ->]; eexists; split; reflexivity.
    + destruct Halert as [-> | ->]; split; reflexivity.
Qed.

(** ** More concrete runs: the properties above at sample inputs *)

(** The form 'eth moving 5 percent from 3000' posts both keys. *)
Lemma createTask_config_by_type_witness :
  exists taskData,
    createTask_taskData (H := Reference.platform) ex_form_percentage = Normal taskData /\
    td_user_id taskData = num_of_Z 42 /\
    td_rule_config taskData =
      [(k_percentage_threshold, JNum (num_of_Z 5));
       (k_reference_price, JNum (num_of_Z 3000))].
Proof.
  eexists. split; [vm_compute; reflexivity|].
  match goal with |- td_user_id ?t = _ /\ _ =>
    destruct (createTask_config_by_type (H := Reference.platform) ex_form_percentage t)
      as (Huser & _ & Hpct & _)
  end.
  - vm_compute; reflexivity.
  - split.
    + rewrite Huser. vm_compute; reflexivity.
    + rewrite Hpct by reflexivity. vm_compute; reflexivity.
Defined.

(** A PERCENTAGE task of 5 percent, and one whose configuration is empty. *)
Lemma ruleDetail_percentage_witness :
  createTaskCard_ruleDetail (H := Reference.platform)
      (ex_task_of PERCENTAGE (ex_json_member "percentage_threshold" "5"))
    = Normal (s_change_pct ++ lit "5%") /\
  createTaskCard_ruleDetail (H := Reference.platform) (ex_task_of PERCENTAGE (lit "{}"))
    = Normal (s_change_pct ++ lit "undefined%").
Proof.
  unfold ex_task_of. split.
  - rewrite (ruleDetail_percentage (H := Reference.platform) _
               [(k_percentage_threshold, JNum (num_of_Z 5))]
               (JStr (ex_json_member "percentage_threshold" "5")));
      [vm_compute; reflexivity | reflexivity | reflexivity | vm_compute; reflexivity].
  - rewrite (ruleDetail_percentage (H := Reference.platform) _ [] (JStr (lit "{}")));
      reflexivity.
Defined.

(** A PERCENTAGE task whose configuration is the JSON text [null]. *)
Lemma ruleDetail_no_config_witness :
  createTaskCard_ruleDetail (H := Reference.platform) (ex_task_of PERCENTAGE (lit "null"))
    = Normal s_config_error.
Proof.
  unfold ex_task_of.
  apply (ruleDetail_no_config (H := Reference.platform) _ PERCENTAGE
           (JStr (lit "null")) JNull);
    [reflexivity | right; reflexivity | reflexivity | reflexivity | left; reflexivity].
Defined.

(** A task of a rule type the card does not know. *)
Lemma ruleDetail_other_type_witness :
  createTaskCard_ruleDetail (H := Reference.platform)
      (ex_task_of (lit "VOLUME") (ex_json_member "threshold_high" "50000"))
    = Normal [] /\
  createTaskCard_ruleDetail (H := Reference.platform) (ex_task_of (lit "VOLUME") (lit "{oops"))
    = Normal s_config_error.
Proof.
  unfold ex_task_of. split.
  - rewrite (ruleDetail_other_type (H := Reference.platform) _ (lit "VOLUME")
               (JStr (ex_json_member "threshold_high" "50000")));
      [reflexivity | reflexivity | discriminate | discriminate | reflexivity].
  - rewrite (ruleDetail_other_type (H := Reference.platform) _ (lit "VOLUME")
               (JStr (lit "{oops")));
      [reflexivity | reflexivity | discriminate | discriminate | reflexivity].
Defined.

(** 'ETH 24h 涨幅 +5.2%，现价 3150' is shown as '涨跌 +5.2%'. *)
Lemma parseAlertMessage_percentage_witness :
  parseAlertMessage (JStr ex_rise_message) = Normal (s_updown_sp ++ lit "+5.2%").
Proof.
  apply (parseAlertMessage_percentage ex_rise_message (lit "+5.2"));
    [reflexivity | reflexivity | reflexivity |].
  apply (first_percentage_intro _ _
           (lit "ETH 24h " ++ [0x6DA8; 0x5E45]%N ++ lit " ") [c_plus] (lit "5.2")
           ([0xFF0C; 0x73B0; 0x4EF7]%N ++ lit " 3150")).
  - reflexivity.
  - reflexivity.
  - right. left. reflexivity.
  - right. exists (lit "5"), (lit "2").
    split; [reflexivity|]. split; [discriminate|]. split; reflexivity.
  - vm_compute. intuition discriminate.
  - reflexivity.
Defined.

(** 94.6 with four decimals. *)
Lemma formatNumber_decimals_witness :
  formatNumber ex_toLocaleString ex_price 4 = lit "94.6000" /\
  exists n,
    nearest_scaled ex_price 4 n /\
    formatNumber ex_toLocaleString ex_price (Z.of_nat 4) = fixed_text ex_price 4 n /\
    length (last_digits 4 n) = 4%nat.
Proof.
  split; [vm_compute; reflexivity|].
  destruct (formatNumber_decimals ex_toLocaleString ex_price 4) as [_ Hbelow].
  - lia.
  - reflexivity.
  - vm_compute; reflexivity.
  - apply Hbelow. vm_compute; reflexivity.
Defined.

(** 94.6 and one half as prices. *)
Lemma formatPrice_decimals_witness :
  formatPrice ex_toLocaleString ex_price = lit "$94.6000" /\
  formatPrice ex_toLocaleString ex_half = lit "$0.500000" /\
  exists n,
    nearest_scaled ex_half 6 n /\
    formatPrice ex_toLocaleString ex_half = lit "$" ++ fixed_text ex_half 6 n /\
    length (last_digits 6 n) = 6%nat.
Proof.
  split; [vm_compute; reflexivity|]. split; [vm_compute; reflexivity|].
  destruct (formatPrice_decimals ex_toLocaleString ex_half) as [Hhalf _].
  - reflexivity.
  - vm_compute; reflexivity.
  - vm_compute; reflexivity.
  - exact Hhalf.
Defined.


